(** * Behavioural anomaly detection of the admin dashboard: a Rocq model

    A shallow embedding of the anomaly-detection code of the dashboard:
    the time-bucket utilities of [src/composables/useDataQuality.js] and the
    feature catalogue, feature extraction, baseline estimation and scoring of
    the analysis view (the [<script setup>] block that imports them, in
    [unnamed/part_001]).  The refs of the view are gathered in a record
    [State]; a computed property is a function of the state, and
    [loadBaselineStats] maps the state and the results of its two queries to
    the next state.

    Numbers.  A JavaScript number is modelled as [number A]: either [NaN] or a
    finite value of the carrier [A].  The time utilities only ever produce
    integers, so they are stated over [number Z] and they compute; statistics
    are stated over [number R], the binary64 operations being idealised as the
    exact operations on real numbers (no rounding, no overflow, no signed
    zero, no infinities).  A division by zero has no value in this model; it
    is given [NaN], and every division of the embedded code is guarded
    against a zero divisor.

    Strings are sequences of 8-bit characters (code units below 256). *)

From Stdlib Require Import ZArith String Ascii List Bool Lia DecimalString.
From Stdlib Require Import DecimalPos.
From Stdlib Require Import Reals Lra.
Import ListNotations.

(* ================================================================== *)
(** * The fragment of JavaScript the code relies on *)
(* ================================================================== *)

Module JS.

(** A number is [NaN] or finite. *)
Inductive number (A : Type) : Type :=
| NaN
| Fin (x : A).
Arguments NaN {A}.
Arguments Fin {A} x.

(** The values a numeric field, a lookup or an extractor can yield. *)
Inductive value (A : Type) : Type :=
| Null
| Undefined
| Num (n : number A).
Arguments Null {A}.
Arguments Undefined {A}.
Arguments Num {A} n.

(** Arithmetic propagates [NaN]. *)
Definition lift1 {A} (f : A -> A) (a : number A) : number A :=
  match a with
  | Fin x => Fin (f x)
  | NaN => NaN
  end.

Definition lift2 {A} (f : A -> A -> A) (a b : number A) : number A :=
  match a, b with
  | Fin x, Fin y => Fin (f x y)
  | _, _ => NaN
  end.

Definition map_number {A B} (f : A -> B) (a : number A) : number B :=
  match a with
  | Fin x => Fin (f x)
  | NaN => NaN
  end.

Definition map_value {A B} (f : A -> B) (v : value A) : value B :=
  match v with
  | Null => Null
  | Undefined => Undefined
  | Num n => Num (map_number f n)
  end.

(** [isNaN] on a number. *)
Definition number_isNaN {A} (a : number A) : bool :=
  match a with
  | NaN => true
  | Fin _ => false
  end.

(** ** Strings *)

Open Scope string_scope.

(** [!s] for a string that may be null or undefined: absent or empty. *)
Definition string_falsy (s : option string) : bool :=
  match s with
  | None => true
  | Some EmptyString => true
  | Some _ => false
  end.

(** [s.split(sep)] for a one-character separator; never the empty list. *)
Fixpoint split (sep : ascii) (s : string) : list string :=
  match s with
  | EmptyString => [EmptyString]
  | String c r =>
      if Ascii.eqb c sep then EmptyString :: split sep r
      else match split sep r with
           | p :: ps => String c p :: ps
           | [] => [String c EmptyString]
           end
  end.

(** White space and line terminators skipped by [parseInt]. *)
Definition is_white_space (c : ascii) : bool :=
  let n := nat_of_ascii c in
  ((n =? 9) || (n =? 10) || (n =? 11) || (n =? 12) || (n =? 13)
   || (n =? 32) || (n =? 160))%nat.

Fixpoint trim_start (s : string) : string :=
  match s with
  | String c r => if is_white_space c then trim_start r else s
  | EmptyString => s
  end.

(** Value of a character as a digit in radix up to 36. *)
Definition digit_value (c : ascii) : option Z :=
  let n := Z.of_nat (nat_of_ascii c) in
  if (48 <=? n)%Z && (n <=? 57)%Z then Some (n - 48)%Z
  else if (97 <=? n)%Z && (n <=? 122)%Z then Some (n - 87)%Z
  else if (65 <=? n)%Z && (n <=? 90)%Z then Some (n - 55)%Z
  else None.

(** The longest prefix of digits of the radix, as a number; [None] when the
    prefix is empty. *)
Fixpoint parse_digits (radix : Z) (s : string) (acc : option Z) : option Z :=
  match s with
  | String c r =>
      match digit_value c with
      | Some d =>
          if (d <? radix)%Z
          then parse_digits radix r
                 (Some (match acc with
                        | Some a => a * radix + d
                        | None => d
                        end)%Z)
          else acc
      | None => acc
      end
  | EmptyString => acc
  end.

(** [parseInt(x)] without a radix; [None] is the argument [undefined], whose
    string form is ["undefined"]. *)
Definition parseInt (x : option string) : number Z :=
  let input := match x with Some s => s | None => "undefined" end in
  let s := trim_start input in
  let '(sign, s) :=
    match s with
    | String "-" r => ((-1)%Z, r)
    | String "+" r => (1%Z, r)
    | _ => (1%Z, s)
    end in
  let '(radix, s) :=
    match s with
    | String "0" (String "x" r) => (16%Z, r)
    | String "0" (String "X" r) => (16%Z, r)
    | _ => (10%Z, s)
    end in
  match parse_digits radix s None with
  | Some n => Fin (sign * n)%Z
  | None => NaN
  end.

(** [String(n)] for an integer (below 10^21 in absolute value, where
    JavaScript still prints all digits). *)
Definition String_of_Z (n : Z) : string :=
  NilEmpty.string_of_int (Z.to_int n).

Definition String_of_number (n : number Z) : string :=
  match n with
  | Fin z => String_of_Z z
  | NaN => "NaN"
  end.

(** [n] characters of the filler repeated. *)
Fixpoint repeat_fill (filler cur : string) (n : nat) : string :=
  match n with
  | O => EmptyString
  | S n' =>
      match cur with
      | String c r => String c (repeat_fill filler r n')
      | EmptyString =>
          match filler with
          | String c r => String c (repeat_fill filler r n')
          | EmptyString => EmptyString
          end
      end
  end.

(** [s.padStart(target, filler)]. *)
Definition padStart (target : nat) (filler : string) (s : string) : string :=
  if (target <=? String.length s)%nat then s
  else repeat_fill filler filler (target - String.length s) ++ s.

(** [n === 0] on an integer. *)
Definition int_is_zero (n : number Z) : bool :=
  match n with
  | Fin z => (z =? 0)%Z
  | NaN => false
  end.

(** ** Numbers over the reals *)

Open Scope R_scope.

Definition Rltb (x y : R) : bool := if Rlt_dec x y then true else false.
Definition Reqb (x y : R) : bool := if Req_dec_T x y then true else false.

Definition add : number R -> number R -> number R := lift2 Rplus.
Definition sub : number R -> number R -> number R := lift2 Rminus.
Definition mul : number R -> number R -> number R := lift2 Rmult.

(** [a / b]; a zero divisor is outside the model. *)
Definition div (a b : number R) : number R :=
  match a, b with
  | Fin x, Fin y => if Reqb y 0 then NaN else Fin (x / y)
  | _, _ => NaN
  end.

(** [a ** 2] and [Math.pow(a, 2)]. *)
Definition square : number R -> number R := lift1 (fun x => x ^ 2).

Definition Math_abs : number R -> number R := lift1 Rabs.
Definition Math_min : number R -> number R -> number R := lift2 Rmin.
Definition Math_max : number R -> number R -> number R := lift2 Rmax.

Definition Math_sqrt (a : number R) : number R :=
  match a with
  | Fin x => if Rltb x 0 then NaN else Fin (sqrt x)
  | NaN => NaN
  end.

(** [Math.round]: the nearest integer, halves upwards. *)
Definition Math_round : number R -> number R :=
  lift1 (fun x => IZR (Int_part (x + / 2))).

(** [Math.max(x, ...xs)], of at least one argument. *)
Definition Math_max_of (x : number R) (xs : list (number R)) : number R :=
  fold_left Math_max xs x.

(** [a < b] and [a > b]: false as soon as an operand is [NaN]. *)
Definition lt (a b : number R) : bool :=
  match a, b with
  | Fin x, Fin y => Rltb x y
  | _, _ => false
  end.

Definition gt (a b : number R) : bool := lt b a.

(** [a === 0] *)
Definition is_zero (a : number R) : bool :=
  match a with
  | Fin x => Reqb x 0
  | NaN => false
  end.

(** Truthiness: [null], [undefined], [NaN] and [0] are falsy. *)
Definition number_truthy (a : number R) : bool :=
  match a with
  | Fin x => negb (Reqb x 0)
  | NaN => false
  end.

Definition truthy (v : value R) : bool :=
  match v with
  | Num n => number_truthy n
  | Null | Undefined => false
  end.

Definition ToNumber (v : value R) : number R :=
  match v with
  | Null => Fin 0
  | Undefined => NaN
  | Num n => n
  end.

(** [v || d] where [d] is a number. *)
Definition or_number (v : value R) (d : number R) : number R :=
  match v with
  | Num n => if number_truthy n then n else d
  | Null | Undefined => d
  end.

(** [v ?? null] *)
Definition or_null (v : value R) : value R :=
  match v with
  | Undefined => Null
  | _ => v
  end.

(** Arrays of numbers; an index out of range reads [undefined]. *)
Definition array : Type := list (value R).

Definition array_get (a : array) (i : nat) : value R :=
  match nth_error a i with
  | Some v => v
  | None => Undefined
  end.

(** Objects with string keys, in insertion order. *)
Definition object (V : Type) : Type := list (string * V).

Fixpoint obj_get {V} (o : object V) (k : string) : option V :=
  match o with
  | [] => None
  | (k', v) :: o' => if String.eqb k' k then Some v else obj_get o' k
  end.

Fixpoint obj_set {V} (o : object V) (k : string) (v : V) : object V :=
  match o with
  | [] => [(k, v)]
  | (k', v') :: o' =>
      if String.eqb k' k then (k', v) :: o' else (k', v') :: obj_set o' k v
  end.

Definition Object_keys {V} (o : object V) : list string := map fst o.
Definition Object_values {V} (o : object V) : list V := map snd o.

(** A stable sort, as [Array.prototype.sort] is for a consistent order. *)
Fixpoint insert_sorted {T} (leb : T -> T -> bool) (x : T) (l : list T)
  : list T :=
  match l with
  | [] => [x]
  | y :: l' => if leb y x then y :: insert_sorted leb x l' else x :: l
  end.

Definition sort {T} (leb : T -> T -> bool) (l : list T) : list T :=
  fold_left (fun acc x => insert_sorted leb x acc) l [].

End JS.

Import JS.

(* ================================================================== *)
(** * [useDataQuality.js]: time strings *)
(* ================================================================== *)

Module DataQuality.

Open Scope string_scope.
Open Scope Z_scope.

(** [formatMinutesToTime(minutes)], for an integral number of minutes:
    [Math.floor(minutes / 60)] is the floor quotient, [minutes % 60] the
    remainder with the sign of the dividend, on which [Math.round] is the
    identity. *)
Definition formatMinutesToTime (minutes : value Z) : option string :=
  match minutes with
  | Null | Undefined => None
  | Num minutes =>
      let h := lift1 (fun x => x / 60) minutes in
      let m := lift1 (fun x => Z.rem x 60) minutes in
      Some (padStart 2 "0" (String_of_number h) ++ ":"
              ++ padStart 2 "0" (String_of_number m))
  end.

(** [timeToMinutes(time)]. *)
Definition timeToMinutes (time : option string) : number Z :=
  if string_falsy time then Fin 0
  else
    let parts := split ":" (match time with Some s => s | None => "" end) in
    lift2 Z.add
      (lift2 Z.mul (parseInt (nth_error parts 0)) (Fin 60))
      (parseInt (nth_error parts 1)).

(** [awakeDuration(firstActivity, lastActivity)]. *)
Definition awakeDuration (firstActivity lastActivity : option string)
  : value Z :=
  if string_falsy firstActivity || string_falsy lastActivity then Null
  else
    let first := timeToMinutes firstActivity in
    let last := timeToMinutes lastActivity in
    if int_is_zero first && int_is_zero last then Null
    else Num (lift2 Z.max (Fin 0) (lift2 Z.sub last first)).

(** ** Statistics and hourly buckets *)

Open Scope R_scope.

(** [avg(arr)]: [arr.reduce((a, b) => a + b, 0) / arr.length]. *)
Definition avg (arr : option (list (number R))) : value R :=
  match arr with
  | None | Some [] => Null
  | Some arr =>
      Num (div (fold_left add arr (Fin 0)) (Fin (INR (length arr))))
  end.

(** [stddev(arr)]. *)
Definition stddev (arr : option (list (number R))) : number R :=
  match arr with
  | None => Fin 1
  | Some l =>
      if (length l <? 2)%nat then Fin 1
      else
        let mean := avg arr in
        let squareDiffs := map (fun v => square (sub v (ToNumber mean))) l in
        or_number (Num (Math_sqrt (ToNumber (avg (Some squareDiffs)))))
          (Fin 1)
  end.

(** [sumEventsInRange(eventsPerHour, startHour, endHour)], both ends
    included. *)
Definition sumEventsInRange (eventsPerHour : option array)
    (startHour endHour : nat) : number R :=
  match eventsPerHour with
  | None => Fin 0
  | Some a =>
      if (length a <? 24)%nat then Fin 0
      else
        fold_left (fun sum h => add sum (or_number (array_get a h) (Fin 0)))
          (seq startHour (endHour + 1 - startHour)) (Fin 0)
  end.

(** [cosineSimilarity(a, b)]. *)
Definition cosineSimilarity (a b : option array) : number R :=
  match a, b with
  | Some a, Some b =>
      if negb (length a =? length b)%nat then Fin 0
      else
        let idx := seq 0 (length a) in
        let at0 (x : array) (i : nat) := or_number (array_get x i) (Fin 0) in
        let dotProduct :=
          fold_left (fun s i => add s (mul (at0 a i) (at0 b i))) idx (Fin 0) in
        let normA :=
          fold_left (fun s i => add s (square (at0 a i))) idx (Fin 0) in
        let normB :=
          fold_left (fun s i => add s (square (at0 b i))) idx (Fin 0) in
        if is_zero normA || is_zero normB then Fin 0
        else div dotProduct (mul (Math_sqrt normA) (Math_sqrt normB))
  | _, _ => Fin 0
  end.

(** ** Day boundaries and activity of the day *)

(** The day boundary constants. *)
Definition DAY_START_HOUR : nat := 5.
Definition NIGHT_START_HOUR : nat := 23.
Definition NIGHT_END_HOUR : nat := 6.

(** [a >= b]: false as soon as an operand is [NaN]. *)
Definition geq (a b : number R) : bool :=
  match a, b with
  | Fin x, Fin y => negb (Rltb x y)
  | _, _ => false
  end.

(** [calculateDayStart(eventsPerHour)]: each loop returns at the first hour
    that passes its test. *)
Definition calculateDayStart (eventsPerHour : option array) : value Z :=
  match eventsPerHour with
  | None => Null
  | Some e =>
      if (length e <? 24)%nat then Null
      else
        let cluster (h : nat) :=
          geq (ToNumber (array_get e h)) (Fin 2)
          && (gt (or_number (array_get e (h + 1)) (Fin 0)) (Fin 0)
              || gt (or_number (array_get e (h + 2)) (Fin 0)) (Fin 0)) in
        match find cluster (seq DAY_START_HOUR (12 - DAY_START_HOUR)) with
        | Some h => Num (Fin (Z.of_nat h * 60)%Z)
        | None =>
            match find (fun h => gt (ToNumber (array_get e h)) (Fin 0))
                    (seq DAY_START_HOUR (24 - DAY_START_HOUR)) with
            | Some h => Num (Fin (Z.of_nat h * 60)%Z)
            | None => Null
            end
        end
  end.

(** [getDayEventsUntilHour(eventsPerHour, untilHour)], for an integral
    hour. *)
Definition getDayEventsUntilHour (eventsPerHour : option array)
    (untilHour : nat) : number R :=
  match eventsPerHour with
  | None => Fin 0
  | Some e =>
      let endHour := Nat.min untilHour NIGHT_START_HOUR in
      fold_left (fun total h => add total (or_number (array_get e h) (Fin 0)))
        (seq DAY_START_HOUR (endHour - DAY_START_HOUR)) (Fin 0)
  end.

(** [getDayEvents(eventsPerHour)] *)
Definition getDayEvents (eventsPerHour : option array) : number R :=
  match eventsPerHour with
  | None => Fin 0
  | Some e =>
      fold_left (fun total h => add total (or_number (array_get e h) (Fin 0)))
        (seq DAY_START_HOUR (NIGHT_START_HOUR - DAY_START_HOUR)) (Fin 0)
  end.

(** [getActiveDayHoursUntilHour(eventsPerHour, untilHour)]; the counter is
    a natural number. *)
Definition getActiveDayHoursUntilHour (eventsPerHour : option array)
    (untilHour : nat) : nat :=
  match eventsPerHour with
  | None => 0%nat
  | Some e =>
      let endHour := Nat.min untilHour NIGHT_START_HOUR in
      fold_left
        (fun count h =>
           if gt (ToNumber (array_get e h)) (Fin 0) then S count else count)
        (seq DAY_START_HOUR (endHour - DAY_START_HOUR)) 0%nat
  end.

(** [getActiveDayHours(eventsPerHour)] *)
Definition getActiveDayHours (eventsPerHour : option array) : nat :=
  match eventsPerHour with
  | None => 0%nat
  | Some e =>
      fold_left
        (fun count h =>
           if gt (ToNumber (array_get e h)) (Fin 0) then S count else count)
        (seq DAY_START_HOUR (NIGHT_START_HOUR - DAY_START_HOUR)) 0%nat
  end.

(** [isNightHour(hour)], for an integral hour. *)
Definition isNightHour (hour : nat) : bool :=
  (NIGHT_START_HOUR <=? hour)%nat || (hour <? NIGHT_END_HOUR)%nat.

(** ** Local date keys *)

(** What [toLocalDateKey] reads of a [Date]: [getFullYear()], [getMonth()]
    (from 0) and [getDate()]. *)
Record LocalDate : Type := {
  getFullYear : Z;
  getMonth : Z;
  getDate : Z
}.

(** [toLocalDateKey(date)] *)
Definition toLocalDateKey (date : LocalDate) : string :=
  let year := getFullYear date in
  let month := padStart 2 "0" (String_of_Z (getMonth date + 1)) in
  let day := padStart 2 "0" (String_of_Z (getDate date)) in
  (String_of_Z year ++ "-" ++ month ++ "-" ++ day)%string.

End DataQuality.

Import DataQuality.

(* ================================================================== *)
(** * The analysis view: catalogue, extraction, baseline and score *)
(* ================================================================== *)

Module Analyse.

Open Scope string_scope.
Open Scope R_scope.

(** ** Data *)

(** A row of [daily_activity_stats]. *)
Record DailyStats : Type := {
  date : string;
  events_per_hour : option array;
  total_events : value R;
  active_hours : value R;
  longest_gap_minutes : value R;
  night_events : value R;
  night_active_hours : value R;
  rooms_active : value R;
  rooms_available : value R;
  motion_events : value R;
  door_events : value R;
  first_activity : option string;
  last_activity : option string
}.

(** A row of [room_activity_hourly], as selected by the view. *)
Record RoomRow : Type := {
  room_name : string;
  hour : string;
  room_motion_events : value R;
  room_door_events : value R;
  room_total_events : value R
}.

(** An entry of the feature catalogue; a flag the literal leaves out is
    [undefined], which every test reads as false. *)
Record Feature : Type := {
  key : string;
  label : string;
  unit : string;
  isTime : bool;
  isDerived : bool;
  isRoomData : bool;
  weight : R;
  isRoomFeature : bool
}.

Record FeatureGroup : Type := {
  id : string;
  group_label : string;
  features : list Feature
}.

Definition feature (key label unit : string)
    (isTime isDerived isRoomData : bool) (weight : R) (isRoomFeature : bool)
  : Feature :=
  Build_Feature key label unit isTime isDerived isRoomData weight
    isRoomFeature.

Definition featureGroups : list FeatureGroup := [
  {| id := "timing"; group_label := "Tijdstip"; features := [
       feature "first_activity" "Eerste activiteit" "min"
         true false false 1.0 false;
       feature "last_activity" "Laatste activiteit" "min"
         true false false 1.0 false;
       feature "awake_duration" "Wakkere duur" "min"
         false true false 0.8 false ] |};
  {| id := "volume"; group_label := "Volume"; features := [
       feature "total_events" "Totaal events" ""
         false false false 1.0 false;
       feature "active_hours" "Actieve uren" "u"
         false false false 1.0 false;
       feature "morning_events" "Ochtend (06-12)" ""
         false true false 0.8 false;
       feature "afternoon_events" "Middag (12-18)" ""
         false true false 0.8 false;
       feature "evening_events" "Avond (18-23)" ""
         false true false 0.8 false ] |};
  {| id := "gaps"; group_label := "Rust & nacht"; features := [
       feature "longest_gap_minutes" "Langste gap" "min"
         false false false 1.2 false;
       feature "night_events" "Nacht events" ""
         false false false 1.0 false;
       feature "night_active_hours" "Nacht actieve uren" "u"
         false false false 0.8 false ] |};
  {| id := "rooms"; group_label := "Ruimte"; features := [
       feature "rooms_active" "Actieve kamers" ""
         false false false 0.8 false;
       feature "room_ratio" "Kamer ratio" ""
         false true false 0.6 true;
       feature "main_room_pct" "Hoofdkamer %" "%"
         false false true 0.6 true ] |};
  {| id := "devices"; group_label := "Sensor type"; features := [
       feature "motion_events" "Beweging events" ""
         false false false 0.8 false;
       feature "door_events" "Deur events" ""
         false false false 0.8 false ] |};
  {| id := "patterns"; group_label := "Patroon"; features := [
       feature "transition_count" "Kamerwisselingen" ""
         false false true 0.6 true;
       feature "activity_regularity" "Regelmaat score" ""
         false true false 0.6 false ] |}
].

Definition allFeatures : list Feature := flat_map features featureGroups.

(** The baseline object: [avg_], [std_], [min_], [max_] entries per
    feature and [daysCount]; an absent key reads [undefined]. *)
Definition Stats : Type := object (number R).

Definition stats_get (stats : Stats) (k : string) : value R :=
  match obj_get stats k with
  | Some n => Num n
  | None => Undefined
  end.

(** The refs of the view that the computation reads and writes. *)
Record State : Type := {
  selectedConfigId : option string;
  dayStats : option DailyStats;
  baselineStats : option Stats;
  roomHourlyData : option (list RoomRow);
  baselineRoomByDate : object (list RoomRow);
  baselineAvgHourlyPattern : option array
}.

(** [ds[k]] for the numeric columns. *)
Definition number_field (ds : DailyStats) (k : string) : value R :=
  if k =? "total_events" then total_events ds
  else if k =? "active_hours" then active_hours ds
  else if k =? "longest_gap_minutes" then longest_gap_minutes ds
  else if k =? "night_events" then night_events ds
  else if k =? "night_active_hours" then night_active_hours ds
  else if k =? "rooms_active" then rooms_active ds
  else if k =? "rooms_available" then rooms_available ds
  else if k =? "motion_events" then motion_events ds
  else if k =? "door_events" then door_events ds
  else Undefined.

(** [ds[k]] for the time columns. *)
Definition time_field (ds : DailyStats) (k : string) : option string :=
  if k =? "first_activity" then first_activity ds
  else if k =? "last_activity" then last_activity ds
  else None.

Definition of_int (v : value Z) : value R := map_value IZR v.

(** ** Active features *)

Definition activeFeatures (st : State) : list Feature :=
  let roomsAvailable :=
    match dayStats st with
    | Some ds => or_number (rooms_available ds) (Fin 0)
    | None => Fin 0
    end in
  filter (fun f => if isRoomFeature f then gt roomsAvailable (Fin 1)
                   else true)
    allFeatures.

(** [v === null] and [v === 0] *)
Definition is_null (v : value R) : bool :=
  match v with
  | Null => true
  | _ => false
  end.

Definition is_zero_value (v : value R) : bool :=
  match v with
  | Num n => is_zero n
  | _ => false
  end.

(** [calculateZScore(value, mean, stddev)] *)
Definition calculateZScore (value mean stddev : value R) : number R :=
  if is_zero_value stddev || is_null stddev || is_null value || is_null mean
  then Fin 0
  else div (sub (ToNumber value) (ToNumber mean)) (ToNumber stddev).

(** ** Feature values *)

(** [computeMainRoomPct(roomData)] *)
Definition computeMainRoomPct (roomData : option (list RoomRow)) : value R :=
  match roomData with
  | None | Some [] => Null
  | Some rows =>
      let roomTotals : object (number R) :=
        fold_left
          (fun roomTotals row =>
             obj_set roomTotals (room_name row)
               (add (or_number (stats_get roomTotals (room_name row)) (Fin 0))
                    (or_number (room_total_events row) (Fin 0))))
          rows [] in
      match Object_values roomTotals with
      | [] => Null
      | t :: ts =>
          let maxRoom := Math_max_of t ts in
          let totalAll := fold_left add (t :: ts) (Fin 0) in
          if is_zero totalAll then Null
          else Num (Math_round (mul (div maxRoom totalAll) (Fin 100)))
      end
  end.

Section Engine.

(** [new Date(s).getTime()] for the hour stamps of the room rows, which are
    valid timestamps: the order the rows are sorted in. *)
Variable Date_getTime : string -> Z.

(** The room with the most events of one hour, none when no row has any. *)
Definition dominantRoom (rows : list RoomRow) : option string :=
  fst (fold_left
         (fun '(maxRoom, maxEvents) r =>
            if gt (or_number (room_total_events r) (Fin 0)) maxEvents
            then (Some (room_name r), or_number (room_total_events r) (Fin 0))
            else (maxRoom, maxEvents))
         rows (None, Fin 0)).

(** The number of [i >= 1] with [rooms[i] !== rooms[i - 1]]. *)
Fixpoint count_changes (rooms : list string) : nat :=
  match rooms with
  | a :: ((b :: _) as rest) =>
      ((if String.eqb b a then 0 else 1) + count_changes rest)%nat
  | _ => 0%nat
  end.

(** [computeTransitionCount(roomData)] *)
Definition computeTransitionCount (roomData : option (list RoomRow))
  : value R :=
  match roomData with
  | None | Some [] => Null
  | Some rows =>
      let sorted :=
        sort (fun a b => (Date_getTime (hour a) <=? Date_getTime (hour b))%Z)
          rows in
      let hourGroups : object (list RoomRow) :=
        fold_left
          (fun hourGroups row =>
             match obj_get hourGroups (hour row) with
             | Some g => obj_set hourGroups (hour row) (g ++ [row])%list
             | None => obj_set hourGroups (hour row) [row]
             end)
          sorted [] in
      let hourKeys := sort String.leb (Object_keys hourGroups) in
      let dominantRooms :=
        flat_map
          (fun hk =>
             match obj_get hourGroups hk with
             | Some rows =>
                 match dominantRoom rows with
                 | Some r => if String.eqb r "" then [] else [r]
                 | None => []
                 end
             | None => []
             end)
          hourKeys in
      Num (Fin (INR (count_changes dominantRooms)))
  end.

(** [getTodayValue(feature)] *)
Definition getTodayValue (st : State) (feature : Feature) : value R :=
  match dayStats st with
  | None => Null
  | Some ds =>
      let k := key feature in
      if (k =? "first_activity") || (k =? "last_activity")
      then of_int (Num (timeToMinutes (time_field ds k)))
      else if (k =? "total_events") || (k =? "active_hours")
              || (k =? "longest_gap_minutes") || (k =? "night_events")
              || (k =? "night_active_hours") || (k =? "rooms_active")
              || (k =? "motion_events") || (k =? "door_events")
      then or_null (number_field ds k)
      else if k =? "morning_events"
      then Num (sumEventsInRange (events_per_hour ds) 6 11)
      else if k =? "afternoon_events"
      then Num (sumEventsInRange (events_per_hour ds) 12 17)
      else if k =? "evening_events"
      then Num (sumEventsInRange (events_per_hour ds) 18 22)
      else if k =? "awake_duration"
      then of_int (awakeDuration (first_activity ds) (last_activity ds))
      else if k =? "room_ratio"
      then
        if negb (truthy (rooms_available ds)) then Null
        else Num (div (ToNumber (rooms_active ds))
                      (ToNumber (rooms_available ds)))
      else if k =? "main_room_pct"
      then computeMainRoomPct (roomHourlyData st)
      else if k =? "transition_count"
      then computeTransitionCount (roomHourlyData st)
      else if k =? "activity_regularity"
      then
        match events_per_hour ds, baselineAvgHourlyPattern st with
        | Some e, Some p => Num (cosineSimilarity (Some e) (Some p))
        | _, _ => Null
        end
      else Null
  end.

(** [getHistoricalValue(feature, day, roomData)]; the hourly pattern is the
    one [loadBaselineStats] has just stored. *)
Definition getHistoricalValue (pattern : option array) (feature : Feature)
    (day : DailyStats) (roomData : list RoomRow) : value R :=
  let k := key feature in
  if (k =? "first_activity") || (k =? "last_activity")
  then
    let v := timeToMinutes (time_field day k) in
    if int_is_zero v && string_falsy (time_field day k) then Null
    else of_int (Num v)
  else if (k =? "total_events") || (k =? "active_hours")
          || (k =? "longest_gap_minutes") || (k =? "night_events")
          || (k =? "night_active_hours") || (k =? "rooms_active")
          || (k =? "motion_events") || (k =? "door_events")
  then or_null (number_field day k)
  else if k =? "morning_events"
  then Num (sumEventsInRange (events_per_hour day) 6 11)
  else if k =? "afternoon_events"
  then Num (sumEventsInRange (events_per_hour day) 12 17)
  else if k =? "evening_events"
  then Num (sumEventsInRange (events_per_hour day) 18 22)
  else if k =? "awake_duration"
  then of_int (awakeDuration (first_activity day) (last_activity day))
  else if k =? "room_ratio"
  then
    if negb (truthy (rooms_available day)) then Null
    else Num (div (ToNumber (rooms_active day))
                  (ToNumber (rooms_available day)))
  else if k =? "main_room_pct"
  then computeMainRoomPct (Some roomData)
  else if k =? "transition_count"
  then computeTransitionCount (Some roomData)
  else if k =? "activity_regularity"
  then
    match events_per_hour day, pattern with
    | Some e, Some p => Num (cosineSimilarity (Some e) (Some p))
    | _, _ => Null
    end
  else Null.

(** ** Scores *)

Inductive Severity : Type := high | medium | low.

(** A row of the score table; the formatted strings shown next to the
    numbers ([todayValue], [baselineValue], [stddev], [zScoreDisplay]) are
    left out. *)
Record ScoreRow : Type := {
  row_key : string;
  row_label : string;
  row_weight : R;
  zScore : number R;
  severity : Severity
}.

Definition avgKey (feature : Feature) : string :=
  if isTime feature then "avg_" ++ key feature ++ "_minutes"
  else "avg_" ++ key feature.

Definition stdKey (feature : Feature) : string :=
  if isTime feature then "std_" ++ key feature ++ "_minutes"
  else "std_" ++ key feature.

(** The body of the [map] of [scoreBreakdown]. *)
Definition scoreRow (st : State) (stats : Stats) (feature : Feature)
  : ScoreRow :=
  let todayValue := getTodayValue st feature in
  let baselineValue := stats_get stats (avgKey feature) in
  let stddevValue := stats_get stats (stdKey feature) in
  let zScore := calculateZScore todayValue baselineValue stddevValue in
  let absZ := Math_abs zScore in
  {| row_key := key feature;
     row_label := label feature;
     row_weight := weight feature;
     zScore := zScore;
     severity := if gt absZ (Fin 2) then high
                 else if gt absZ (Fin 1) then medium
                 else low |}.

(** [scoreBreakdown] *)
Definition scoreBreakdown (st : State) : list ScoreRow :=
  match dayStats st, baselineStats st with
  | Some _, Some stats => map (scoreRow st stats) (activeFeatures st)
  | _, _ => []
  end.

(** The rows [anomalyScore] keeps: [s.zScore !== null && !isNaN(s.zScore)]. *)
Definition validScores (st : State) : list ScoreRow :=
  filter (fun s => negb (number_isNaN (zScore s))) (scoreBreakdown st).

(** [anomalyScore] *)
Definition anomalyScore (st : State) : number R :=
  match scoreBreakdown st with
  | [] => Fin 0
  | _ =>
      match validScores st with
      | [] => Fin 0
      | s :: rest =>
          let maxAbsZ :=
            Math_max_of (Math_abs (zScore s))
              (map (fun s => Math_abs (zScore s)) rest) in
          let totalWeight :=
            fold_left (fun sum s => add sum (Fin (row_weight s)))
              (s :: rest) (Fin 0) in
          let weightedAvgZ :=
            div (fold_left
                   (fun sum s =>
                      add sum (mul (Math_abs (zScore s)) (Fin (row_weight s))))
                   (s :: rest) (Fin 0))
                totalWeight in
          Math_min (Fin 1)
            (div (add (mul (Fin 0.6) maxAbsZ) (mul (Fin 0.4) weightedAvgZ))
                 (Fin 3))
      end
  end.

Record Label : Type := { text : string; color : string }.

(** [anomalyLabel] *)
Definition anomalyLabel (st : State) : Label :=
  let score := anomalyScore st in
  if lt score (Fin 0.33) then {| text := "Normaal"; color := "primary" |}
  else if lt score (Fin 0.66) then {| text := "Afwijkend"; color := "amber" |}
  else {| text := "Sterk afwijkend"; color := "red" |}.

(** ** Baseline *)

(** The samples kept for the baseline:
    [value !== null && value !== undefined && !isNaN(value)]. *)
Definition surviving (v : value R) : list R :=
  match v with
  | Num (Fin x) => [x]
  | _ => []
  end.

(** The element-wise mean of the full-length hourly arrays, if any. *)
Definition averageHourlyPattern (dailyData : list DailyStats) : option array :=
  let hourlyPatterns :=
    flat_map
      (fun d => match events_per_hour d with
                | Some e => if (length e =? 24)%nat then [e] else []
                | None => []
                end)
      dailyData in
  match hourlyPatterns with
  | [] => None
  | _ =>
      let avgPattern :=
        fold_left
          (fun avgPattern pattern =>
             map (fun h => add (nth h avgPattern (Fin 0))
                               (or_number (array_get pattern h) (Fin 0)))
               (seq 0 24))
          hourlyPatterns (repeat (Fin 0) 24) in
      Some (map (fun v => Num (div v (Fin (INR (length hourlyPatterns)))))
              avgPattern)
  end.

(** The room rows of the window by the date part of their hour stamp. *)
Definition groupRoomByDate (roomData : option (list RoomRow))
  : object (list RoomRow) :=
  match roomData with
  | None => []
  | Some rows =>
      fold_left
        (fun roomByDate row =>
           let dateKey := substring 0 10 (hour row) in
           match obj_get roomByDate dateKey with
           | Some g => obj_set roomByDate dateKey (g ++ [row])%list
           | None => obj_set roomByDate dateKey [row]
           end)
        rows []
  end.

(** The samples of one feature over the window. *)
Definition samples (pattern : option array) (roomByDate : object (list RoomRow))
    (dailyData : list DailyStats) (feature : Feature) : list R :=
  flat_map
    (fun day =>
       surviving
         (getHistoricalValue pattern feature day
            (match obj_get roomByDate (date day) with
             | Some rows => rows
             | None => []
             end)))
    dailyData.

(** Mean, variance and stored deviation ([std || 1]) of the samples of a
    feature. *)
Definition sample_mean (values : list R) : R :=
  fold_left Rplus values 0 / INR (length values).

Definition sample_variance (values : list R) : R :=
  let mean := sample_mean values in
  fold_left (fun sum v => sum + (v - mean) ^ 2) values 0
  / INR (length values).

Definition stored_std (values : list R) : R :=
  let std := sqrt (sample_variance values) in
  if Reqb std 0 then 1 else std.

(** The four entries one feature adds to the baseline object, when it has
    a sample. *)
Definition featureStats (stats : Stats) (feature : Feature) (values : list R)
  : Stats :=
  match values with
  | [] => stats
  | v :: vs =>
      let suffix := if isTime feature then "_minutes" else "" in
      let stats :=
        obj_set stats ("avg_" ++ key feature ++ suffix)
          (Fin (sample_mean values)) in
      let stats :=
        obj_set stats ("std_" ++ key feature ++ suffix)
          (Fin (stored_std values)) in
      let stats :=
        obj_set stats ("min_" ++ key feature ++ suffix)
          (Fin (fold_left Rmin vs v)) in
      obj_set stats ("max_" ++ key feature ++ suffix)
        (Fin (fold_left Rmax vs v))
  end.

(** The object [loadBaselineStats] stores for a window with at least one
    day. *)
Definition computeStats (pattern : option array)
    (roomByDate : object (list RoomRow)) (dailyData : list DailyStats)
  : Stats :=
  let stats :=
    fold_left
      (fun stats feature =>
         featureStats stats feature
           (samples pattern roomByDate dailyData feature))
      allFeatures [] in
  obj_set stats "daysCount" (Fin (INR (length dailyData))).

(** [loadBaselineStats], given what the two queries return: the rows of
    the window and whether the query failed, then the room rows.  On the
    data of the model nothing throws, so the [catch] branch is never
    taken. *)
Definition loadBaselineStats (st : State) (dailyError : bool)
    (dailyData : option (list DailyStats)) (roomData : option (list RoomRow))
  : State :=
  if string_falsy (selectedConfigId st) then st
  else
    match dailyError, dailyData with
    | false, Some ((_ :: _) as days) =>
        let pattern := averageHourlyPattern days in
        let roomByDate := groupRoomByDate roomData in
        {| selectedConfigId := selectedConfigId st;
           dayStats := dayStats st;
           baselineStats := Some (computeStats pattern roomByDate days);
           roomHourlyData := roomHourlyData st;
           baselineRoomByDate := roomByDate;
           baselineAvgHourlyPattern := pattern |}
    | _, _ =>
        {| selectedConfigId := selectedConfigId st;
           dayStats := dayStats st;
           baselineStats := None;
           roomHourlyData := roomHourlyData st;
           baselineRoomByDate := baselineRoomByDate st;
           baselineAvgHourlyPattern := baselineAvgHourlyPattern st |}
    end.

(** ** Groups of the score table *)

(** [features.includes(f)] on entries of the catalogue: they are distinct
    objects with distinct keys, so the same object is the entry with the
    same key. *)
Definition includes (fs : list Feature) (f : Feature) : bool :=
  existsb (fun g => key g =? key f) fs.

(** [activeFeatureGroups] *)
Definition activeFeatureGroups (st : State) : list FeatureGroup :=
  filter (fun group => (0 <? length (features group))%nat)
    (map (fun group =>
            {| id := id group;
               group_label := group_label group;
               features :=
                 filter (includes (activeFeatures st)) (features group) |})
       featureGroups).

(** [groupedBreakdown]: the rows by key, then per group the rows of its
    features; [filter(Boolean)] drops the features without a row. *)
Definition groupedBreakdown (st : State) : object (list ScoreRow) :=
  let byKey : object ScoreRow :=
    fold_left (fun byKey row => obj_set byKey (row_key row) row)
      (scoreBreakdown st) [] in
  fold_left
    (fun result group =>
       obj_set result (id group)
         (flat_map (fun f => match obj_get byKey (key f) with
                             | Some row => [row]
                             | None => []
                             end)
            (features group)))
    (activeFeatureGroups st) [].

(** [Math.floor(x)] and the remainder [x % 60] of a finite number: the
    remainder has the sign of the dividend. *)
Definition Math_floor (x : R) : Z := Int_part x.

Definition trunc (x : R) : Z :=
  if Rltb x 0 then (- Int_part (- x))%Z else Int_part x.

Definition rem60 (x : R) : R := x - 60 * IZR (trunc (x / 60)).

(** [minutesToTime(minutes)], on the numbers of the table: today's value
    and the baseline mean of a time feature. *)
Definition minutesToTime (minutes : value R) : string :=
  match minutes with
  | Null | Undefined => "-"
  | Num NaN => "NaN:NaN"
  | Num (Fin x) =>
      let h := Math_floor (x / 60) in
      let m := Int_part (rem60 x + / 2) in
      padStart 2 "0" (String_of_Z h) ++ ":" ++ padStart 2 "0" (String_of_Z m)
  end.

End Engine.

End Analyse.

(* ================================================================== *)
(** * The project store: tickets, phases and identifiers *)
(* ================================================================== *)

(** The reactive store of the project plan (the first module of
    [unnamed/part_001]) and the identifier maps next to it.  A function
    that mutates the store or the maps takes the state and returns the
    next one.  The requests that persist a change through the API are not
    part of the state and are left out; so are the fields of a ticket that
    no function below reads (description, priority, value, acceptance
    criteria, estimated hours, planned week, labels, comments and creation
    date), which every function carries along unchanged. *)

Module ProjectStore.

Open Scope string_scope.
Open Scope Z_scope.

(** ** Maps *)

(** A [Map] as the list of its entries, in insertion order. *)
Section Maps.

Context {K V : Type} (eqb : K -> K -> bool).

Fixpoint Map_get (m : list (K * V)) (k : K) : option V :=
  match m with
  | [] => None
  | (k', v) :: m' => if eqb k' k then Some v else Map_get m' k
  end.

Fixpoint Map_set (m : list (K * V)) (k : K) (v : V) : list (K * V) :=
  match m with
  | [] => [(k, v)]
  | (k', v') :: m' =>
      if eqb k' k then (k', v) :: m' else (k', v') :: Map_set m' k v
  end.

Fixpoint Map_delete (m : list (K * V)) (k : K) : list (K * V) :=
  match m with
  | [] => []
  | (k', v') :: m' =>
      if eqb k' k then m' else (k', v') :: Map_delete m' k
  end.

End Maps.

(** ** Data *)

Record Ticket : Type := {
  id : Z;
  _uuid : option string;
  ticketNumber : string;
  title : string;
  phaseId : value Z;
  epic : option string;
  status : string;
  dependsOn : option (list Z);
  blockedBy : option (list Z)
}.

Definition set_dependsOn (t : Ticket) (d : option (list Z)) : Ticket :=
  {| id := id t; _uuid := _uuid t; ticketNumber := ticketNumber t;
     title := title t; phaseId := phaseId t; epic := epic t;
     status := status t; dependsOn := d; blockedBy := blockedBy t |}.

Definition set_blockedBy (t : Ticket) (b : option (list Z)) : Ticket :=
  {| id := id t; _uuid := _uuid t; ticketNumber := ticketNumber t;
     title := title t; phaseId := phaseId t; epic := epic t;
     status := status t; dependsOn := dependsOn t; blockedBy := b |}.

Record Criterion : Type := {
  criterion_id : string;
  completed : bool
}.

Record Purchase : Type := {
  purchase_id : Z;
  amount : value R
}.

(** A phase of the store; [phase_no] is its [id], the phase number. *)
Record Phase : Type := {
  phase_no : Z;
  budget : value R;
  goNoGoCriteria : option (list Criterion);
  purchases : option (list Purchase)
}.

(** A row of the tickets table and of the phases table, as fetched. *)
Record DbTicket : Type := {
  db_id : string;
  ticket_number : string;
  db_title : string;
  phase_id : option string;
  db_epic : option string;
  db_status : string;
  depends_on : option (list string);
  blocked_by : option (list string)
}.

Record DbPhase : Type := {
  phase_uuid : string;
  phase_number : Z
}.

(** The store and the module variables next to it. *)
Record Store : Type := {
  phases : list Phase;
  tickets : list Ticket;
  nextTicketNumber : Z;
  ticketLocalToUuid : list (Z * string);
  ticketUuidToLocal : list (string * Z);
  localIdCounter : Z
}.

Definition with_tickets (s : Store) (ts : list Ticket) : Store :=
  {| phases := phases s; tickets := ts;
     nextTicketNumber := nextTicketNumber s;
     ticketLocalToUuid := ticketLocalToUuid s;
     ticketUuidToLocal := ticketUuidToLocal s;
     localIdCounter := localIdCounter s |}.

(** The store before [initStore]. *)
Definition initial : Store :=
  {| phases := []; tickets := []; nextTicketNumber := 1;
     ticketLocalToUuid := []; ticketUuidToLocal := [];
     localIdCounter := 1000 |}.

(** ** Identifier maps *)

(** [registerTicketMapping(localId, uuid)] *)
Definition registerTicketMapping (s : Store) (localId : Z) (uuid : string)
  : Store :=
  {| phases := phases s; tickets := tickets s;
     nextTicketNumber := nextTicketNumber s;
     ticketLocalToUuid := Map_set Z.eqb (ticketLocalToUuid s) localId uuid;
     ticketUuidToLocal := Map_set String.eqb (ticketUuidToLocal s) uuid localId;
     localIdCounter := localIdCounter s |}.

(** [mapLocalIdsToUuids(localIds)]; [filter(Boolean)] drops the ids without
    an entry and the entries with an empty UUID. *)
Definition mapLocalIdsToUuids (s : Store) (localIds : option (list Z))
  : list string :=
  match localIds with
  | None => []
  | Some ids =>
      flat_map
        (fun i => match Map_get Z.eqb (ticketLocalToUuid s) i with
                  | Some u => if string_falsy (Some u) then [] else [u]
                  | None => []
                  end)
        ids
  end.

(** [mapUuidsToLocalIds(uuids)] *)
Definition mapUuidsToLocalIds (s : Store) (uuids : option (list string))
  : list Z :=
  match uuids with
  | None => []
  | Some us =>
      flat_map
        (fun u => match Map_get String.eqb (ticketUuidToLocal s) u with
                  | Some i => [i]
                  | None => []
                  end)
        us
  end.

(** ** Hydration of the tickets *)

(** The first pass of [hydrateFromSupabase] over the fetched tickets: each
    row gets the next local id and its mapping is registered. *)
Fixpoint assignLocalIds (s : Store) (fetched : list DbTicket)
  : Store * list (DbTicket * Z) :=
  match fetched with
  | [] => (s, [])
  | t :: rest =>
      let localId := localIdCounter s in
      let s :=
        registerTicketMapping
          {| phases := phases s; tickets := tickets s;
             nextTicketNumber := nextTicketNumber s;
             ticketLocalToUuid := ticketLocalToUuid s;
             ticketUuidToLocal := ticketUuidToLocal s;
             localIdCounter := localId + 1 |}
          localId (db_id t) in
      let '(s, ticketObjects) := assignLocalIds s rest in
      (s, (t, localId) :: ticketObjects)
  end.

(** The ticket part of [hydrateFromSupabase]: the two maps are cleared,
    the counter restarts at 1000, and the second pass translates the
    dependencies from UUIDs to local ids. *)
Definition hydrateTickets (s : Store) (dbPhases : list DbPhase)
    (fetched : list DbTicket) : Store :=
  let phaseUuidToNumber :=
    fold_left (fun m p => Map_set String.eqb m (phase_uuid p) (phase_number p))
      dbPhases [] in
  let cleared :=
    {| phases := phases s; tickets := tickets s;
       nextTicketNumber := nextTicketNumber s;
       ticketLocalToUuid := []; ticketUuidToLocal := [];
       localIdCounter := 1000 |} in
  let '(s, ticketObjects) := assignLocalIds cleared fetched in
  with_tickets s
    (map (fun '(t, localId) =>
            {| id := localId;
               _uuid := Some (db_id t);
               ticketNumber := ticket_number t;
               title := db_title t;
               phaseId :=
                 match phase_id t with
                 | Some u =>
                     match Map_get String.eqb phaseUuidToNumber u with
                     | Some n => if n =? 0 then Null else Num (Fin n)
                     | None => Null
                     end
                 | None => Null
                 end;
               epic := db_epic t;
               status := db_status t;
               dependsOn :=
                 Some (mapUuidsToLocalIds s
                         (Some (match depends_on t with
                                | Some d => d
                                | None => []
                                end)));
               blockedBy :=
                 Some (mapUuidsToLocalIds s
                         (Some (match blocked_by t with
                                | Some d => d
                                | None => []
                                end))) |})
       ticketObjects).

(** ** Getters *)

(** [store.tickets.find(t => t.id === id)] *)
Definition getTicketById (s : Store) (i : Z) : option Ticket :=
  find (fun t => id t =? i) (tickets s).

(** [a === b] on a phase number that may be null or undefined. *)
Definition phase_eqb (a b : value Z) : bool :=
  match a, b with
  | Num (Fin x), Num (Fin y) => x =? y
  | Null, Null => true
  | Undefined, Undefined => true
  | _, _ => false
  end.

(** [getTicketsByPhase(phaseId)] *)
Definition getTicketsByPhase (s : Store) (p : value Z) : list Ticket :=
  filter (fun t => phase_eqb (phaseId t) p) (tickets s).

(** [getPhaseProgress(phaseId)] *)
Definition getPhaseProgress (s : Store) (p : value Z) : number R :=
  let tickets := getTicketsByPhase s p in
  match tickets with
  | [] => Fin 0%R
  | _ =>
      let done :=
        length (filter (fun t => String.eqb (status t) "done") tickets) in
      Math_round
        (mul (div (Fin (INR done)) (Fin (INR (length tickets)))) (Fin 100%R))
  end.

(** [getCriteriaProgress(phase)] *)
Definition getCriteriaProgress (phase : Phase) : number R :=
  match goNoGoCriteria phase with
  | None | Some [] => Fin 0%R
  | Some criteria =>
      let completed := length (filter completed criteria) in
      Math_round
        (mul (div (Fin (INR completed)) (Fin (INR (length criteria))))
           (Fin 100%R))
  end.

(** The sum of the amounts of the purchases of a phase; a missing amount
    counts for 0. *)
Definition sum_amounts (ps : list Purchase) : number R :=
  fold_left (fun sum p => add sum (or_number (amount p) (Fin 0%R))) ps
    (Fin 0%R).

(** [getPhaseSpent(phaseId)] *)
Definition getPhaseSpent (s : Store) (phaseId : Z) : number R :=
  match find (fun p => phase_no p =? phaseId) (phases s) with
  | Some phase =>
      match purchases phase with
      | Some ps => sum_amounts ps
      | None => Fin 0%R
      end
  | None => Fin 0%R
  end.

(** [getTotalSpent()] *)
Definition getTotalSpent (s : Store) : number R :=
  fold_left
    (fun sum p =>
       add sum (sum_amounts (match purchases p with
                             | Some ps => ps
                             | None => []
                             end)))
    (phases s) (Fin 0%R).

(** [getTotalBudget()] *)
Definition getTotalBudget (s : Store) : number R :=
  fold_left (fun sum p => add sum (or_number (budget p) (Fin 0%R)))
    (phases s) (Fin 0%R).

(** [getNextTicketNumber()] *)
Definition getNextTicketNumber (s : Store) : string :=
  let num := if nextTicketNumber s =? 0 then 1 else nextTicketNumber s in
  "GT-" ++ padStart 3 "0" (String_of_Z num).

(** ** Tickets *)

(** What [addTicket] reads from its argument. *)
Record TicketInput : Type := {
  in_title : option string;
  in_phaseId : value Z;
  in_epic : option string;
  in_status : option string;
  in_dependsOn : option (list Z);
  in_blockedBy : option (list Z)
}.

(** [addTicket(ticket)]; [now] is [Date.now()].  The mapping of the new
    ticket is registered later, when the API has answered. *)
Definition addTicket (s : Store) (now : Z) (ticket : TicketInput)
  : Store * Ticket :=
  let or_else (x : option string) (d : string) :=
    match x with
    | Some v => if string_falsy x then d else v
    | None => d
    end in
  let newTicket :=
    {| id := now;
       _uuid := None;
       ticketNumber := getNextTicketNumber s;
       title := or_else (in_title ticket) "";
       phaseId := in_phaseId ticket;
       epic := if string_falsy (in_epic ticket) then None else in_epic ticket;
       status := or_else (in_status ticket) "todo";
       dependsOn := Some (match in_dependsOn ticket with
                          | Some d => d
                          | None => []
                          end);
       blockedBy := Some (match in_blockedBy ticket with
                          | Some d => d
                          | None => []
                          end) |} in
  ({| phases := phases s;
      tickets := (tickets s ++ [newTicket])%list;
      nextTicketNumber :=
        (if nextTicketNumber s =? 0 then 1 else nextTicketNumber s) + 1;
      ticketLocalToUuid := ticketLocalToUuid s;
      ticketUuidToLocal := ticketUuidToLocal s;
      localIdCounter := localIdCounter s |},
   newTicket).

(** [tickets.splice(index, 1)] at the first ticket with the id. *)
Fixpoint remove_first (i : Z) (ts : list Ticket) : list Ticket :=
  match ts with
  | [] => []
  | t :: r => if id t =? i then r else t :: remove_first i r
  end.

(** [deleteTicket(id)] *)
Definition deleteTicket (s : Store) (i : Z) : Store :=
  match getTicketById s i with
  | None => s
  | Some _ =>
      let ts := remove_first i (tickets s) in
      match Map_get Z.eqb (ticketLocalToUuid s) i with
      | Some uuid =>
          if string_falsy (Some uuid) then with_tickets s ts
          else
            {| phases := phases s; tickets := ts;
               nextTicketNumber := nextTicketNumber s;
               ticketLocalToUuid := Map_delete Z.eqb (ticketLocalToUuid s) i;
               ticketUuidToLocal :=
                 Map_delete String.eqb (ticketUuidToLocal s) uuid;
               localIdCounter := localIdCounter s |}
      | None => with_tickets s ts
      end
  end.

(** ** Dependencies *)

(** A change of the ticket that [find] returns: the first with the id. *)
Fixpoint update_ticket (i : Z) (f : Ticket -> Ticket) (ts : list Ticket)
  : list Ticket :=
  match ts with
  | [] => []
  | t :: r => if id t =? i then f t :: r else t :: update_ticket i f r
  end.

(** [l.includes(x)] and the guarded [push]. *)
Definition Z_includes (l : list Z) (x : Z) : bool := existsb (Z.eqb x) l.

Definition push_new (l : option (list Z)) (x : Z) : option (list Z) :=
  let l := match l with Some l => l | None => [] end in
  Some (if Z_includes l x then l else (l ++ [x])%list).

(** [addDependency(ticketId, dependsOnId)] *)
Definition addDependency (s : Store) (ticketId dependsOnId : Z) : Store :=
  match getTicketById s ticketId, getTicketById s dependsOnId with
  | Some _, Some _ =>
      let ts :=
        update_ticket ticketId
          (fun t => set_dependsOn t (push_new (dependsOn t) dependsOnId))
          (tickets s) in
      let ts :=
        update_ticket dependsOnId
          (fun t => set_blockedBy t (push_new (blockedBy t) ticketId))
          ts in
      with_tickets s ts
  | _, _ => s
  end.

(** [l.filter(id => id !== x)] on a list that may be absent. *)
Definition without (l : option (list Z)) (x : Z) : option (list Z) :=
  match l with
  | Some l => Some (filter (fun i => negb (i =? x)) l)
  | None => None
  end.

(** [removeDependency(ticketId, dependsOnId)] *)
Definition removeDependency (s : Store) (ticketId dependsOnId : Z) : Store :=
  let ts :=
    update_ticket ticketId
      (fun t => set_dependsOn t (without (dependsOn t) dependsOnId))
      (tickets s) in
  let ts :=
    update_ticket dependsOnId
      (fun t => set_blockedBy t (without (blockedBy t) ticketId))
      ts in
  with_tickets s ts.

(** [getTicketChain(ticketId, visited)]: the chain and the set of visited
    ids, which the recursive calls share.  The recursion is not structural;
    [fuel] bounds its depth, and [None] is the answer of a run that would
    go deeper. *)
Fixpoint ticketChain (fuel : nat) (s : Store) (ticketId : Z)
    (visited : list Z) : option (list Ticket * list Z) :=
  match fuel with
  | O => None
  | S fuel =>
      if Z_includes visited ticketId then Some ([], visited)
      else
        let visited := ticketId :: visited in
        match getTicketById s ticketId with
        | None => Some ([], visited)
        | Some ticket =>
            (fix forEach (deps : list Z) (chain : list Ticket)
                 (visited : list Z) : option (list Ticket * list Z) :=
               match deps with
               | [] => Some (chain, visited)
               | depId :: deps =>
                   match ticketChain fuel s depId visited with
                   | Some (sub, visited) =>
                       forEach deps (sub ++ chain)%list visited
                   | None => None
                   end
               end)
              (match dependsOn ticket with Some d => d | None => [] end)
              [ticket] visited
        end
  end.

(** [getTicketChain(ticketId)], with a depth that is never reached. *)
Definition getTicketChain (s : Store) (ticketId : Z) : option (list Ticket) :=
  match ticketChain (S (length (tickets s))) s ticketId [] with
  | Some (chain, _) => Some chain
  | None => None
  end.

(** [getBlockedTickets(ticketId)] and [getDependencyTickets(ticketId)] *)
Definition lookup_all (s : Store) (ids : list Z) : list Ticket :=
  flat_map (fun i => match getTicketById s i with
                     | Some t => [t]
                     | None => []
                     end)
    ids.

Definition getBlockedTickets (s : Store) (ticketId : Z) : list Ticket :=
  match getTicketById s ticketId with
  | Some t =>
      match blockedBy t with
      | Some b => lookup_all s b
      | None => []
      end
  | None => []
  end.

Definition getDependencyTickets (s : Store) (ticketId : Z) : list Ticket :=
  match getTicketById s ticketId with
  | Some t =>
      match dependsOn t with
      | Some d => lookup_all s d
      | None => []
      end
  | None => []
  end.

End ProjectStore.

(* ================================================================== *)
(** * Vocabulary of the specification *)
(* ================================================================== *)

Module Spec.

Import Analyse.

Open Scope string_scope.
Open Scope Z_scope.

(** ** Well-formed time strings: [HH:MM] and [HH:MM:SS] *)

Definition is_digit (c : ascii) : bool :=
  let n := nat_of_ascii c in ((48 <=? n) && (n <=? 57))%nat.

Definition digit_of (c : ascii) : Z := Z.of_nat (nat_of_ascii c) - 48.

Definition two_digits (a b : ascii) : Z := 10 * digit_of a + digit_of b.

Definition hours_of (t : string) : Z :=
  match t with
  | String a (String b _) => two_digits a b
  | _ => 0
  end.

Definition minutes_of (t : string) : Z :=
  match t with
  | String _ (String _ (String _ (String d (String e _)))) => two_digits d e
  | _ => 0
  end.

Definition well_formed_hm (t : string) : bool :=
  match t with
  | String a (String b (String c (String d (String e EmptyString)))) =>
      is_digit a && is_digit b && Ascii.eqb c ":" && is_digit d && is_digit e
      && (two_digits a b <? 24) && (two_digits d e <? 60)
  | _ => false
  end.

Definition well_formed_hms (t : string) : bool :=
  match t with
  | String a (String b (String c (String d (String e
      (String f (String g (String h EmptyString))))))) =>
      well_formed_hm (String a (String b (String c (String d (String e "")))))
      && Ascii.eqb f ":" && is_digit g && is_digit h
      && (two_digits g h <? 60)
  | _ => false
  end.

Definition valid_time (t : string) : bool :=
  well_formed_hm t || well_formed_hms t.

(** Minutes since midnight denoted by a well-formed time string. *)
Definition minutes (t : string) : Z := 60 * hours_of t + minutes_of t.

(** ** Scored rows and the aggregate, in the words of the specification *)

Section Scoring.

Variable Date_getTime : string -> Z.

Open Scope R_scope.

(** A row is scored when its z-score is a number. *)
Definition is_number (s : ScoreRow) : Prop := number_isNaN (zScore s) = false.

(** The scored rows of a run, each with its z-score and its weight. *)
Definition scored_of (rows : list ScoreRow) : list (R * R) :=
  flat_map
    (fun s => match zScore s with
              | Fin z => [(z, row_weight s)]
              | NaN => []
              end)
    rows.

Definition scored (st : State) : list (R * R) :=
  scored_of (scoreBreakdown Date_getTime st).

(** The maximum of [|z|] over the rows. *)
Definition maxAbsZ (rows : list (R * R)) : R :=
  fold_right (fun r m => Rmax (Rabs (fst r)) m) 0 rows.

(** The mean of [|z|] weighted by the weights: the sum of the weighted
    [|z|] over the sum of the weights. *)
Definition sum_weights (rows : list (R * R)) : R :=
  fold_right (fun r s => snd r + s) 0 rows.

Definition sum_weighted (rows : list (R * R)) : R :=
  fold_right (fun r s => snd r * Rabs (fst r) + s) 0 rows.

Definition weightedAvgAbsZ (rows : list (R * R)) : R :=
  sum_weighted rows / sum_weights rows.

Definition clamp (x lo hi : R) : R := Rmax lo (Rmin x hi).

Definition aggregate (rows : list (R * R)) : R :=
  clamp ((0.6 * maxAbsZ rows + 0.4 * weightedAvgAbsZ rows) / 3) 0 1.

(** The entry of the catalogue with a given key. *)
Definition feature_named (k : string) : Feature :=
  match find (fun f => String.eqb (key f) k) allFeatures with
  | Some f => f
  | None => feature k "" "" false false false 0 false
  end.

(** The key of a statistic of a feature in the baseline object. *)
Definition stat_key (prefix : string) (f : Feature) : string :=
  (prefix ++ key f ++ (if isTime f then "_minutes" else ""))%string.

(** A feature has a today value, and a baseline entry. *)
Definition has_today (st : State) (f : Feature) : Prop :=
  getTodayValue Date_getTime st f <> Null
  /\ getTodayValue Date_getTime st f <> Undefined.

Definition has_baseline (st : State) (f : Feature) : Prop :=
  match baselineStats st with
  | Some stats =>
      stats_get stats (avgKey f) <> Undefined
      /\ stats_get stats (stdKey f) <> Undefined
  | None => False
  end.

(** The selected day belongs to a household with at most one room
    available (or the number of rooms is not known). *)
Definition single_room (st : State) : Prop :=
  match dayStats st with
  | Some ds =>
      match rooms_available ds with
      | Num (Fin x) => x <= 1
      | _ => True
      end
  | None => True
  end.

End Scoring.

(** ** Tests *)

Open Scope Z_scope.

(** The round trip [timeToMinutes(formatMinutesToTime(m)) = m] as a test. *)
Definition round_trip_at (m : Z) : bool :=
  match timeToMinutes (formatMinutesToTime (Num (Fin m))) with
  | Fin z => z =? m
  | NaN => false
  end.

End Spec.

Import Analyse Spec.

(* ================================================================== *)
(** * Example households *)
(* ================================================================== *)

Module Examples.

Import Analyse.

Open Scope string_scope.
Open Scope R_scope.

(** The examples have no room rows, so that the order of the hour stamps
    plays no part. *)
Definition no_dates (s : string) : Z := 0%Z.

(** The state once the day record of the selected date is loaded. *)
Definition selected (today : DailyStats) : State :=
  {| selectedConfigId := Some "config-1";
     dayStats := Some today;
     baselineStats := None;
     roomHourlyData := Some [];
     baselineRoomByDate := [];
     baselineAvgHourlyPattern := None |}.

(** The state once [loadBaselineStats] has run on a window of days, the
    query of the room rows returning none. *)
Definition analysed (today : DailyStats) (window : list DailyStats) : State :=
  loadBaselineStats no_dates (selected today) false (Some window) (Some []).

(** A day record with the event total and the night events only. *)
Definition totals_day (d : string) (total night : value R) : DailyStats :=
  {| date := d; events_per_hour := None;
     total_events := total; active_hours := Null;
     longest_gap_minutes := Null; night_events := night;
     night_active_hours := Null; rooms_active := Null;
     rooms_available := Null; motion_events := Null; door_events := Null;
     first_activity := None; last_activity := None |}.

(** Two days of history with 15 and 25 events, and a day with 50 events,
    5 active hours and no count of night events. *)
Definition busy_window : list DailyStats :=
  [ totals_day "2024-03-01" (Num (Fin 15)) (Num (Fin 0));
    totals_day "2024-03-02" (Num (Fin 25)) (Num (Fin 0)) ].

Definition busy_today : DailyStats :=
  {| date := "2024-03-03"; events_per_hour := None;
     total_events := Num (Fin 50); active_hours := Num (Fin 5);
     longest_gap_minutes := Null; night_events := Null;
     night_active_hours := Null; rooms_active := Null;
     rooms_available := Null; motion_events := Null; door_events := Null;
     first_activity := None; last_activity := None |}.

Definition busy : State := analysed busy_today busy_window.

(** Two days of history with 0 and 1 events. *)
Definition sparse_window : list DailyStats :=
  [ totals_day "2024-03-01" (Num (Fin 0)) Null;
    totals_day "2024-03-02" (Num (Fin 1)) Null ].

(** A household with one room, active on the day of history and on the
    selected day. *)
Definition one_room_day (d : string) : DailyStats :=
  {| date := d; events_per_hour := None;
     total_events := Null; active_hours := Null;
     longest_gap_minutes := Null; night_events := Null;
     night_active_hours := Null; rooms_active := Num (Fin 1);
     rooms_available := Num (Fin 1); motion_events := Null;
     door_events := Null;
     first_activity := None; last_activity := None |}.

Definition one_room : State :=
  analysed (one_room_day "2024-03-02") [one_room_day "2024-03-01"].

(** Hourly buckets with one event in each of the given hours. *)
Definition buckets (hours : list nat) : array :=
  map (fun h => Num (Fin (if existsb (Nat.eqb h) hours then 1 else 0)))
    (seq 0 24).

(** One day of history with a single event, at night; a selected day with
    one event in the morning, one in the afternoon and one in the evening. *)
Definition night_day : DailyStats :=
  {| date := "2024-03-01"; events_per_hour := Some (buckets [0%nat]);
     total_events := Null; active_hours := Null;
     longest_gap_minutes := Null; night_events := Null;
     night_active_hours := Null; rooms_active := Null;
     rooms_available := Null; motion_events := Null; door_events := Null;
     first_activity := None; last_activity := None |}.

Definition three_events_day : DailyStats :=
  {| date := "2024-03-02";
     events_per_hour := Some (buckets [6%nat; 12%nat; 18%nat]);
     total_events := Num (Fin 3); active_hours := Num (Fin 3);
     longest_gap_minutes := Num (Fin 360); night_events := Num (Fin 0);
     night_active_hours := Num (Fin 0); rooms_active := Num (Fin 1);
     rooms_available := Num (Fin 1); motion_events := Num (Fin 3);
     door_events := Num (Fin 0);
     first_activity := Some "06:10"; last_activity := Some "18:40" |}.

Definition shifted : State := analysed three_events_day [night_day].

(** Room rows of one morning: the living room and the kitchen. *)
Definition room (name hour : string) (n : R) : RoomRow :=
  {| room_name := name; hour := hour; room_motion_events := Num (Fin n);
     room_door_events := Num (Fin 0); room_total_events := Num (Fin n) |}.

Definition morning_rooms : list RoomRow :=
  [ room "kitchen" "2024-03-01T09:00:00" 2;
    room "living" "2024-03-01T08:00:00" 3;
    room "kitchen" "2024-03-01T08:00:00" 1;
    room "living" "2024-03-01T10:00:00" 1;
    room "kitchen" "2024-03-01T10:00:00" 1 ].

(** The order of the hour stamps of one day: their hour. *)
Definition hour_of_day (s : string) : Z :=
  match parseInt (Some (substring 11 2 s)) with
  | Fin z => z
  | NaN => 0%Z
  end.

(** The baseline objects of the examples. *)
Definition busy_stats : Stats := computeStats no_dates None [] busy_window.

Definition sparse_stats : Stats := computeStats no_dates None [] sparse_window.

Definition one_room_stats : Stats :=
  computeStats no_dates None [] [one_room_day "2024-03-01"].

Definition shifted_stats : Stats :=
  computeStats no_dates (Some (buckets [0%nat])) [] [night_day].

(** The keys of the features that are active for a single room. *)
Definition single_room_keys : list string :=
  ["first_activity"; "last_activity"; "awake_duration"; "total_events";
   "active_hours"; "morning_events"; "afternoon_events"; "evening_events";
   "longest_gap_minutes"; "night_events"; "night_active_hours";
   "rooms_active"; "motion_events"; "door_events"; "activity_regularity"].

End Examples.

Import Examples.

(* ================================================================== *)
(** * Vocabulary of the further properties *)
(* ================================================================== *)

Module Notions.

Import Analyse.

Open Scope string_scope.
Open Scope R_scope.

(** ** Hourly buckets *)

(** What an entry of an hourly array counts for in a sum: [e[h] || 0]. *)
Definition events_at (e : array) (h : nat) : R :=
  match array_get e h with
  | Num (Fin x) => x
  | _ => 0
  end.

(** The sum of [f] over a list of hours. *)
Fixpoint total (f : nat -> R) (hs : list nat) : R :=
  match hs with
  | [] => 0
  | h :: hs => f h + total f hs
  end.

(** The array holds event counts: every entry that is a number is not
    negative. *)
Definition counts (e : array) : Prop :=
  Forall (fun v => match v with Num (Fin x) => 0 <= x | _ => True end) e.


(** The two tests of [calculateDayStart]: an hour with activity, and an
    hour that starts a cluster. *)
Definition active (e : array) (h : nat) : bool :=
  gt (ToNumber (array_get e h)) (Fin 0).

Definition cluster_test (e : array) (h : nat) : bool :=
  geq (ToNumber (array_get e h)) (Fin 2)
  && (gt (or_number (array_get e (h + 1)) (Fin 0)) (Fin 0)
      || gt (or_number (array_get e (h + 2)) (Fin 0)) (Fin 0)).

Definition cluster_hour (e : array) (h : nat) : Prop :=
  2 <= events_at e h /\ (0 < events_at e (h + 1) \/ 0 < events_at e (h + 2)).


(** The hourly arrays of full length among the days of a window, and the
    events of one hour summed over a list of arrays. *)
Definition full_patterns (dailyData : list DailyStats) : list array :=
  flat_map
    (fun d => match events_per_hour d with
              | Some e => if (length e =? 24)%nat then [e] else []
              | None => []
              end)
    dailyData.

Fixpoint hour_total (es : list array) (h : nat) : R :=
  match es with
  | [] => 0
  | e :: es => events_at e h + hour_total es h
  end.

(** ** Room rows *)



(** ** Decimal numerals *)

Fixpoint string_forall (p : ascii -> bool) (s : string) : bool :=
  match s with
  | EmptyString => true
  | String c r => p c && string_forall p r
  end.

Definition digits (s : string) : bool := string_forall is_digit s.

Fixpoint zeros (n : nat) : string :=
  match n with
  | O => EmptyString
  | S n => String "0" (zeros n)
  end.

(** The decimal digits of a natural number. *)
Definition uint_of (n : Z) : Decimal.uint :=
  match n with
  | Z.pos p => Pos.to_uint p
  | _ => Decimal.D0 Decimal.Nil
  end.

(** ** The score table *)

Definition group_ids : list string :=
  ["timing"; "volume"; "gaps"; "rooms"; "devices"; "patterns"].

Definition is_time_key (k : string) : bool :=
  (k =? "first_activity") || (k =? "last_activity").

End Notions.

Import Notions.

Module StoreNotions.

Import ProjectStore.

Open Scope Z_scope.

(** The ids a ticket depends on, and the ids of the tickets it blocks. *)
Definition deps (t : Ticket) : list Z :=
  match dependsOn t with Some d => d | None => [] end.

Definition blocks (t : Ticket) : list Z :=
  match blockedBy t with Some b => b | None => [] end.

(** The two sides of every dependency agree: [b] is among the
    dependencies of [a] exactly when [a] is among the tickets [b] blocks. *)
Definition linked (s : Store) : Prop :=
  forall a b ta tb,
    getTicketById s a = Some ta -> getTicketById s b = Some tb ->
    (In b (deps ta) <-> In a (blocks tb)).

(** The [forEach] loop of one call of [getTicketChain], the recursive calls
    having depth [fuel]. *)
Fixpoint chain_deps (fuel : nat) (s : Store) (deps : list Z)
    (chain : list Ticket) (visited : list Z)
  : option (list Ticket * list Z) :=
  match deps with
  | [] => Some (chain, visited)
  | depId :: deps =>
      match ticketChain fuel s depId visited with
      | Some (sub, visited) =>
          chain_deps fuel s deps (sub ++ chain)%list visited
      | None => None
      end
  end.

(** The tickets whose id has not been visited. *)
Definition unvisited (s : Store) (visited : list Z) : nat :=
  length (filter (fun t => negb (Z_includes visited (id t))) (tickets s)).

(** What a call of [getTicketChain] returns: the visited set grows, and
    the chain consists of tickets of the store that the call has visited,
    each once. *)
Definition chain_ok (s : Store) (visited : list Z) (chain : list Ticket)
    (visited' : list Z) : Prop :=
  incl visited visited'
  /\ NoDup (map id chain)
  /\ forall t, In t chain ->
       In t (tickets s) /\ ~ In (id t) visited /\ In (id t) visited'.

End StoreNotions.

Import StoreNotions.

Module Samples.

Import Analyse.

Open Scope string_scope.
Open Scope R_scope.

(** One event at 6, 12 and 18 o'clock. *)
Definition spread : array := buckets [6%nat; 12%nat; 18%nat].

(** Three events at 5 o'clock, one at 6 and none in any other hour. *)
Definition dawn : array :=
  map (fun h => Num (Fin (if (h =? 5)%nat then 3
                          else if (h =? 6)%nat then 1 else 0)))
    (seq 0 24).

(** The fifth of March 2024. *)
Definition a_date : LocalDate :=
  {| getFullYear := 2024; getMonth := 2; getDate := 5 |}.

(** Two rows of the living room. *)
Definition living_rows : list RoomRow :=
  [ room "living" "2024-03-01T08:00:00" 3;
    room "living" "2024-03-01T09:00:00" 1 ].

(** Two tickets without dependencies, and the rows they are hydrated
    from. *)
Definition ticket (i : Z) (number : string) : ProjectStore.Ticket :=
  {| ProjectStore.id := i;
     ProjectStore._uuid := None;
     ProjectStore.ticketNumber := number;
     ProjectStore.title := "";
     ProjectStore.phaseId := Num (Fin 1%Z);
     ProjectStore.epic := None;
     ProjectStore.status := "todo";
     ProjectStore.dependsOn := Some [];
     ProjectStore.blockedBy := Some [] |}.

Definition two_tickets : ProjectStore.Store :=
  {| ProjectStore.phases := [];
     ProjectStore.tickets := [ticket 1 "GT-001"; ticket 2 "GT-002"];
     ProjectStore.nextTicketNumber := 3;
     ProjectStore.ticketLocalToUuid := [];
     ProjectStore.ticketUuidToLocal := [];
     ProjectStore.localIdCounter := 1000 |}.

Definition row (uuid number : string) (depends : list string)
  : ProjectStore.DbTicket :=
  {| ProjectStore.db_id := uuid;
     ProjectStore.ticket_number := number;
     ProjectStore.db_title := "";
     ProjectStore.phase_id := None;
     ProjectStore.db_epic := None;
     ProjectStore.db_status := "todo";
     ProjectStore.depends_on := Some depends;
     ProjectStore.blocked_by := None |}.

Definition two_rows : list ProjectStore.DbTicket :=
  [row "uuid-a" "GT-001" []; row "uuid-b" "GT-002" ["uuid-a"]].

(** Two phases: one with a purchase of 30 and one without an amount, one
    without purchases. *)
Definition budget_store : ProjectStore.Store :=
  {| ProjectStore.phases :=
       [ {| ProjectStore.phase_no := 1;
            ProjectStore.budget := Num (Fin 100);
            ProjectStore.goNoGoCriteria := None;
            ProjectStore.purchases :=
              Some [ {| ProjectStore.purchase_id := 1;
                        ProjectStore.amount := Num (Fin 30) |};
                     {| ProjectStore.purchase_id := 2;
                        ProjectStore.amount := Null |} ] |};
         {| ProjectStore.phase_no := 2;
            ProjectStore.budget := Null;
            ProjectStore.goNoGoCriteria := None;
            ProjectStore.purchases := None |} ];
     ProjectStore.tickets := [];
     ProjectStore.nextTicketNumber := 1;
     ProjectStore.ticketLocalToUuid := [];
     ProjectStore.ticketUuidToLocal := [];
     ProjectStore.localIdCounter := 1000 |}.

Definition no_input : ProjectStore.TicketInput :=
  {| ProjectStore.in_title := None;
     ProjectStore.in_phaseId := Undefined;
     ProjectStore.in_epic := None;
     ProjectStore.in_status := None;
     ProjectStore.in_dependsOn := None;
     ProjectStore.in_blockedBy := None |}.

End Samples.

Import Samples.

(* ================================================================== *)
(** * Properties of the time utilities *)
(* ================================================================== *)

Section TimeStrings.

Open Scope string_scope.
Open Scope Z_scope.

Example timeToMinutes_samples :
  timeToMinutes (Some "08:30") = Fin 510
  /\ timeToMinutes (Some "23:59:59") = Fin 1439
  /\ timeToMinutes None = Fin 0
  /\ timeToMinutes (Some "") = Fin 0
  /\ timeToMinutes (Some "12") = NaN
  /\ timeToMinutes (Some "ab:cd") = NaN.
Proof. repeat split. Qed.

Example formatMinutesToTime_samples :
  formatMinutesToTime (Num (Fin 0)) = Some "00:00"
  /\ formatMinutesToTime (Num (Fin 65)) = Some "01:05"
  /\ formatMinutesToTime (Num (Fin 1439)) = Some "23:59"
  /\ formatMinutesToTime (Num (Fin 6000)) = Some "100:00"
  /\ formatMinutesToTime Null = None.
Proof. repeat split. Qed.

Example awakeDuration_samples :
  awakeDuration (Some "07:15") (Some "22:45") = Num (Fin 930)
  /\ awakeDuration (Some "22:45") (Some "07:15") = Num (Fin 0)
  /\ awakeDuration (Some "00:00") (Some "00:00:30") = Null
  /\ awakeDuration (Some "00:00") (Some "00:01") = Num (Fin 1).
Proof. repeat split. Qed.

Lemma is_digit_cases (c : ascii) :
  is_digit c = true ->
  In c ["0"; "1"; "2"; "3"; "4"; "5"; "6"; "7"; "8"; "9"]%char.
Proof.
  destruct c as [[] [] [] [] [] [] [] []]; cbv; intros H;
    try discriminate H; tauto.
Qed.

Lemma is_digit_not_colon (c : ascii) :
  is_digit c = true -> Ascii.eqb c ":" = false.
Proof.
  intros H. apply is_digit_cases in H. simpl in H.
  repeat (destruct H as [<- | H]; [reflexivity |]). contradiction.
Qed.

Lemma parseInt_two_digits (a b : ascii) :
  is_digit a = true -> is_digit b = true ->
  parseInt (Some (String a (String b ""))) = Fin (two_digits a b).
Proof.
  intros Ha Hb. apply is_digit_cases in Ha, Hb. simpl in Ha, Hb.
  repeat (destruct Ha as [<- | Ha]; [| try contradiction]);
    repeat (destruct Hb as [<- | Hb]; [reflexivity | try contradiction]).
Qed.

Lemma timeToMinutes_hm (t : string) :
  well_formed_hm t = true -> timeToMinutes (Some t) = Fin (minutes t).
Proof.
  destruct t as [| a [| b [| c [| d [| e [| ? ?]]]]]]; try discriminate.
  unfold well_formed_hm. rewrite !andb_true_iff.
  intros [[[[[[Ha Hb] Hc] Hd] He] _] _].
  apply Ascii.eqb_eq in Hc. subst c.
  unfold timeToMinutes. cbn [string_falsy split].
  rewrite (is_digit_not_colon _ Ha), (is_digit_not_colon _ Hb),
    (is_digit_not_colon _ Hd), (is_digit_not_colon _ He).
  cbn [Ascii.eqb Bool.eqb nth_error].
  rewrite (parseInt_two_digits _ _ Ha Hb), (parseInt_two_digits _ _ Hd He).
  cbn [lift2]. unfold minutes, hours_of, minutes_of. f_equal. lia.
Qed.

Lemma timeToMinutes_hms (t : string) :
  well_formed_hms t = true -> timeToMinutes (Some t) = Fin (minutes t).
Proof.
  destruct t as [| a [| b [| c [| d [| e [| f [| g [| h [| ? ?]]]]]]]]];
    try discriminate.
  unfold well_formed_hms, well_formed_hm. rewrite !andb_true_iff.
  intros [[[[[[[[[[Ha Hb] Hc] Hd] He] _] _] Hf] Hg] Hh] _].
  apply Ascii.eqb_eq in Hc, Hf. subst c f.
  unfold timeToMinutes. cbn [string_falsy split].
  rewrite (is_digit_not_colon _ Ha), (is_digit_not_colon _ Hb),
    (is_digit_not_colon _ Hd), (is_digit_not_colon _ He),
    (is_digit_not_colon _ Hg), (is_digit_not_colon _ Hh).
  cbn [Ascii.eqb Bool.eqb nth_error].
  rewrite (parseInt_two_digits _ _ Ha Hb), (parseInt_two_digits _ _ Hd He).
  cbn [lift2]. unfold minutes, hours_of, minutes_of. f_equal. lia.
Qed.

Lemma timeToMinutes_valid (t : string) :
  valid_time t = true -> timeToMinutes (Some t) = Fin (minutes t).
Proof.
  unfold valid_time. rewrite orb_true_iff.
  intros [H | H]; [apply timeToMinutes_hm | apply timeToMinutes_hms]; exact H.
Qed.

Lemma valid_time_not_falsy (t : string) :
  valid_time t = true -> string_falsy (Some t) = false.
Proof. destruct t; [discriminate | reflexivity]. Qed.

Lemma well_formed_hms_prefix (t : string) :
  well_formed_hms t = true ->
  well_formed_hm (substring 0 5 t) = true
  /\ minutes (substring 0 5 t) = minutes t.
Proof.
  destruct t as [| a [| b [| c [| d [| e [| f [| g [| h [| ? ?]]]]]]]]];
    try discriminate.
  unfold well_formed_hms. rewrite !andb_true_iff.
  intros [[[[H _] _] _] _]. split; [exact H | reflexivity].
Qed.

Lemma round_trip_day :
  forallb (fun n => round_trip_at (Z.of_nat n)) (seq 0 1440) = true.
Proof. vm_compute. reflexivity. Qed.

(** C9: for every integer [m] in [0, 1439], parsing the formatted time gives
    [m] back: [timeToMinutes(formatMinutesToTime(m)) = m]. *)
Theorem timeToMinutes_formatMinutesToTime (m : Z) :
  0 <= m <= 1439 ->
  timeToMinutes (formatMinutesToTime (Num (Fin m))) = Fin m.
Proof.
  intros Hm.
  pose proof round_trip_day as H.
  rewrite forallb_forall in H.
  specialize (H (Z.to_nat m)).
  rewrite Z2Nat.id in H by lia.
  assert (Hin : In (Z.to_nat m) (seq 0 1440)) by (apply in_seq; lia).
  apply H in Hin. unfold round_trip_at in Hin.
  destruct (timeToMinutes (formatMinutesToTime (Num (Fin m)))) as [| z];
    [discriminate |].
  apply Z.eqb_eq in Hin. now subst z.
Qed.

Lemma timeToMinutes_formatMinutesToTime_witness :
  0 <= 605 <= 1439
  /\ formatMinutesToTime (Num (Fin 605)) = Some "10:05"
  /\ timeToMinutes (formatMinutesToTime (Num (Fin 605))) = Fin 605.
Proof.
  assert (H : 0 <= 605 <= 1439) by lia.
  split; [exact H |].
  split; [reflexivity |].
  exact (timeToMinutes_formatMinutesToTime 605 H).
Defined.

(** C10: on a well-formed [HH:MM:SS] string, [timeToMinutes] is
    [60 * HH + MM] whatever the seconds are, the same as on the [HH:MM]
    string obtained by dropping the seconds. *)
Theorem timeToMinutes_discards_seconds (t : string) :
  well_formed_hms t = true ->
  timeToMinutes (Some t) = Fin (60 * hours_of t + minutes_of t)
  /\ timeToMinutes (Some t) = timeToMinutes (Some (substring 0 5 t)).
Proof.
  intros H. split.
  - exact (timeToMinutes_hms t H).
  - destruct (well_formed_hms_prefix t H) as [Hp Hm].
    rewrite (timeToMinutes_hms t H), (timeToMinutes_hm _ Hp), Hm.
    reflexivity.
Qed.

Lemma timeToMinutes_discards_seconds_witness :
  well_formed_hms "23:59:59" = true
  /\ timeToMinutes (Some "23:59:59") = Fin 1439
  /\ timeToMinutes (Some "23:59:59") = timeToMinutes (Some "23:59").
Proof.
  split; [reflexivity |].
  exact (timeToMinutes_discards_seconds "23:59:59" eq_refl).
Defined.

(** C8, as the code has it: [awakeDuration] is null when either string is
    absent (null, undefined or empty) and when both times are midnight;
    otherwise it is [max(0, minutes(last) - minutes(first))], so that
    [awakeDuration(t, t)] is 0 for every valid [t] that is not a midnight
    time. *)
Theorem awakeDuration_spec :
  (forall l, awakeDuration None l = Null
             /\ awakeDuration (Some "") l = Null)
  /\ (forall f, awakeDuration f None = Null
                /\ awakeDuration f (Some "") = Null)
  /\ awakeDuration None (Some "10:00") = Null
  /\ (forall f l,
        valid_time f = true -> valid_time l = true ->
        awakeDuration (Some f) (Some l) =
        if (minutes f =? 0) && (minutes l =? 0) then Null
        else Num (Fin (Z.max 0 (minutes l - minutes f))))
  /\ (forall t,
        valid_time t = true -> minutes t <> 0 ->
        awakeDuration (Some t) (Some t) = Num (Fin 0)).
Proof.
  assert (Hgen : forall f l,
             valid_time f = true -> valid_time l = true ->
             awakeDuration (Some f) (Some l) =
             if (minutes f =? 0) && (minutes l =? 0) then Null
             else Num (Fin (Z.max 0 (minutes l - minutes f)))).
  { intros f l Hf Hl. unfold awakeDuration.
    rewrite (valid_time_not_falsy f Hf), (valid_time_not_falsy l Hl).
    rewrite (timeToMinutes_valid f Hf), (timeToMinutes_valid l Hl).
    reflexivity. }
  split; [intros l; split; reflexivity |].
  split.
  { intros f; split; unfold awakeDuration;
      destruct f as [[| ? ?] |]; reflexivity. }
  split; [reflexivity |].
  split; [exact Hgen |].
  intros t Ht Hnz. rewrite (Hgen t t Ht Ht).
    apply Z.eqb_neq in Hnz. rewrite Hnz. cbn [andb].
    do 2 f_equal. lia.
Qed.

Lemma awakeDuration_spec_witness :
  valid_time "08:15" = true /\ valid_time "22:40:10" = true
  /\ minutes "08:15" <> 0
  /\ awakeDuration (Some "08:15") (Some "22:40:10") = Num (Fin 865)
  /\ awakeDuration (Some "08:15") (Some "08:15") = Num (Fin 0).
Proof.
  destruct awakeDuration_spec as (_ & _ & _ & Hgen & Hsame).
  assert (H1 : valid_time "08:15" = true) by reflexivity.
  assert (H2 : valid_time "22:40:10" = true) by reflexivity.
  assert (H3 : minutes "08:15" <> 0) by (vm_compute; discriminate).
  exact (conj H1 (conj H2 (conj H3
           (conj (Hgen "08:15" "22:40:10" H1 H2) (Hsame "08:15" H1 H3))))).
Defined.

(** C8 as stated fails at midnight: [awakeDuration("00:00", "00:00")] is
    null, not 0. *)
Lemma awakeDuration_midnight_is_null :
  ~ (forall t, valid_time t = true ->
               awakeDuration (Some t) (Some t) = Num (Fin 0)).
Proof.
  intros H. specialize (H "00:00" eq_refl). discriminate H.
Qed.

End TimeStrings.

(* ================================================================== *)
(** * Real numbers: deciding the tests of the code *)
(* ================================================================== *)

Section RealTests.

Open Scope R_scope.

Lemma Rltb_true (x y : R) : x < y -> Rltb x y = true.
Proof. intros H. unfold Rltb. destruct (Rlt_dec x y); [reflexivity | lra]. Qed.

Lemma Rltb_false (x y : R) : y <= x -> Rltb x y = false.
Proof. intros H. unfold Rltb. destruct (Rlt_dec x y); [lra | reflexivity]. Qed.

Lemma Reqb_true (x y : R) : x = y -> Reqb x y = true.
Proof.
  intros H. unfold Reqb. destruct (Req_dec_T x y); [reflexivity | lra].
Qed.

Lemma Reqb_false (x y : R) : x <> y -> Reqb x y = false.
Proof.
  intros H. unfold Reqb.
  destruct (Req_dec_T x y); [contradiction | reflexivity].
Qed.

Lemma Rltb_spec (x y : R) : Rltb x y = true <-> x < y.
Proof.
  unfold Rltb. destruct (Rlt_dec x y); split; intros; try easy.
Qed.

Lemma or_number_Fin (x : R) : or_number (Num (Fin x)) (Fin 0) = Fin x.
Proof.
  cbn. unfold Reqb. destruct (Req_dec_T x 0) as [-> | H]; reflexivity.
Qed.

Lemma sub_NaN_r (a : number R) : sub a NaN = NaN.
Proof. destruct a; reflexivity. Qed.

Lemma div_NaN_r (a : number R) : div a NaN = NaN.
Proof. destruct a; reflexivity. Qed.

Lemma div_Fin (x y : R) : y <> 0 -> div (Fin x) (Fin y) = Fin (x / y).
Proof. intros H. unfold div. now rewrite (Reqb_false _ _ H). Qed.

End RealTests.

(* ================================================================== *)
(** * Properties of the scorer *)
(* ================================================================== *)

Section Scorer.

Variable D : string -> Z.

Open Scope string_scope.
Open Scope R_scope.

(** ** The z-score *)

Lemma calculateZScore_null_value (m s : value R) :
  calculateZScore Null m s = Fin 0.
Proof.
  unfold calculateZScore. cbn [is_null].
  now rewrite orb_true_r.
Qed.

Lemma calculateZScore_null_mean (v s : value R) :
  calculateZScore v Null s = Fin 0.
Proof. unfold calculateZScore. cbn [is_null]. now rewrite !orb_true_r. Qed.

Lemma calculateZScore_null_stddev (v m : value R) :
  calculateZScore v m Null = Fin 0.
Proof. reflexivity. Qed.

Lemma calculateZScore_zero_stddev (v m : value R) :
  calculateZScore v m (Num (Fin 0)) = Fin 0.
Proof.
  unfold calculateZScore. cbn [is_zero_value is_zero].
  now rewrite (@Reqb_true 0 0 eq_refl).
Qed.

Lemma calculateZScore_numbers (v m s : R) :
  s <> 0 ->
  calculateZScore (Num (Fin v)) (Num (Fin m)) (Num (Fin s))
  = Fin ((v - m) / s).
Proof.
  intros Hs. unfold calculateZScore.
  cbn [is_zero_value is_zero is_null ToNumber sub lift2 orb].
  rewrite (Reqb_false _ _ Hs). cbn [orb]. now apply div_Fin.
Qed.

Lemma calculateZScore_undefined_baseline (v : value R) :
  is_null v = false -> calculateZScore v Undefined Undefined = NaN.
Proof.
  intros Hv. unfold calculateZScore. rewrite Hv.
  cbn [is_zero_value is_null orb ToNumber].
  now rewrite sub_NaN_r, div_NaN_r.
Qed.

(** ** The rows *)

Lemma scoreBreakdown_loaded (st : State) (ds : DailyStats) (stats : Stats) :
  dayStats st = Some ds -> baselineStats st = Some stats ->
  scoreBreakdown D st = map (scoreRow D st stats) (activeFeatures st).
Proof. intros Hd Hb. unfold scoreBreakdown. now rewrite Hd, Hb. Qed.

Lemma scoreBreakdown_no_baseline (st : State) :
  baselineStats st = None -> scoreBreakdown D st = [].
Proof.
  intros Hb. unfold scoreBreakdown. rewrite Hb. now destruct (dayStats st).
Qed.

Lemma scoreBreakdown_no_day (st : State) :
  dayStats st = None -> scoreBreakdown D st = [].
Proof. intros Hd. unfold scoreBreakdown. now rewrite Hd. Qed.

Lemma anomalyScore_no_rows (st : State) :
  scoreBreakdown D st = [] -> anomalyScore D st = Fin 0.
Proof. intros H. unfold anomalyScore. now rewrite H. Qed.

Lemma activeFeatures_incl (st : State) (f : Feature) :
  In f (activeFeatures st) -> In f allFeatures.
Proof. unfold activeFeatures. intros H. apply filter_In in H. tauto. Qed.

Lemma weight_pos (f : Feature) : In f allFeatures -> 0 < weight f.
Proof.
  cbn. intros H.
  repeat (destruct H as [<- | H]; [cbn; lra |]). contradiction.
Qed.

Lemma row_weight_pos (st : State) (s : ScoreRow) :
  In s (scoreBreakdown D st) -> 0 < row_weight s.
Proof.
  unfold scoreBreakdown.
  destruct (dayStats st); [| contradiction].
  destruct (baselineStats st); [| contradiction].
  intros H. apply in_map_iff in H. destruct H as (f & <- & Hf).
  cbn. apply weight_pos. now apply activeFeatures_incl in Hf.
Qed.

(** ** Households with a single room *)

Lemma single_room_not_above_one (st : State) :
  single_room st ->
  gt match dayStats st with
     | Some ds => or_number (rooms_available ds) (Fin 0)
     | None => Fin 0
     end (Fin 1) = false.
Proof.
  unfold single_room, gt, lt.
  destruct (dayStats st) as [ds |].
  - destruct (rooms_available ds) as [| | [| x]]; cbn; intros H;
      try (apply Rltb_false; lra).
    destruct (Reqb x 0); cbn; apply Rltb_false; lra.
  - intros _. apply Rltb_false. lra.
Qed.

Lemma activeFeatures_single_room (st : State) :
  single_room st ->
  activeFeatures st = filter (fun f => negb (isRoomFeature f)) allFeatures.
Proof.
  intros H. unfold activeFeatures.
  rewrite (single_room_not_above_one st H).
  apply filter_ext. intros f. now destruct (isRoomFeature f).
Qed.

Lemma activeFeatures_several_rooms (st : State) (ds : DailyStats) (x : R) :
  dayStats st = Some ds -> rooms_available ds = Num (Fin x) -> 1 < x ->
  activeFeatures st = allFeatures.
Proof.
  intros Hd Hr Hx. unfold activeFeatures. rewrite Hd, Hr.
  cbn [or_number number_truthy].
  rewrite (@Reqb_false x 0) by lra. cbn [negb gt lt].
  rewrite (Rltb_true _ _ Hx).
  rewrite (filter_ext _ (fun _ => true)).
  - induction allFeatures as [| f l IH]; cbn; [reflexivity | now rewrite IH].
  - intros f. now destruct (isRoomFeature f).
Qed.

(** ** From the loops of [anomalyScore] to sums over the scored rows *)

Lemma validScores_numbers (st : State) :
  Forall is_number (validScores D st).
Proof.
  apply Forall_forall. intros s Hs. unfold validScores in Hs.
  apply filter_In in Hs. destruct Hs as [_ Hs].
  now apply negb_true_iff in Hs.
Qed.

Lemma scored_of_filter (l : list ScoreRow) :
  scored_of (filter (fun s => negb (number_isNaN (zScore s))) l)
  = scored_of l.
Proof.
  induction l as [| s l IH]; [reflexivity |].
  cbn [filter]. unfold scored_of in *. cbn [flat_map].
  destruct (zScore s) eqn:E; cbn [number_isNaN negb].
  - exact IH.
  - cbn [flat_map]. rewrite E. now rewrite IH.
Qed.

Lemma scored_validScores (st : State) :
  scored D st = scored_of (validScores D st).
Proof. unfold scored, validScores. now rewrite scored_of_filter. Qed.

Lemma scored_of_cons (s : ScoreRow) (l : list ScoreRow) (z : R) :
  zScore s = Fin z -> scored_of (s :: l) = (z, row_weight s) :: scored_of l.
Proof. intros E. unfold scored_of. cbn [flat_map]. now rewrite E. Qed.

Lemma is_number_Fin (s : ScoreRow) :
  is_number s -> exists z, zScore s = Fin z.
Proof.
  unfold is_number. destruct (zScore s) as [| z]; [discriminate |].
  intros _. now exists z.
Qed.

Lemma sum_weights_cons (z w : R) (rows : list (R * R)) :
  sum_weights ((z, w) :: rows) = w + sum_weights rows.
Proof. reflexivity. Qed.

Lemma sum_weighted_cons (z w : R) (rows : list (R * R)) :
  sum_weighted ((z, w) :: rows) = w * Rabs z + sum_weighted rows.
Proof. reflexivity. Qed.

Lemma maxAbsZ_cons (z w : R) (rows : list (R * R)) :
  maxAbsZ ((z, w) :: rows) = Rmax (Rabs z) (maxAbsZ rows).
Proof. reflexivity. Qed.

Lemma totalWeight_sum (l : list ScoreRow) (a : R) :
  Forall is_number l ->
  fold_left (fun sum s => add sum (Fin (row_weight s))) l (Fin a)
  = Fin (a + sum_weights (scored_of l)).
Proof.
  intros H. revert a. induction H as [| s l Hs Hl IH]; intros a.
  - cbn. f_equal. lra.
  - destruct (is_number_Fin s Hs) as [z Hz].
    rewrite (scored_of_cons s l z Hz). cbn [fold_left add lift2].
    rewrite IH, sum_weights_cons. f_equal. lra.
Qed.

Lemma weighted_sum (l : list ScoreRow) (a : R) :
  Forall is_number l ->
  fold_left
    (fun sum s => add sum (mul (Math_abs (zScore s)) (Fin (row_weight s))))
    l (Fin a)
  = Fin (a + sum_weighted (scored_of l)).
Proof.
  intros H. revert a. induction H as [| s l Hs Hl IH]; intros a.
  - cbn. f_equal. lra.
  - destruct (is_number_Fin s Hs) as [z Hz].
    rewrite (scored_of_cons s l z Hz). cbn [fold_left]. rewrite Hz.
    cbn [Math_abs lift1 mul add lift2].
    rewrite IH, sum_weighted_cons. f_equal. lra.
Qed.

Lemma maxAbsZ_nonneg (rows : list (R * R)) : 0 <= maxAbsZ rows.
Proof.
  induction rows as [| [z w] rows IH]; [cbn; lra |].
  rewrite maxAbsZ_cons.
  eapply Rle_trans; [exact IH | apply Rmax_r].
Qed.

Lemma max_fold (l : list ScoreRow) (m : R) :
  Forall is_number l -> 0 <= m ->
  fold_left Math_max (map (fun s => Math_abs (zScore s)) l) (Fin m)
  = Fin (Rmax m (maxAbsZ (scored_of l))).
Proof.
  intros H. revert m. induction H as [| s l Hs Hl IH]; intros m Hm.
  - cbn. f_equal. now rewrite Rmax_left.
  - destruct (is_number_Fin s Hs) as [z Hz].
    rewrite (scored_of_cons s l z Hz). cbn [map fold_left]. rewrite Hz.
    cbn [Math_abs lift1 Math_max lift2].
    rewrite IH.
    + rewrite maxAbsZ_cons. f_equal. now rewrite Rmax_assoc.
    + eapply Rle_trans; [exact Hm | apply Rmax_l].
Qed.

Lemma sum_weights_nonneg (rows : list (R * R)) :
  (forall r, In r rows -> 0 < snd r) -> 0 <= sum_weights rows.
Proof.
  induction rows as [| [z w] rows IH]; intros H; [cbn; lra |].
  rewrite sum_weights_cons.
  assert (0 < w) by (apply (H (z, w)); now left).
  assert (0 <= sum_weights rows) by (apply IH; intros; apply H; now right).
  lra.
Qed.

Lemma sum_weights_pos (rows : list (R * R)) :
  rows <> [] -> (forall r, In r rows -> 0 < snd r) -> 0 < sum_weights rows.
Proof.
  destruct rows as [| [z w] rows]; [congruence |]. intros _ H.
  rewrite sum_weights_cons.
  assert (0 < w) by (apply (H (z, w)); now left).
  assert (0 <= sum_weights rows).
  { apply sum_weights_nonneg; intros; apply H; now right. }
  lra.
Qed.

Lemma sum_weighted_nonneg (rows : list (R * R)) :
  (forall r, In r rows -> 0 < snd r) -> 0 <= sum_weighted rows.
Proof.
  induction rows as [| [z w] rows IH]; intros H; [cbn; lra |].
  rewrite sum_weighted_cons.
  assert (0 < w) by (apply (H (z, w)); now left).
  assert (0 <= sum_weighted rows) by (apply IH; intros; apply H; now right).
  pose proof (Rabs_pos z). nra.
Qed.

(** The weighted sum is at most the bound of the [|z|] times the weights. *)
Lemma sum_weighted_bound (rows : list (R * R)) (c : R) :
  (forall r, In r rows -> 0 < snd r) ->
  (forall r, In r rows -> Rabs (fst r) <= c) ->
  sum_weighted rows <= c * sum_weights rows.
Proof.
  induction rows as [| [z w] rows IH]; intros Hw Hc; [cbn; lra |].
  rewrite sum_weighted_cons, sum_weights_cons.
  assert (0 < w) by (apply (Hw (z, w)); now left).
  assert (Rabs z <= c) by (apply (Hc (z, w)); now left).
  assert (sum_weighted rows <= c * sum_weights rows).
  { apply IH; intros; [apply Hw | apply Hc]; now right. }
  nra.
Qed.

Lemma maxAbsZ_bound (rows : list (R * R)) (c : R) :
  0 <= c -> (forall r, In r rows -> Rabs (fst r) <= c) -> maxAbsZ rows <= c.
Proof.
  intros H0. induction rows as [| [z w] rows IH]; intros Hc; [cbn; lra |].
  rewrite maxAbsZ_cons.
  apply Rmax_lub;
    [apply (Hc (z, w)); now left | apply IH; intros; apply Hc; now right].
Qed.

Lemma maxAbsZ_upper (rows : list (R * R)) (r : R * R) :
  In r rows -> Rabs (fst r) <= maxAbsZ rows.
Proof.
  induction rows as [| [z w] rows IH]; [contradiction |].
  rewrite maxAbsZ_cons.
  intros [<- | H]; [apply Rmax_l |].
  eapply Rle_trans; [apply IH, H | apply Rmax_r].
Qed.

Lemma maxAbsZ_attained (rows : list (R * R)) :
  rows <> [] -> exists r, In r rows /\ maxAbsZ rows = Rabs (fst r).
Proof.
  induction rows as [| [z w] rows IH]; [congruence |]. intros _.
  rewrite maxAbsZ_cons.
  destruct rows as [| r' rows'].
  - exists (z, w). split; [now left |]. cbn. apply Rmax_left, Rabs_pos.
  - destruct IH as (r0 & Hin & Hmax); [congruence |].
    destruct (Rle_dec (maxAbsZ (r' :: rows')) (Rabs z)) as [Hle | Hgt].
    + exists (z, w). split; [now left | now apply Rmax_left].
    + exists r0. split; [now right |]. rewrite Rmax_right by lra. exact Hmax.
Qed.

(** ** The aggregate *)

Lemma scored_weights_pos (st : State) (r : R * R) :
  In r (scored D st) -> 0 < snd r.
Proof.
  unfold scored, scored_of. intros H. apply in_flat_map in H.
  destruct H as (s & Hs & Hr). apply row_weight_pos in Hs.
  destruct (zScore s); [contradiction |].
  destruct Hr as [<- | []]. exact Hs.
Qed.

(** What [anomalyScore] computes when some row is scored, before the cap. *)
Lemma anomalyScore_scored (st : State) :
  scored D st <> [] ->
  anomalyScore D st
  = Fin (Rmin 1 ((0.6 * maxAbsZ (scored D st)
                  + 0.4 * weightedAvgAbsZ (scored D st)) / 3)).
Proof.
  intros Hne.
  pose proof (scored_weights_pos st) as Hpos.
  pose proof (validScores_numbers st) as Hnum.
  rewrite scored_validScores in *.
  unfold anomalyScore.
  destruct (scoreBreakdown D st) as [| s0 l0] eqn:Hrows.
  { exfalso. apply Hne. unfold validScores. now rewrite Hrows. }
  destruct (validScores D st) as [| s rest] eqn:Hvalid; [now elim Hne |].
  inversion Hnum as [| ? ? Hs Hrest]; subst.
  destruct (is_number_Fin s Hs) as [z Hz].
  rewrite (totalWeight_sum (s :: rest) 0 Hnum).
  rewrite (weighted_sum (s :: rest) 0 Hnum).
  rewrite Hz. cbn [Math_abs lift1]. unfold Math_max_of.
  rewrite (max_fold rest (Rabs z) Hrest (Rabs_pos z)).
  rewrite (scored_of_cons s rest z Hz) in *.
  rewrite <- maxAbsZ_cons with (w := row_weight s).
  set (rows := (z, row_weight s) :: scored_of rest) in *.
  assert (HW : 0 < sum_weights rows) by now apply sum_weights_pos.
  rewrite !Rplus_0_l.
  rewrite div_Fin by lra.
  cbn [mul add lift2]. rewrite div_Fin by lra.
  reflexivity.
Qed.

Lemma combined_nonneg (rows : list (R * R)) :
  (forall r, In r rows -> 0 < snd r) ->
  0 <= (0.6 * maxAbsZ rows + 0.4 * weightedAvgAbsZ rows) / 3.
Proof.
  intros Hpos.
  pose proof (maxAbsZ_nonneg rows) as HM.
  assert (HA : 0 <= weightedAvgAbsZ rows).
  { unfold weightedAvgAbsZ. destruct rows as [| r rows'].
    - cbn. unfold Rdiv. rewrite Rmult_0_l. lra.
    - apply Rmult_le_pos.
      + now apply sum_weighted_nonneg.
      + left. apply Rinv_0_lt_compat. now apply sum_weights_pos. }
  lra.
Qed.

Lemma combined_bound (rows : list (R * R)) (c : R) :
  rows <> [] ->
  (forall r, In r rows -> 0 < snd r) ->
  maxAbsZ rows <= c ->
  (0.6 * maxAbsZ rows + 0.4 * weightedAvgAbsZ rows) / 3 <= c / 3.
Proof.
  intros Hne Hpos HM.
  assert (HW : 0 < sum_weights rows) by now apply sum_weights_pos.
  assert (HS : sum_weighted rows <= c * sum_weights rows).
  { apply sum_weighted_bound; [exact Hpos |].
    intros r Hr. eapply Rle_trans; [apply maxAbsZ_upper, Hr | exact HM]. }
  assert (HA : weightedAvgAbsZ rows <= c).
  { unfold weightedAvgAbsZ.
    apply Rmult_le_reg_r with (r := sum_weights rows); [exact HW |].
    unfold Rdiv. rewrite Rmult_assoc, Rinv_l by lra. lra. }
  lra.
Qed.

(** ** The claims on the aggregate *)

Lemma aggregate_cap (rows : list (R * R)) :
  (forall r, In r rows -> 0 < snd r) ->
  Rmin 1 ((0.6 * maxAbsZ rows + 0.4 * weightedAvgAbsZ rows) / 3)
  = aggregate rows.
Proof.
  intros Hpos. pose proof (combined_nonneg rows Hpos) as H.
  unfold aggregate, clamp. rewrite Rmin_comm.
  symmetry. apply Rmax_right. apply Rmin_glb; lra.
Qed.

Lemma anomalyScore_aggregate (st : State) :
  scored D st <> [] -> anomalyScore D st = Fin (aggregate (scored D st)).
Proof.
  intros Hne. rewrite (anomalyScore_scored st Hne).
  f_equal. apply aggregate_cap. apply scored_weights_pos.
Qed.

Lemma scored_nil_valid (st : State) :
  scored D st = [] -> validScores D st = [].
Proof.
  rewrite scored_validScores.
  pose proof (validScores_numbers st) as Hnum.
  destruct (validScores D st) as [| s rest]; [reflexivity |].
  inversion Hnum as [| ? ? Hs _]; subst.
  destruct (is_number_Fin s Hs) as [z Hz].
  rewrite (scored_of_cons s rest z Hz). discriminate.
Qed.

Lemma anomalyScore_unscored (st : State) :
  scored D st = [] -> anomalyScore D st = Fin 0.
Proof.
  intros H. apply scored_nil_valid in H. unfold anomalyScore.
  rewrite H. now destruct (scoreBreakdown D st).
Qed.

Lemma anomalyLabel_thresholds (st : State) (a : R) :
  anomalyScore D st = Fin a ->
  text (anomalyLabel D st)
  = if Rlt_dec a 0.33 then "Normaal"
    else if Rlt_dec a 0.66 then "Afwijkend"
    else "Sterk afwijkend".
Proof.
  intros H. unfold anomalyLabel. rewrite H. cbn [lt]. unfold Rltb.
  destruct (Rlt_dec a 0.33); [reflexivity |].
  destruct (Rlt_dec a 0.66); reflexivity.
Qed.




(** When every scored [|z|] is at most [c], the aggregate is at most
    [c / 3]; the label follows the thresholds 0.33 and 0.66. *)
Lemma anomalyScore_bound (st : State) (c : R) :
  0 <= c ->
  (forall r, In r (scored D st) -> Rabs (fst r) <= c) ->
  exists a,
    anomalyScore D st = Fin a
    /\ 0 <= a <= c / 3
    /\ text (anomalyLabel D st)
       = (if Rlt_dec a 0.33 then "Normaal"
          else if Rlt_dec a 0.66 then "Afwijkend"
          else "Sterk afwijkend")
    /\ (c < 0.99 -> text (anomalyLabel D st) = "Normaal").
Proof.
  intros Hc Hz.
  assert (Hlabel : forall a, anomalyScore D st = Fin a -> a < 0.33 ->
                             text (anomalyLabel D st) = "Normaal").
  { intros a Ha Hlt. rewrite (anomalyLabel_thresholds st a Ha).
    destruct (Rlt_dec a 0.33); [reflexivity | lra]. }
  destruct (scored D st) as [| r0 rows0] eqn:Hscored.
  { exists 0. pose proof (anomalyScore_unscored st Hscored) as Ha.
    split; [exact Ha |]. split; [lra |].
    split; [now apply anomalyLabel_thresholds |].
    intros _. apply (Hlabel 0 Ha); lra. }
  assert (Hne : scored D st <> []) by (rewrite Hscored; discriminate).
  pose proof (anomalyScore_scored st Hne) as Ha.
  pose proof (scored_weights_pos st) as Hpos.
  rewrite Hscored in Ha, Hpos.
  set (rows := r0 :: rows0) in *.
  set (x := (0.6 * maxAbsZ rows + 0.4 * weightedAvgAbsZ rows) / 3) in *.
  assert (Hx0 : 0 <= x) by now apply combined_nonneg.
  assert (Hx1 : x <= c / 3).
  { apply combined_bound; [discriminate | exact Hpos |].
    apply maxAbsZ_bound; [lra | exact Hz]. }
  exists (Rmin 1 x). split; [exact Ha |].
  assert (Hmin : 0 <= Rmin 1 x <= c / 3).
  { split; [apply Rmin_glb; lra |].
    eapply Rle_trans; [apply Rmin_r | exact Hx1]. }
  split; [exact Hmin |]. split; [now apply anomalyLabel_thresholds |].
  intros Hlt. apply (Hlabel _ Ha). lra.
Qed.

(** ** The rows of the table *)

Lemma room_feature_keys :
  map key (filter isRoomFeature allFeatures)
  = ["room_ratio"; "main_room_pct"; "transition_count"].
Proof. reflexivity. Qed.

Lemma room_key_distinct (g f : Feature) :
  In g allFeatures -> In f allFeatures ->
  isRoomFeature g = false -> isRoomFeature f = true -> key g <> key f.
Proof.
  intros Hg Hf Hgr Hfr. cbn in Hf.
  repeat (destruct Hf as [<- | Hf];
          [try discriminate Hfr | try contradiction]);
    cbn in Hg;
    repeat (destruct Hg as [<- | Hg];
            [try discriminate Hgr; cbn; discriminate | try contradiction]).
Qed.

Lemma scoreRow_null_today (st : State) (stats : Stats) (f : Feature) :
  getTodayValue D st f = Null ->
  scoreRow D st stats f
  = {| row_key := key f; row_label := label f; row_weight := weight f;
       zScore := Fin 0; severity := low |}.
Proof.
  intros H. unfold scoreRow. rewrite H, calculateZScore_null_value.
  cbn [Math_abs lift1 gt lt]. rewrite Rabs_R0.
  now rewrite (Rltb_false 2 0), (Rltb_false 1 0) by lra.
Qed.

(** C3, as the code has it: with a day record and a baseline object loaded,
    the scorer yields exactly one row per active feature, in the order of
    the catalogue, whether or not the feature has a today value or a
    baseline entry, and no row at all otherwise; a feature whose today value
    is null keeps its row, with z-score 0 and severity low. *)
Theorem scoreBreakdown_rows (st : State) :
  (forall ds stats,
      dayStats st = Some ds -> baselineStats st = Some stats ->
      map row_key (scoreBreakdown D st) = map key (activeFeatures st)
      /\ (forall f,
            In f (activeFeatures st) -> getTodayValue D st f = Null ->
            In {| row_key := key f; row_label := label f;
                  row_weight := weight f;
                  zScore := Fin 0; severity := low |}
               (scoreBreakdown D st)))
  /\ (dayStats st = None \/ baselineStats st = None ->
      scoreBreakdown D st = []).
Proof.
  split.
  - intros ds stats Hd Hb.
    rewrite (scoreBreakdown_loaded st ds stats Hd Hb). split.
    + rewrite map_map. reflexivity.
    + intros f Hf Hnull.
      rewrite <- (scoreRow_null_today st stats f Hnull).
      now apply in_map.
  - intros [H | H];
      [now apply scoreBreakdown_no_day | now apply scoreBreakdown_no_baseline].
Qed.

(** For a household whose selected day has at most one room available,
    the room features are left out of the active features and of the
    rows. *)
Lemma room_features_excluded (st : State) :
  single_room st ->
  activeFeatures st = filter (fun f => negb (isRoomFeature f)) allFeatures
  /\ map key (filter isRoomFeature allFeatures)
     = ["room_ratio"; "main_room_pct"; "transition_count"]
  /\ (forall f, In f (activeFeatures st) -> isRoomFeature f = false)
  /\ (forall row f,
        In row (scoreBreakdown D st) ->
        In f allFeatures -> isRoomFeature f = true ->
        row_key row <> key f).
Proof.
  intros Hsingle.
  pose proof (activeFeatures_single_room st Hsingle) as Hactive.
  assert (Hflag : forall f, In f (activeFeatures st) ->
                            In f allFeatures /\ isRoomFeature f = false).
  { intros f Hf. rewrite Hactive in Hf. apply filter_In in Hf.
    destruct Hf as [Hin Hf]. now apply negb_true_iff in Hf. }
  split; [exact Hactive |]. split; [exact room_feature_keys |].
  split; [intros f Hf; now apply Hflag |].
  intros row f Hrow Hf Hroom. unfold scoreBreakdown in Hrow.
  destruct (dayStats st); [| contradiction].
  destruct (baselineStats st); [| contradiction].
  apply in_map_iff in Hrow. destruct Hrow as (g & <- & Hg).
  destruct (Hflag g Hg) as [Hgin Hgflag]. cbn [scoreRow row_key].
  now apply room_key_distinct.
Qed.

(** C7: when the window of the baseline holds no daily record, no baseline
    object is stored, and the scorer run on that state yields no row, no
    scored row and the aggregate 0. *)
Theorem empty_window_no_baseline
    (st : State) (dailyError : bool) (roomData : option (list RoomRow)) :
  string_falsy (selectedConfigId st) = false ->
  let st' := loadBaselineStats D st dailyError (Some []) roomData in
  baselineStats st' = None
  /\ (forall f, ~ has_baseline st' f)
  /\ scoreBreakdown D st' = []
  /\ scored D st' = []
  /\ anomalyScore D st' = Fin 0.
Proof.
  intros Hcfg st'.
  assert (Hb : baselineStats st' = None).
  { unfold st', loadBaselineStats. rewrite Hcfg.
    now destruct dailyError. }
  assert (Hrows : scoreBreakdown D st' = [])
    by now apply scoreBreakdown_no_baseline.
  split; [exact Hb |].
  split; [intros f; unfold has_baseline; now rewrite Hb |].
  split; [exact Hrows |].
  split; [unfold scored; now rewrite Hrows |].
  now apply anomalyScore_no_rows.
Qed.

End Scorer.

(* ================================================================== *)
(** * Properties of the baseline *)
(* ================================================================== *)

Section Baseline.

Variable D : string -> Z.

Open Scope string_scope.
Open Scope R_scope.

(** ** Objects *)

Lemma obj_get_set {V} (o : object V) (k k' : string) (v : V) :
  obj_get (obj_set o k v) k'
  = if String.eqb k k' then Some v else obj_get o k'.
Proof.
  induction o as [| [k0 v0] o IH]; cbn; [reflexivity |].
  destruct (String.eqb k0 k) eqn:E0; cbn.
  - apply String.eqb_eq in E0. subst k0.
    now destruct (String.eqb k k').
  - rewrite IH. destruct (String.eqb k0 k') eqn:E1; [| reflexivity].
    apply String.eqb_eq in E1. subst k0.
    now rewrite String.eqb_sym, E0.
Qed.

(** ** The entries of one feature *)

Lemma featureStats_get (stats : Stats) (g : Feature) (values : list R)
    (k : string) :
  obj_get (featureStats stats g values) k
  = match values with
    | [] => obj_get stats k
    | v :: vs =>
        if String.eqb (stat_key "max_" g) k
        then Some (Fin (fold_left Rmax vs v))
        else if String.eqb (stat_key "min_" g) k
        then Some (Fin (fold_left Rmin vs v))
        else if String.eqb (stat_key "std_" g) k
        then Some (Fin (stored_std values))
        else if String.eqb (stat_key "avg_" g) k
        then Some (Fin (sample_mean values))
        else obj_get stats k
    end.
Proof.
  destruct values as [| v vs]; [reflexivity |].
  unfold featureStats. now rewrite !obj_get_set.
Qed.

Lemma featureStats_other (stats : Stats) (g : Feature) (values : list R)
    (k : string) :
  existsb (fun p => String.eqb (stat_key p g) k)
    ["max_"; "min_"; "std_"; "avg_"] = false ->
  obj_get (featureStats stats g values) k = obj_get stats k.
Proof.
  intros H. rewrite featureStats_get.
  destruct values as [| v vs]; [reflexivity |].
  cbn [existsb] in H. rewrite !orb_false_iff in H.
  destruct H as (-> & -> & -> & -> & _). reflexivity.
Qed.

(** ** The baseline object *)

(** Skips the entries of the other features in a lookup. *)
Ltac skip_features :=
  repeat (rewrite featureStats_other by reflexivity).

Lemma computeStats_get (pattern : option array)
    (roomByDate : object (list RoomRow)) (dailyData : list DailyStats)
    (f : Feature) :
  In f allFeatures ->
  stats_get (computeStats D pattern roomByDate dailyData) (avgKey f)
  = match samples D pattern roomByDate dailyData f with
    | [] => Undefined
    | values => Num (Fin (sample_mean values))
    end
  /\ stats_get (computeStats D pattern roomByDate dailyData) (stdKey f)
     = match samples D pattern roomByDate dailyData f with
       | [] => Undefined
       | values => Num (Fin (stored_std values))
       end.
Proof.
  intros Hf. unfold stats_get, computeStats. rewrite !obj_get_set.
  cbn in Hf.
  repeat (destruct Hf as [<- | Hf]; [| try contradiction]);
    (split;
     [ change (String.eqb "daysCount" (avgKey _)) with false
     | change (String.eqb "daysCount" (stdKey _)) with false ];
     cbv beta iota;
     cbv [allFeatures featureGroups flat_map features app fold_left];
     skip_features; rewrite featureStats_get;
     match goal with
     | |- context [samples D pattern roomByDate dailyData ?g] =>
         destruct (samples D pattern roomByDate dailyData g) as [| v vs];
         [ skip_features; reflexivity | reflexivity ]
     end).
Qed.

(** ** Mean and deviation of one and of two samples *)

Lemma sample_mean_one (x : R) : sample_mean [x] = x.
Proof. unfold sample_mean. cbn. field. Qed.

Lemma sample_mean_two (x y : R) : sample_mean [x; y] = (x + y) / 2.
Proof. unfold sample_mean. cbn. field. Qed.

Lemma stored_std_one (x : R) : stored_std [x] = 1.
Proof.
  unfold stored_std, sample_variance. rewrite sample_mean_one. cbn.
  replace ((0 + (x - x) * ((x - x) * 1)) / 1) with 0 by field.
  rewrite sqrt_0. now rewrite Reqb_true.
Qed.

Lemma stored_std_two (x y : R) :
  stored_std [x; y] = if Reqb x y then 1 else Rabs (x - y) / 2.
Proof.
  unfold stored_std, sample_variance. rewrite sample_mean_two. cbn.
  replace ((0 + (x - (x + y) / 2) * ((x - (x + y) / 2) * 1)
            + (y - (x + y) / 2) * ((y - (x + y) / 2) * 1)) / (1 + 1))
    with (Rsqr ((x - y) / 2)) by (unfold Rsqr; field).
  rewrite sqrt_Rsqr_abs.
  replace (Rabs ((x - y) / 2)) with (Rabs (x - y) / 2).
  2:{ unfold Rdiv. rewrite Rabs_mult. f_equal. rewrite Rabs_pos_eq; lra. }
  unfold Reqb.
  destruct (Req_dec_T x y) as [-> | Hne].
  - replace (y - y) with 0 by lra. rewrite Rabs_R0.
    destruct (Req_dec_T (0 / 2) 0); [reflexivity | lra].
  - destruct (Req_dec_T (Rabs (x - y) / 2) 0) as [H0 | H0]; [| reflexivity].
    exfalso. assert (Rabs (x - y) = 0) by lra.
    apply Hne. destruct (Req_dec (x - y) 0) as [? | Hd]; [lra |].
    apply Rabs_no_R0 in Hd. contradiction.
Qed.


(** ** Rows against a computed baseline *)

Lemma zScore_no_entry (pattern : option array) (rbd : object (list RoomRow))
    (days : list DailyStats) (st : State) (f : Feature) :
  In f allFeatures ->
  samples D pattern rbd days f = [] ->
  is_null (getTodayValue D st f) = false ->
  zScore (scoreRow D st (computeStats D pattern rbd days) f) = NaN.
Proof.
  intros Hf Hs Hv.
  destruct (computeStats_get pattern rbd days f Hf) as [Ha Hd].
  cbn [scoreRow zScore]. rewrite Ha, Hd, Hs.
  now apply calculateZScore_undefined_baseline.
Qed.

Lemma zScore_one_sample (pattern : option array) (rbd : object (list RoomRow))
    (days : list DailyStats) (st : State) (f : Feature) (m v : R) :
  In f allFeatures ->
  samples D pattern rbd days f = [m] ->
  getTodayValue D st f = Num (Fin v) ->
  zScore (scoreRow D st (computeStats D pattern rbd days) f) = Fin (v - m).
Proof.
  intros Hf Hs Hv.
  destruct (computeStats_get pattern rbd days f Hf) as [Ha Hd].
  cbn [scoreRow zScore]. rewrite Ha, Hd, Hs, Hv.
  rewrite sample_mean_one, stored_std_one.
  rewrite calculateZScore_numbers by lra. f_equal. field.
Qed.

End Baseline.

(* ================================================================== *)
(** * The example households *)
(* ================================================================== *)

(** Evaluates sums over the hourly buckets of the examples. *)
Ltac buckets_eval :=
  cbn [buckets map seq existsb Nat.eqb orb length negb fold_left array_get
       nth_error Nat.ltb Nat.leb Nat.add Nat.sub];
  rewrite ?or_number_Fin; cbn [add mul square lift2 lift1];
  repeat match goal with
    | |- context [Fin ?e] => progress ring_simplify e
    end.

Section ExampleRuns.

Open Scope string_scope.
Open Scope R_scope.

Lemma single_room_active (st : State) :
  single_room st -> activeFeatures st = map feature_named single_room_keys.
Proof. intros H. now rewrite (activeFeatures_single_room st H). Qed.

Lemma single_room_catalogue (k : string) :
  In k single_room_keys -> In (feature_named k) allFeatures.
Proof.
  intros H. cbn in H.
  repeat (destruct H as [<- | H]; [cbn; tauto |]). contradiction.
Qed.

(** ** A day with 50 events after days with 15 and 25 *)

Lemma busy_loaded :
  dayStats busy = Some busy_today /\ baselineStats busy = Some busy_stats.
Proof. split; reflexivity. Qed.

Lemma busy_single_room : single_room busy.
Proof. exact I. Qed.

Lemma busy_active (k : string) :
  In k single_room_keys -> In (feature_named k) (activeFeatures busy).
Proof.
  intros H. rewrite (single_room_active busy busy_single_room).
  now apply in_map.
Qed.


Lemma busy_active_hours_baseline :
  stats_get busy_stats (avgKey (feature_named "active_hours")) = Undefined
  /\ stats_get busy_stats (stdKey (feature_named "active_hours")) = Undefined.
Proof.
  destruct (computeStats_get no_dates None [] busy_window
              (feature_named "active_hours")) as [Ha Hs];
    [cbn; tauto |].
  unfold busy_stats. rewrite Ha, Hs. split; reflexivity.
Qed.

Lemma busy_today_values :
  getTodayValue no_dates busy (feature_named "total_events") = Num (Fin 50)
  /\ getTodayValue no_dates busy (feature_named "active_hours") = Num (Fin 5)
  /\ getTodayValue no_dates busy (feature_named "night_events") = Null.
Proof. repeat split. Qed.

Lemma busy_active_hours_row :
  In (scoreRow no_dates busy busy_stats (feature_named "active_hours"))
     (scoreBreakdown no_dates busy)
  /\ zScore (scoreRow no_dates busy busy_stats (feature_named "active_hours"))
     = NaN.
Proof.
  destruct busy_loaded as [Hd Hb].
  rewrite (scoreBreakdown_loaded no_dates busy _ _ Hd Hb). split.
  - apply in_map, busy_active. cbn. tauto.
  - apply zScore_no_entry; [cbn; tauto | reflexivity | reflexivity].
Qed.

(** ** Deviations below one *)

Lemma stddev_two (x y : R) :
  stddev (Some [Fin x; Fin y]) = Fin (stored_std [x; y]).
Proof.
  unfold stddev, avg. cbn [length Nat.ltb Nat.leb fold_left add lift2 INR map].
  rewrite (div_Fin (0 + x + y) (1 + 1)) by lra.
  cbn [ToNumber sub square lift1 lift2 fold_left add].
  rewrite div_Fin by lra.
  unfold stored_std, sample_variance, sample_mean.
  cbn [length fold_left INR].
  set (v := (0 + (x - (0 + x + y) / (1 + 1)) ^ 2
             + (y - (0 + x + y) / (1 + 1)) ^ 2) / (1 + 1)).
  assert (Hv : 0 <= v).
  { unfold v. apply Rmult_le_pos; [| lra].
    pose proof (pow2_ge_0 (x - (0 + x + y) / (1 + 1))).
    pose proof (pow2_ge_0 (y - (0 + x + y) / (1 + 1))). lra. }
  cbn [Math_sqrt]. rewrite (Rltb_false v 0 Hv).
  cbn [or_number number_truthy].
  destruct (Reqb (sqrt v) 0); reflexivity.
Qed.

Lemma stddev_zero_one : stddev (Some [Fin 0; Fin 1]) = Fin (1 / 2).
Proof.
  rewrite stddev_two, stored_std_two, Reqb_false by lra.
  f_equal. replace (0 - 1) with (- 1) by lra. rewrite Rabs_left by lra. lra.
Qed.

Lemma sparse_std :
  stats_get sparse_stats (stdKey (feature_named "total_events"))
  = Num (Fin (1 / 2)).
Proof.
  destruct (computeStats_get no_dates None [] sparse_window
              (feature_named "total_events")) as [_ Hs];
    [cbn; tauto |].
  unfold sparse_stats. rewrite Hs.
  change (samples no_dates None [] sparse_window (feature_named "total_events"))
    with [0; 1].
  cbv beta iota. do 2 f_equal. rewrite stored_std_two, Reqb_false by lra.
  replace (0 - 1) with (- 1) by lra. rewrite Rabs_left by lra. lra.
Qed.

Lemma one_room_loaded :
  dayStats one_room = Some (one_room_day "2024-03-02")
  /\ baselineStats one_room = Some one_room_stats.
Proof. split; reflexivity. Qed.

Lemma one_room_single : single_room one_room.
Proof. cbn. lra. Qed.

Lemma one_room_ratio_samples :
  samples no_dates None [] [one_room_day "2024-03-01"]
    (feature_named "room_ratio") = [1 / 1].
Proof.
  change (samples no_dates None [] [one_room_day "2024-03-01"]
            (feature_named "room_ratio"))
    with (surviving
            (if negb (truthy (Num (Fin 1))) then Null
             else Num (div (Fin 1) (Fin 1))) ++ [])%list.
  cbn [truthy number_truthy]. rewrite Reqb_false by lra. cbn [negb].
  now rewrite div_Fin by lra.
Qed.

Lemma one_room_ratio_baseline :
  has_baseline one_room (feature_named "room_ratio").
Proof.
  unfold has_baseline. destruct one_room_loaded as [_ ->].
  destruct (computeStats_get no_dates None [] [one_room_day "2024-03-01"]
              (feature_named "room_ratio")) as [Ha Hs];
    [cbn; tauto |].
  unfold one_room_stats. rewrite Ha, Hs, one_room_ratio_samples.
  split; discriminate.
Qed.

(** ** One event in each part of the day after a night event *)

Lemma night_pattern :
  averageHourlyPattern [night_day] = Some (buckets [0%nat]).
Proof.
  unfold averageHourlyPattern.
  cbn [night_day events_per_hour flat_map buckets map seq existsb Nat.eqb
       orb length app repeat fold_left nth array_get nth_error INR].
  rewrite !or_number_Fin. cbn [add lift2].
  rewrite !div_Fin by lra. cbn [map].
  rewrite !Rplus_0_l, !Rdiv_1_r. reflexivity.
Qed.

Lemma band_night (s e : nat) :
  In (s, e) [(6, 11); (12, 17); (18, 22)]%nat ->
  sumEventsInRange (Some (buckets [0%nat])) s e = Fin 0.
Proof.
  intros [H | [H | [H | []]]]; inversion H; subst;
    unfold sumEventsInRange; buckets_eval; reflexivity.
Qed.

Lemma band_three (s e : nat) :
  In (s, e) [(6, 11); (12, 17); (18, 22)]%nat ->
  sumEventsInRange (Some (buckets [6; 12; 18]%nat)) s e = Fin 1.
Proof.
  intros [H | [H | [H | []]]]; inversion H; subst;
    unfold sumEventsInRange; buckets_eval; reflexivity.
Qed.

Lemma cosine_same :
  cosineSimilarity (Some (buckets [0%nat])) (Some (buckets [0%nat])) = Fin 1.
Proof.
  unfold cosineSimilarity. buckets_eval.
  cbn [is_zero Math_sqrt].
  rewrite (Reqb_false 1 0), (Rltb_false 1 0) by lra. cbn [orb mul lift2].
  rewrite sqrt_1, div_Fin by lra. f_equal. lra.
Qed.

Lemma cosine_disjoint :
  cosineSimilarity (Some (buckets [6; 12; 18]%nat)) (Some (buckets [0%nat]))
  = Fin 0.
Proof.
  unfold cosineSimilarity. buckets_eval.
  cbn [is_zero Math_sqrt].
  rewrite (Reqb_false 1 0), (Reqb_false 3 0), (Rltb_false 1 0),
    (Rltb_false 3 0) by lra.
  cbn [orb mul lift2]. rewrite sqrt_1, div_Fin.
  - f_equal. unfold Rdiv. apply Rmult_0_l.
  - rewrite Rmult_1_r. pose proof (sqrt_lt_R0 3). lra.
Qed.

Lemma shifted_loaded :
  dayStats shifted = Some three_events_day
  /\ baselineStats shifted = Some shifted_stats
  /\ baselineAvgHourlyPattern shifted = Some (buckets [0%nat]).
Proof.
  unfold shifted_stats. rewrite <- night_pattern. repeat split.
Qed.

Lemma shifted_single_room : single_room shifted.
Proof. cbn. lra. Qed.

Lemma shifted_unscored (k : string) :
  In k ["first_activity"; "last_activity"; "awake_duration"; "total_events";
        "active_hours"; "longest_gap_minutes"; "night_events";
        "night_active_hours"; "rooms_active"; "motion_events"; "door_events"] ->
  zScore (scoreRow no_dates shifted shifted_stats (feature_named k)) = NaN.
Proof.
  intros H. cbn [In] in H.
  repeat (destruct H as [<- | H];
          [apply zScore_no_entry; [cbn; tauto | reflexivity | reflexivity] |]).
  contradiction.
Qed.

Lemma shifted_band_samples (k : string) (s e : nat) :
  In (k, (s, e)) [("morning_events", (6, 11)); ("afternoon_events", (12, 17));
                  ("evening_events", (18, 22))]%nat ->
  samples no_dates (Some (buckets [0%nat])) [] [night_day] (feature_named k)
  = [0]
  /\ getTodayValue no_dates shifted (feature_named k) = Num (Fin 1).
Proof.
  intros H.
  assert (Hs : samples no_dates (Some (buckets [0%nat])) [] [night_day]
                 (feature_named k)
               = (surviving
                    (Num (sumEventsInRange (Some (buckets [0%nat])) s e))
                  ++ [])%list).
  { destruct H as [H | [H | [H | []]]]; inversion H; reflexivity. }
  assert (Ht : getTodayValue no_dates shifted (feature_named k)
               = Num (sumEventsInRange (Some (buckets [6; 12; 18]%nat)) s e)).
  { destruct H as [H | [H | [H | []]]]; inversion H; reflexivity. }
  assert (Hb : In (s, e) [(6, 11); (12, 17); (18, 22)]%nat).
  { destruct H as [H | [H | [H | []]]]; inversion H; cbn; tauto. }
  rewrite Hs, Ht, (band_night s e Hb), (band_three s e Hb). split; reflexivity.
Qed.

Lemma shifted_bands (k : string) :
  In k ["morning_events"; "afternoon_events"; "evening_events"] ->
  zScore (scoreRow no_dates shifted shifted_stats (feature_named k)) = Fin 1.
Proof.
  intros H.
  assert (Hk : In k (map key allFeatures)).
  { destruct H as [<- | [<- | [<- | []]]]; cbn; tauto. }
  assert (exists s e, In (k, (s, e))
            [("morning_events", (6, 11)); ("afternoon_events", (12, 17));
             ("evening_events", (18, 22))]%nat) as (s & e & Hse).
  { destruct H as [<- | [<- | [<- | []]]];
      [exists 6%nat, 11%nat | exists 12%nat, 17%nat | exists 18%nat, 22%nat];
      cbn; tauto. }
  destruct (shifted_band_samples k s e Hse) as [Hs Ht].
  replace 1 with (1 - 0) by lra.
  apply zScore_one_sample; [| exact Hs | exact Ht].
  destruct H as [<- | [<- | [<- | []]]]; cbn; tauto.
Qed.

Lemma shifted_regularity :
  zScore (scoreRow no_dates shifted shifted_stats
            (feature_named "activity_regularity")) = Fin (-1).
Proof.
  replace (-1) with (0 - 1) by lra.
  apply zScore_one_sample; [cbn; tauto | |].
  - change (samples no_dates (Some (buckets [0%nat])) [] [night_day]
              (feature_named "activity_regularity"))
      with (surviving (Num (cosineSimilarity (Some (buckets [0%nat]))
                              (Some (buckets [0%nat])))) ++ [])%list.
    now rewrite cosine_same.
  - change (getTodayValue no_dates shifted
              (feature_named "activity_regularity"))
      with (match baselineAvgHourlyPattern shifted with
            | Some p =>
                Num (cosineSimilarity (Some (buckets [6; 12; 18]%nat))
                       (Some p))
            | None => Null
            end).
    destruct shifted_loaded as (_ & _ & ->). now rewrite cosine_disjoint.
Qed.

Lemma shifted_scored :
  scored no_dates shifted = [(1, 0.8); (1, 0.8); (1, 0.8); (-1, 0.6)].
Proof.
  unfold scored.
  destruct shifted_loaded as (Hd & Hb & _).
  rewrite (scoreBreakdown_loaded no_dates shifted _ _ Hd Hb).
  rewrite (single_room_active shifted shifted_single_room).
  unfold scored_of, single_room_keys. cbn [map flat_map].
  repeat match goal with
    | |- context [zScore (scoreRow _ _ _ (feature_named ?k))] =>
        first [ rewrite (shifted_unscored k) by (cbn; tauto)
              | rewrite (shifted_bands k) by (cbn; tauto)
              | rewrite shifted_regularity ]
    end.
  reflexivity.
Qed.

Lemma shifted_aggregate : anomalyScore no_dates shifted = Fin (1 / 3).
Proof.
  rewrite anomalyScore_scored by (rewrite shifted_scored; discriminate).
  rewrite shifted_scored. f_equal.
  unfold weightedAvgAbsZ, maxAbsZ, sum_weighted, sum_weights.
  cbn [fold_right fst snd].
  rewrite (Rabs_pos_eq 1) by lra.
  replace (Rabs (-1)) with 1 by (rewrite Rabs_left; lra).
  rewrite (Rmax_left 1 0) by lra. rewrite !(Rmax_left 1 1) by lra.
  replace ((0.6 * 1 + 0.4 * ((0.8 * 1 + (0.8 * 1 + (0.8 * 1 + (0.6 * 1 + 0))))
                            / (0.8 + (0.8 + (0.8 + (0.6 + 0)))))) / 3)
    with (1 / 3) by lra.
  apply Rmin_right. lra.
Qed.

Lemma shifted_small_z (r : R * R) :
  In r (scored no_dates shifted) -> Rabs (fst r) = 1.
Proof.
  rewrite shifted_scored. cbn [In]. intros Hr.
  repeat (destruct Hr as [<- | Hr];
          [cbn [fst]; unfold Rabs; destruct (Rcase_abs _); lra |]).
  contradiction.
Qed.

Lemma shifted_label : text (anomalyLabel no_dates shifted) = "Afwijkend".
Proof.
  rewrite (anomalyLabel_thresholds no_dates shifted (1 / 3) shifted_aggregate).
  destruct (Rlt_dec (1 / 3) 0.33); [lra |].
  destruct (Rlt_dec (1 / 3) 0.66); [reflexivity | lra].
Qed.

(** ** A morning in two rooms *)

Lemma Math_round_half (z : Z) (x : R) :
  IZR z - / 2 <= x < IZR z + / 2 -> Math_round (Fin x) = Fin (IZR z).
Proof.
  intros [H1 H2]. cbn. f_equal. f_equal. unfold Int_part.
  assert (Hup : (z + 1)%Z = up (x + / 2)).
  { apply tech_up; rewrite plus_IZR; lra. }
  rewrite <- Hup. lia.
Qed.

Lemma gt_Fin (x y : R) : gt (Fin x) (Fin y) = Rltb y x.
Proof. reflexivity. Qed.

Lemma main_room_morning :
  computeMainRoomPct (Some morning_rooms) = Num (Fin 50).
Proof.
  unfold computeMainRoomPct, morning_rooms.
  cbn [fold_left room room_name room_total_events obj_set obj_get stats_get
       String.eqb Ascii.eqb Bool.eqb].
  change (or_number Undefined (Fin 0)) with (@Fin R 0).
  repeat (rewrite or_number_Fin; cbn [add lift2]).
  cbn [add lift2 Object_values map snd fold_left Math_max_of Math_max is_zero].
  rewrite Reqb_false by lra. rewrite div_Fin by lra. cbn [mul lift2].
  f_equal. apply (Math_round_half 50).
  rewrite Rmax_left by lra. lra.
Qed.

Lemma dominantRoom_first :
  dominantRoom [room "living" "2024-03-01T08:00:00" 3;
                room "kitchen" "2024-03-01T08:00:00" 1] = Some "living"
  /\ dominantRoom [room "kitchen" "2024-03-01T09:00:00" 2] = Some "kitchen"
  /\ dominantRoom [room "living" "2024-03-01T10:00:00" 1;
                   room "kitchen" "2024-03-01T10:00:00" 1] = Some "living".
Proof.
  unfold dominantRoom. cbn [fold_left room room_total_events room_name].
  rewrite !or_number_Fin.
  repeat first [ rewrite gt_Fin
               | rewrite or_number_Fin
               | rewrite Rltb_true by lra
               | rewrite Rltb_false by lra
               | progress cbn [room room_total_events room_name fst] ].
  repeat split.
Qed.

Lemma transitions_morning :
  computeTransitionCount hour_of_day (Some morning_rooms) = Num (Fin 2).
Proof.
  destruct dominantRoom_first as (H8 & H9 & H10).
  unfold computeTransitionCount, morning_rooms.
  remember dominantRoom as dom eqn:Hdom.
  cbv - [count_changes INR IZR].
  subst dom.
  repeat match goal with
    | |- context [dominantRoom ?l] =>
        first [ replace (dominantRoom l) with (Some "living")
                  by (symmetry; exact H8)
              | replace (dominantRoom l) with (Some "kitchen")
                  by (symmetry; exact H9)
              | replace (dominantRoom l) with (Some "living")
                  by (symmetry; exact H10) ]
    end.
  reflexivity.
Qed.

End ExampleRuns.

(* ================================================================== *)
(** * The claims on the example households *)
(* ================================================================== *)

Section Instances.

Open Scope string_scope.
Open Scope R_scope.


(** C2 as stated fails: in the example with one event in each part of the
    day every scored [|z|] is 1, the aggregate is 1/3, not below 0.33, and
    the label is "Afwijkend". *)
Lemma anomalyScore_reaches_a_third :
  ~ (forall D st,
        (forall r, In r (scored D st) -> Rabs (fst r) <= 1) ->
        exists a, anomalyScore D st = Fin a /\ a < 0.33
                  /\ text (anomalyLabel D st) = "Normaal").
Proof.
  intros H. destruct (H no_dates shifted) as (a & Ha & Hlt & _).
  - intros r Hr. rewrite (shifted_small_z r Hr). lra.
  - rewrite shifted_aggregate in Ha. injection Ha as <-. lra.
Qed.

(** C2, as the code has it: when every scored feature has [|z| <= c] the
    aggregate is at most [c / 3], and the label is "Normaal" (normal) when
    [c < 0.99]; for [c = 1] the bound 1/3 is not below the threshold 0.33
    and it is reached: in the example with one event in each part of the
    day every scored [|z|] is 1, the aggregate is 1/3 and the label is
    "Afwijkend" (elevated).  The label is "Normaal" below 0.33, "Afwijkend"
    below 0.66 and "Sterk afwijkend" otherwise. *)
Theorem anomalyScore_small_z :
  (forall D st c,
      0 <= c ->
      (forall r, In r (scored D st) -> Rabs (fst r) <= c) ->
      exists a,
        anomalyScore D st = Fin a
        /\ 0 <= a <= c / 3
        /\ text (anomalyLabel D st)
           = (if Rlt_dec a 0.33 then "Normaal"
              else if Rlt_dec a 0.66 then "Afwijkend"
              else "Sterk afwijkend")
        /\ (c < 0.99 -> text (anomalyLabel D st) = "Normaal"))
  /\ (forall r, In r (scored no_dates shifted) -> Rabs (fst r) = 1)
  /\ anomalyScore no_dates shifted = Fin (1 / 3)
  /\ text (anomalyLabel no_dates shifted) = "Afwijkend".
Proof.
  split; [exact anomalyScore_bound |].
  split; [exact shifted_small_z |].
  split; [exact shifted_aggregate | exact shifted_label].
Qed.

Lemma anomalyScore_small_z_witness :
  0 <= 1
  /\ (forall r, In r (scored no_dates shifted) -> Rabs (fst r) <= 1)
  /\ exists a,
       anomalyScore no_dates shifted = Fin a
       /\ 0 <= a <= 1 / 3
       /\ text (anomalyLabel no_dates shifted)
          = (if Rlt_dec a 0.33 then "Normaal"
             else if Rlt_dec a 0.66 then "Afwijkend"
             else "Sterk afwijkend")
       /\ (1 < 0.99 -> text (anomalyLabel no_dates shifted) = "Normaal").
Proof.
  assert (H0 : 0 <= 1) by lra.
  assert (H1 : forall r, In r (scored no_dates shifted) -> Rabs (fst r) <= 1).
  { intros r Hr. rewrite (shifted_small_z r Hr). lra. }
  exact (conj H0 (conj H1
           (proj1 anomalyScore_small_z no_dates shifted 1 H0 H1))).
Defined.

(** C3 as stated fails: the day with 50 events has a row for the active
    hours, which have no baseline entry, and a row with z-score 0 for the
    night events, which have no today value. *)
Lemma scoreBreakdown_keeps_every_active_feature :
  ~ (forall D st row,
        In row (scoreBreakdown D st) ->
        exists f, In f (activeFeatures st) /\ key f = row_key row
                  /\ has_today D st f /\ has_baseline st f)
  /\ In {| row_key := "night_events"; row_label := "Nacht events";
           row_weight := 1.0; zScore := Fin 0; severity := low |}
        (scoreBreakdown no_dates busy).
Proof.
  destruct busy_loaded as [Hd Hb].
  destruct busy_active_hours_row as [Hrow _]. split.
  - intros H. destruct (H no_dates busy _ Hrow) as (f & Hf & Hkey & _ & Hbase).
    rewrite (single_room_active busy busy_single_room) in Hf.
    unfold has_baseline in Hbase. rewrite Hb in Hbase.
    destruct busy_active_hours_baseline as [Hundef _].
    cbn [scoreRow row_key] in Hkey. cbn in Hf.
    repeat (destruct Hf as [<- | Hf];
            [try discriminate Hkey; now destruct Hbase |]).
    contradiction.
  - rewrite (scoreBreakdown_loaded no_dates busy _ _ Hd Hb).
    destruct busy_today_values as (_ & _ & Hnull).
    change {| row_key := "night_events"; row_label := "Nacht events";
              row_weight := 1.0; zScore := Fin 0; severity := low |}
      with {| row_key := key (feature_named "night_events");
              row_label := label (feature_named "night_events");
              row_weight := weight (feature_named "night_events");
              zScore := Fin 0; severity := low |}.
    rewrite <- (scoreRow_null_today no_dates busy busy_stats _ Hnull).
    apply in_map, busy_active. cbn. tauto.
Qed.

Lemma scoreBreakdown_rows_witness :
  dayStats busy = Some busy_today
  /\ baselineStats busy = Some busy_stats
  /\ In (feature_named "night_events") (activeFeatures busy)
  /\ getTodayValue no_dates busy (feature_named "night_events") = Null
  /\ map row_key (scoreBreakdown no_dates busy) = map key (activeFeatures busy)
  /\ In {| row_key := "night_events"; row_label := "Nacht events";
           row_weight := 1.0; zScore := Fin 0; severity := low |}
        (scoreBreakdown no_dates busy).
Proof.
  destruct busy_loaded as [Hd Hb].
  destruct busy_today_values as (_ & _ & Hnull).
  assert (Hactive : In (feature_named "night_events") (activeFeatures busy))
    by (apply busy_active; cbn; tauto).
  destruct (scoreBreakdown_rows no_dates busy) as [Hrows _].
  destruct (Hrows busy_today busy_stats Hd Hb) as [Hkeys Hnullrow].
  exact (conj Hd (conj Hb (conj Hactive (conj Hnull
           (conj Hkeys (Hnullrow _ Hactive Hnull)))))).
Defined.

(** C4: with a baseline lookup that is [undefined] the z-score is [NaN],
    not 0: so is the z-score of the row of the active hours of the day with
    50 events, no day of whose window has its active hours. *)
Theorem calculateZScore_undefined_baseline_NaN :
  calculateZScore (Num (Fin 5)) Undefined Undefined = NaN
  /\ getTodayValue no_dates busy (feature_named "active_hours") = Num (Fin 5)
  /\ stats_get busy_stats (avgKey (feature_named "active_hours")) = Undefined
  /\ stats_get busy_stats (stdKey (feature_named "active_hours")) = Undefined
  /\ In (scoreRow no_dates busy busy_stats (feature_named "active_hours"))
        (scoreBreakdown no_dates busy)
  /\ zScore (scoreRow no_dates busy busy_stats (feature_named "active_hours"))
     = NaN.
Proof.
  destruct busy_active_hours_baseline as [Ha Hs].
  destruct busy_active_hours_row as [Hin Hz].
  destruct busy_today_values as (_ & Ht & _).
  repeat split; assumption.
Qed.

(** C5: the stored deviation of the samples 0 and 1 is 1/2, below 1, and
    so is [stddev([0, 1])]. *)
Theorem stored_std_below_one :
  stats_get sparse_stats (stdKey (feature_named "total_events"))
  = Num (Fin (1 / 2))
  /\ stddev (Some [Fin 0; Fin 1]) = Fin (1 / 2)
  /\ 1 / 2 < 1.
Proof.
  split; [exact sparse_std |]. split; [exact stddev_zero_one | lra].
Qed.

(** C6 as stated fails: the baseline of a household with one room has an
    entry for the room ratio. *)
Lemma baseline_keeps_room_ratio :
  ~ (forall D st f,
        single_room st -> In f allFeatures -> isRoomFeature f = true ->
        ~ has_baseline st f
        /\ (forall row, In row (scoreBreakdown D st) -> row_key row <> key f)).
Proof.
  intros H.
  destruct (H no_dates one_room (feature_named "room_ratio")
              one_room_single) as [Hno _];
    [cbn; tauto | reflexivity |].
  exact (Hno one_room_ratio_baseline).
Qed.

(** C6, as the code has it: for a household whose selected day has at most
    one room available, the room features ([room_ratio], [main_room_pct],
    [transition_count]) are left out of the active features, which are the
    features whose today value is extracted and the features that get a
    row; the baseline is computed over the whole catalogue, and that of the
    household with one room has an entry for the room ratio. *)
Theorem room_features_not_scored :
  (forall D st,
      single_room st ->
      activeFeatures st = filter (fun f => negb (isRoomFeature f)) allFeatures
      /\ map key (filter isRoomFeature allFeatures)
         = ["room_ratio"; "main_room_pct"; "transition_count"]
      /\ (forall f, In f (activeFeatures st) -> isRoomFeature f = false)
      /\ (forall row f,
            In row (scoreBreakdown D st) ->
            In f allFeatures -> isRoomFeature f = true ->
            row_key row <> key f))
  /\ single_room one_room
  /\ isRoomFeature (feature_named "room_ratio") = true
  /\ has_baseline one_room (feature_named "room_ratio").
Proof.
  split; [exact room_features_excluded |].
  split; [exact one_room_single |].
  split; [reflexivity | exact one_room_ratio_baseline].
Qed.

Lemma room_features_not_scored_witness :
  single_room one_room
  /\ activeFeatures one_room
     = filter (fun f => negb (isRoomFeature f)) allFeatures
  /\ map key (filter isRoomFeature allFeatures)
     = ["room_ratio"; "main_room_pct"; "transition_count"]
  /\ (forall f, In f (activeFeatures one_room) -> isRoomFeature f = false)
  /\ (forall row f,
        In row (scoreBreakdown no_dates one_room) ->
        In f allFeatures -> isRoomFeature f = true ->
        row_key row <> key f).
Proof.
  exact (conj one_room_single
           (proj1 room_features_not_scored no_dates one_room
              one_room_single)).
Defined.

Lemma empty_window_no_baseline_witness :
  string_falsy (selectedConfigId (selected busy_today)) = false
  /\ baselineStats
       (loadBaselineStats no_dates (selected busy_today) false (Some []) None)
     = None
  /\ (forall f,
        ~ has_baseline
            (loadBaselineStats no_dates (selected busy_today) false (Some [])
               None) f)
  /\ scoreBreakdown no_dates
       (loadBaselineStats no_dates (selected busy_today) false (Some []) None)
     = []
  /\ scored no_dates
       (loadBaselineStats no_dates (selected busy_today) false (Some []) None)
     = []
  /\ anomalyScore no_dates
       (loadBaselineStats no_dates (selected busy_today) false (Some []) None)
     = Fin 0.
Proof.
  exact (conj eq_refl
           (empty_window_no_baseline no_dates (selected busy_today) false None
              eq_refl)).
Defined.

End Instances.

(* ================================================================== *)
(** * Hourly buckets: sums, active hours and the start of the day *)
(* ================================================================== *)

Section HourlyBuckets.

Open Scope R_scope.

(** ** Entries and sums *)

Lemma or_number_events (e : array) (h : nat) :
  or_number (array_get e h) (Fin 0) = Fin (events_at e h).
Proof.
  unfold events_at.
  destruct (array_get e h) as [| |[|x]]; cbn; try reflexivity.
  unfold Reqb. destruct (Req_dec_T x 0) as [->|]; reflexivity.
Qed.

Lemma gt_events (e : array) (h : nat) :
  gt (or_number (array_get e h) (Fin 0)) (Fin 0) = Rltb 0 (events_at e h).
Proof. rewrite or_number_events. reflexivity. Qed.

Lemma active_events (e : array) (h : nat) :
  active e h = Rltb 0 (events_at e h).
Proof.
  unfold active, events_at, gt, lt, ToNumber.
  destruct (array_get e h) as [| |[|x]]; try reflexivity;
    symmetry; apply Rltb_false; lra.
Qed.

Lemma geq_events (e : array) (h : nat) :
  geq (ToNumber (array_get e h)) (Fin 2) = negb (Rltb (events_at e h) 2).
Proof.
  unfold events_at, geq, ToNumber.
  destruct (array_get e h) as [| |[|x]]; try reflexivity;
    symmetry; rewrite Rltb_true; try reflexivity; lra.
Qed.

Lemma events_at_nonneg (e : array) (h : nat) : counts e -> 0 <= events_at e h.
Proof.
  intro H. unfold events_at, array_get.
  destruct (nth_error e h) as [v|] eqn:E; [|lra].
  apply nth_error_In in E.
  unfold counts in H. rewrite Forall_forall in H. specialize (H v E).
  destruct v as [| |[|x]]; lra.
Qed.

Lemma total_app (f : nat -> R) (l1 l2 : list nat) :
  total f (l1 ++ l2) = total f l1 + total f l2.
Proof. induction l1; cbn; [lra|]. rewrite IHl1. lra. Qed.

Lemma total_nonneg (f : nat -> R) (l : list nat) :
  (forall h, 0 <= f h) -> 0 <= total f l.
Proof. intro H. induction l; cbn; [lra|]. specialize (H a). lra. Qed.

Lemma total_le (f : nat -> R) (l1 l2 : list nat) :
  (forall h, 0 <= f h) -> total f l1 <= total f (l1 ++ l2).
Proof. intro H. rewrite total_app. pose proof (total_nonneg f l2 H). lra. Qed.



Lemma fold_add_total (e : array) (hs : list nat) (a : R) :
  fold_left (fun s h => add s (or_number (array_get e h) (Fin 0))) hs (Fin a)
  = Fin (a + total (events_at e) hs).
Proof.
  revert a. induction hs as [|h hs IH]; intro a; cbn [fold_left total].
  - f_equal. lra.
  - rewrite or_number_events. cbn [add lift2]. rewrite IH. f_equal. lra.
Qed.

Lemma sumEventsInRange_total (e : array) (a b : nat) :
  (24 <= length e)%nat ->
  sumEventsInRange (Some e) a b
  = Fin (total (events_at e) (seq a (b + 1 - a))).
Proof.
  intro H. unfold sumEventsInRange.
  replace (length e <? 24)%nat with false
    by (symmetry; apply Nat.ltb_ge; exact H).
  rewrite fold_add_total. f_equal. lra.
Qed.

Lemma getDayEvents_total (e : array) :
  getDayEvents (Some e) = Fin (total (events_at e) (seq 5 18)).
Proof.
  unfold getDayEvents. rewrite fold_add_total. f_equal.
  change (seq DAY_START_HOUR (NIGHT_START_HOUR - DAY_START_HOUR))
    with (seq 5 18).
  lra.
Qed.

Lemma getDayEventsUntilHour_total (e : array) (u : nat) :
  getDayEventsUntilHour (Some e) u
  = Fin (total (events_at e) (seq 5 (Nat.min u 23 - 5))).
Proof.
  unfold getDayEventsUntilHour. rewrite fold_add_total. f_equal.
  unfold NIGHT_START_HOUR, DAY_START_HOUR. lra.
Qed.

Lemma spread_counts : counts spread.
Proof.
  unfold counts, spread, buckets. cbn.
  repeat (apply Forall_cons; [lra|]). apply Forall_nil.
Qed.

Lemma spread_full : (24 <= length spread)%nat.
Proof. vm_compute. lia. Qed.

(** X1: [sumEventsInRange] returns a number, never [NaN], whatever the
    entries of the array are (an entry that is null, undefined, [NaN] or
    missing counts for 0), and the sum over a range of hours is the sum
    over its two parts, wherever the range is cut. *)
Theorem sumEventsInRange_split (e : option array) (a b c : nat) :
  (a <= b + 1)%nat -> (b <= c)%nat ->
  (exists x, sumEventsInRange e a c = Fin x)
  /\ sumEventsInRange e a c
     = add (sumEventsInRange e a b) (sumEventsInRange e (b + 1) c).
Proof.
  intros Hab Hbc. destruct e as [e|].
  2:{ split; [exists 0; reflexivity | cbn; f_equal; lra]. }
  destruct (Nat.ltb_spec (length e) 24) as [Hs|Hl].
  - unfold sumEventsInRange.
    replace (length e <? 24)%nat with true
      by (symmetry; apply Nat.ltb_lt; exact Hs).
    split; [exists 0; reflexivity | cbn; f_equal; lra].
  - rewrite !sumEventsInRange_total by exact Hl.
    split; [eexists; reflexivity|].
    cbn [add lift2]. f_equal. rewrite <- total_app. f_equal.
    replace (c + 1 - a)%nat with ((b + 1 - a) + (c + 1 - (b + 1)))%nat by lia.
    rewrite seq_app. do 2 f_equal. lia.
Qed.

Lemma sumEventsInRange_split_witness :
  (6 <= 11 + 1)%nat /\ (11 <= 22)%nat
  /\ (exists x, sumEventsInRange (Some spread) 6 22 = Fin x)
  /\ sumEventsInRange (Some spread) 6 22
     = add (sumEventsInRange (Some spread) 6 11)
         (sumEventsInRange (Some spread) 12 22).
Proof.
  assert (H1 : (6 <= 11 + 1)%nat) by lia.
  assert (H2 : (11 <= 22)%nat) by lia.
  exact (conj H1 (conj H2 (sumEventsInRange_split (Some spread) 6 11 22 H1 H2))).
Defined.

(** X2: for an array of at least 24 entries, the events of the day
    ([getDayEvents], hours 5 to 22) are the events of hour 5 plus the three
    day-part sums of the scorer (hours 6-11, 12-17 and 18-22); the hours of
    the three day parts are the hours that [isNightHour] does not count as
    night, and hour 5 is counted both by [getDayEvents] and as night. *)
Theorem getDayEvents_day_parts (e : array) :
  (24 <= length e)%nat ->
  getDayEvents (Some e)
  = add (or_number (array_get e 5) (Fin 0))
      (add (add (sumEventsInRange (Some e) 6 11)
                (sumEventsInRange (Some e) 12 17))
           (sumEventsInRange (Some e) 18 22))
  /\ forall h, isNightHour h = false <-> (6 <= h <= 22)%nat.
Proof.
  intro H. split.
  - rewrite getDayEvents_total, or_number_events.
    rewrite !sumEventsInRange_total by exact H.
    cbn [add lift2]. f_equal.
    change (seq 5 18)
      with ([5%nat] ++ (seq 6 (11 + 1 - 6) ++ seq 12 (17 + 1 - 12))
            ++ seq 18 (22 + 1 - 18))%list.
    rewrite !total_app. cbn [total]. lra.
  - intro h. unfold isNightHour, NIGHT_START_HOUR, NIGHT_END_HOUR.
    rewrite orb_false_iff, Nat.leb_gt, Nat.ltb_ge. lia.
Qed.

Lemma getDayEvents_day_parts_witness :
  (24 <= length spread)%nat
  /\ getDayEvents (Some spread)
     = add (or_number (array_get spread 5) (Fin 0))
         (add (add (sumEventsInRange (Some spread) 6 11)
                   (sumEventsInRange (Some spread) 12 17))
              (sumEventsInRange (Some spread) 18 22))
  /\ forall h, isNightHour h = false <-> (6 <= h <= 22)%nat.
Proof. exact (conj spread_full (getDayEvents_day_parts spread spread_full)). Defined.

(** ** Active hours *)

Lemma fold_count (p : nat -> bool) (l : list nat) (n : nat) :
  fold_left (fun count h => if p h then S count else count) l n
  = (n + length (filter p l))%nat.
Proof.
  revert n. induction l as [|h l IH]; intro n; cbn [fold_left filter].
  - cbn. lia.
  - rewrite IH. destruct (p h); cbn [length]; lia.
Qed.

Lemma filter_length_app {A} (p : A -> bool) (l1 l2 : list A) :
  length (filter p (l1 ++ l2))
  = (length (filter p l1) + length (filter p l2))%nat.
Proof. rewrite filter_app, length_app. reflexivity. Qed.

Lemma getActiveDayHours_filter (e : array) :
  getActiveDayHours (Some e) = length (filter (active e) (seq 5 18)).
Proof. unfold getActiveDayHours. rewrite fold_count. reflexivity. Qed.

Lemma getActiveDayHoursUntilHour_filter (e : array) (u : nat) :
  getActiveDayHoursUntilHour (Some e) u
  = length (filter (active e) (seq 5 (Nat.min u 23 - 5))).
Proof. unfold getActiveDayHoursUntilHour. rewrite fold_count. reflexivity. Qed.

(** X3: for an array of event counts and hours [u <= v], the events and the
    active hours counted until [u] are at most those counted until [v],
    which are at most those of the whole day (at most 18 active hours);
    counting until an hour from 23 on gives the whole day, and counting
    until an hour up to 5 gives 0. *)
Theorem until_hour_monotone (e : array) (u v : nat) :
  counts e -> (u <= v)%nat ->
  (exists x y z,
      getDayEventsUntilHour (Some e) u = Fin x
      /\ getDayEventsUntilHour (Some e) v = Fin y
      /\ getDayEvents (Some e) = Fin z
      /\ 0 <= x <= y /\ y <= z)
  /\ (getActiveDayHoursUntilHour (Some e) u
      <= getActiveDayHoursUntilHour (Some e) v)%nat
  /\ (getActiveDayHoursUntilHour (Some e) v <= getActiveDayHours (Some e))%nat
  /\ (getActiveDayHours (Some e) <= 18)%nat
  /\ ((23 <= v)%nat ->
      getDayEventsUntilHour (Some e) v = getDayEvents (Some e)
      /\ getActiveDayHoursUntilHour (Some e) v = getActiveDayHours (Some e))
  /\ ((v <= 5)%nat ->
      getDayEventsUntilHour (Some e) v = Fin 0
      /\ getActiveDayHoursUntilHour (Some e) v = 0%nat).
Proof.
  intros Hc Huv.
  assert (Hn : forall h, 0 <= events_at e h)
    by (intro; apply events_at_nonneg; exact Hc).
  assert (Euv : (Nat.min v 23 - 5
                 = (Nat.min u 23 - 5)
                   + (Nat.min v 23 - Nat.max 5 (Nat.min u 23)))%nat) by lia.
  assert (Ev : seq 5 18
               = seq 5 ((Nat.min v 23 - 5)
                        + (23 - Nat.max 5 (Nat.min v 23))))
    by (f_equal; lia).
  rewrite !getDayEventsUntilHour_total, getDayEvents_total.
  rewrite !getActiveDayHoursUntilHour_filter, getActiveDayHours_filter.
  split; [|split; [|split; [|split; [|split]]]].
  - do 3 eexists. split; [reflexivity|]. split; [reflexivity|].
    split; [reflexivity|]. split; [split|].
    + apply total_nonneg, Hn.
    + rewrite Euv, seq_app. apply total_le, Hn.
    + rewrite Ev, seq_app. apply total_le, Hn.
  - rewrite Euv, seq_app, filter_length_app. lia.
  - rewrite Ev, seq_app, filter_length_app. lia.
  - pose proof (filter_length_le (active e) (seq 5 18)) as L.
    rewrite length_seq in L. exact L.
  - intro Hv. replace (Nat.min v 23 - 5)%nat with 18%nat by lia.
    split; reflexivity.
  - intro Hv. replace (Nat.min v 23 - 5)%nat with 0%nat by lia.
    split; reflexivity.
Qed.

Lemma until_hour_monotone_witness :
  counts spread /\ (7 <= 13)%nat
  /\ (exists x y z,
         getDayEventsUntilHour (Some spread) 7 = Fin x
         /\ getDayEventsUntilHour (Some spread) 13 = Fin y
         /\ getDayEvents (Some spread) = Fin z
         /\ 0 <= x <= y /\ y <= z)
  /\ (getActiveDayHoursUntilHour (Some spread) 7
      <= getActiveDayHoursUntilHour (Some spread) 13)%nat.
Proof.
  assert (H : (7 <= 13)%nat) by lia.
  pose proof (until_hour_monotone spread 7 13 spread_counts H) as T.
  exact (conj spread_counts
           (conj H (conj (proj1 T) (proj1 (proj2 T))))).
Defined.

Lemma no_active_no_events (e : array) (l : list nat) :
  counts e ->
  length (filter (active e) l) = 0%nat <-> total (events_at e) l = 0.
Proof.
  intro Hc. induction l as [|h l IH]; cbn [filter total length].
  - split; reflexivity.
  - pose proof (events_at_nonneg e h Hc) as H0.
    pose proof (total_nonneg (events_at e) l
                  (fun h => events_at_nonneg e h Hc)) as H1.
    rewrite active_events. unfold Rltb.
    destruct (Rlt_dec 0 (events_at e h)) as [Hp|Hn]; cbn [length].
    + split; [discriminate | intro; lra].
    + rewrite IH. split; intro; lra.
Qed.

(** X4: for an array of event counts, the day has no active hour exactly
    when it has no events: [getActiveDayHours] is 0 if and only if
    [getDayEvents] is 0. *)
Theorem getActiveDayHours_zero (e : array) :
  counts e ->
  getActiveDayHours (Some e) = 0%nat <-> getDayEvents (Some e) = Fin 0.
Proof.
  intro Hc. rewrite getActiveDayHours_filter, getDayEvents_total.
  rewrite (no_active_no_events e _ Hc).
  split; [intros ->; reflexivity | intro H; injection H; trivial].
Qed.

Lemma getActiveDayHours_zero_witness :
  counts spread
  /\ (getActiveDayHours (Some spread) = 0%nat
      <-> getDayEvents (Some spread) = Fin 0).
Proof.
  exact (conj spread_counts (getActiveDayHours_zero spread spread_counts)).
Defined.

(** ** The start of the day *)

Lemma cluster_test_spec (e : array) (h : nat) :
  cluster_test e h = true <-> cluster_hour e h.
Proof.
  unfold cluster_test, cluster_hour.
  rewrite geq_events, !gt_events, andb_true_iff, orb_true_iff, negb_true_iff,
    !Rltb_spec.
  unfold Rltb. destruct (Rlt_dec (events_at e h) 2);
    intuition (try discriminate; try lra).
Qed.

Lemma calculateDayStart_unfold (e : array) :
  (24 <= length e)%nat ->
  calculateDayStart (Some e)
  = match find (cluster_test e) (seq 5 7) with
    | Some h => Num (Fin (Z.of_nat h * 60)%Z)
    | None =>
        match find (active e) (seq 5 19) with
        | Some h => Num (Fin (Z.of_nat h * 60)%Z)
        | None => Null
        end
    end.
Proof.
  intro H. unfold calculateDayStart.
  replace (length e <? 24)%nat with false
    by (symmetry; apply Nat.ltb_ge; exact H).
  reflexivity.
Qed.

Lemma calculateDayStart_short (e : array) :
  (length e < 24)%nat -> calculateDayStart (Some e) = Null.
Proof.
  intro H. unfold calculateDayStart.
  replace (length e <? 24)%nat with true
    by (symmetry; apply Nat.ltb_lt; exact H).
  reflexivity.
Qed.

(** The first element of a list that passes a test: nothing before it
    passes. *)
Lemma find_first {A} (p : A -> bool) (l : list A) (x : A) :
  find p l = Some x ->
  exists l1 l2, l = (l1 ++ x :: l2)%list /\ p x = true
                /\ forall y, In y l1 -> p y = false.
Proof.
  induction l as [|a l IH]; cbn [find]; [discriminate|].
  destruct (p a) eqn:E.
  - intro H. injection H as ->. exists [], l. repeat split; [exact E|].
    intros y [].
  - intro H. destruct (IH H) as (l1 & l2 & -> & Hx & Hb).
    exists (a :: l1), l2. repeat split; [exact Hx|].
    intros y [<-|Hy]; [exact E | exact (Hb y Hy)].
Qed.

Lemma seq_prefix (a n : nat) (l1 l2 : list nat) (x : nat) :
  seq a n = (l1 ++ x :: l2)%list ->
  (a <= x < a + n)%nat /\ forall y, (a <= y < x)%nat -> In y l1.
Proof.
  intro H.
  assert (L : (length l1 < n)%nat).
  { pose proof (f_equal (@length nat) H) as L.
    rewrite length_seq, length_app in L. cbn in L. lia. }
  assert (Hl : x = (a + length l1)%nat).
  { assert (E : nth (length l1) (seq a n) 0%nat = x)
      by (rewrite H, app_nth2, Nat.sub_diag by lia; reflexivity).
    rewrite seq_nth in E by exact L. lia. }
  split; [lia|].
  intros y Hy.
  assert (E : nth (y - a) (seq a n) 0%nat = y) by (rewrite seq_nth; lia).
  rewrite H, app_nth1 in E by lia.
  rewrite <- E. apply nth_In. lia.
Qed.

Lemma formatted_hour (h : nat) :
  (5 <= h <= 23)%nat ->
  exists t, formatMinutesToTime (Num (Fin (Z.of_nat h * 60)%Z)) = Some t
            /\ valid_time t = true.
Proof.
  intros Hh.
  assert (C : In h (seq 5 19)) by (apply in_seq; lia).
  cbn in C.
  repeat (destruct C as [<-|C]; [eexists; split; reflexivity|]).
  destruct C.
Qed.

(** X5: [calculateDayStart] returns null exactly when the array is missing,
    has fewer than 24 entries, or has no hour with activity from 05:00 on
    (activity before 05:00 is never a day start).  Otherwise it returns
    [60 * h] for an hour [h] between 5 and 23 that has events, no hour
    from 5 up to [h] starts a cluster (at least 2 events, followed by
    activity in one of the next two hours), [h] is the first hour with
    events from 05:00 on unless it starts a cluster before noon, and the
    result formats as a valid time string. *)
Theorem calculateDayStart_spec (e : option array) :
  (calculateDayStart e = Null
   <-> match e with
       | None => True
       | Some a =>
           (length a < 24)%nat
           \/ forall h, (5 <= h < 24)%nat -> events_at a h <= 0
       end)
  /\ forall a m,
       e = Some a -> calculateDayStart e = Num (Fin m) ->
       exists h,
         m = (60 * Z.of_nat h)%Z
         /\ (5 <= h <= 23)%nat
         /\ 0 < events_at a h
         /\ (forall h', (5 <= h' < h)%nat -> ~ cluster_hour a h')
         /\ (~ cluster_hour a h \/ (12 <= h)%nat ->
             forall h', (5 <= h' < h)%nat -> events_at a h' <= 0)
         /\ exists t, formatMinutesToTime (Num (Fin m)) = Some t
                      /\ valid_time t = true.
Proof.
  split.
  - destruct e as [a|]; [|split; trivial].
    destruct (Nat.ltb_spec (length a) 24) as [Hs|Hl].
    + rewrite (calculateDayStart_short a Hs).
      split; [intros _; left; exact Hs | reflexivity].
    + rewrite (calculateDayStart_unfold a Hl). split.
      * destruct (find (cluster_test a) (seq 5 7)); [discriminate|].
        destruct (find (active a) (seq 5 19)) eqn:F; [discriminate|].
        intros _. right. intros h Hh.
        pose proof (find_none _ _ F h) as N.
        rewrite active_events in N.
        assert (In h (seq 5 19)) as I by (apply in_seq; lia).
        specialize (N I). unfold Rltb in N.
        destruct (Rlt_dec 0 (events_at a h)); [discriminate | lra].
      * intros [Hs|Hn]; [lia|].
        destruct (find (cluster_test a) (seq 5 7)) as [h|] eqn:F.
        -- apply find_some in F. destruct F as [I F].
           apply cluster_test_spec in F. destruct F as [F _].
           apply in_seq in I. specialize (Hn h ltac:(lia)). lra.
        -- destruct (find (active a) (seq 5 19)) as [h|] eqn:G;
             [|reflexivity].
           apply find_some in G. destruct G as [I G].
           rewrite active_events in G. apply Rltb_spec in G.
           apply in_seq in I. specialize (Hn h ltac:(lia)). lra.
  - intros a m -> H.
    assert (Hl : (24 <= length a)%nat).
    { destruct (Nat.ltb_spec (length a) 24) as [Hs|Hl]; [|exact Hl].
      rewrite (calculateDayStart_short a Hs) in H. discriminate. }
    rewrite (calculateDayStart_unfold a Hl) in H.
    destruct (find (cluster_test a) (seq 5 7)) as [h|] eqn:F.
    + injection H as <-.
      destruct (find_first _ _ _ F) as (l1 & l2 & E & Hx & Hb).
      destruct (seq_prefix _ _ _ _ _ E) as [R P].
      apply cluster_test_spec in Hx.
      exists h. split; [lia|]. split; [lia|].
      split; [destruct Hx; lra|].
      split.
      { intros h' Hh' C. apply cluster_test_spec in C.
        rewrite (Hb h' (P h' Hh')) in C. discriminate. }
      split.
      { intros [N|N]; [contradiction | lia]. }
      apply formatted_hour. lia.
    + destruct (find (active a) (seq 5 19)) as [h|] eqn:G; [|discriminate].
      injection H as <-.
      destruct (find_first _ _ _ G) as (l1 & l2 & E & Hx & Hb).
      destruct (seq_prefix _ _ _ _ _ E) as [R P].
      rewrite active_events in Hx. apply Rltb_spec in Hx.
      assert (Q : forall h', (5 <= h' < h)%nat -> events_at a h' <= 0).
      { intros h' Hh'. pose proof (Hb h' (P h' Hh')) as B.
        rewrite active_events in B. unfold Rltb in B.
        destruct (Rlt_dec 0 (events_at a h')); [discriminate | lra]. }
      exists h. split; [lia|]. split; [lia|]. split; [exact Hx|].
      split.
      { intros h' Hh' [C _]. specialize (Q h' Hh'). lra. }
      split; [intros _; exact Q|].
      apply formatted_hour. lia.
Qed.

(** Three events at 5 o'clock followed by one at 6: the day starts at
    05:00. *)
Lemma dawn_start : calculateDayStart (Some dawn) = Num (Fin 300%Z).
Proof.
  rewrite calculateDayStart_unfold by (vm_compute; lia).
  change (seq 5 7) with (5%nat :: seq 6 6). cbn [find].
  replace (cluster_test dawn 5) with true; [reflexivity|].
  symmetry. apply cluster_test_spec. unfold cluster_hour.
  change (events_at dawn 5) with 3.
  change (events_at dawn (5 + 1)) with 1.
  split; [lra | left; lra].
Qed.

Lemma calculateDayStart_spec_witness :
  calculateDayStart (Some dawn) = Num (Fin 300%Z)
  /\ exists h,
       300%Z = (60 * Z.of_nat h)%Z
       /\ (5 <= h <= 23)%nat
       /\ 0 < events_at dawn h
       /\ (forall h', (5 <= h' < h)%nat -> ~ cluster_hour dawn h')
       /\ (~ cluster_hour dawn h \/ (12 <= h)%nat ->
           forall h', (5 <= h' < h)%nat -> events_at dawn h' <= 0)
       /\ exists t, formatMinutesToTime (Num (Fin 300%Z)) = Some t
                    /\ valid_time t = true.
Proof.
  exact (conj dawn_start
           (proj2 (calculateDayStart_spec (Some dawn)) dawn 300%Z
              eq_refl dawn_start)).
Defined.

End HourlyBuckets.

(* ================================================================== *)
(** * Mean, deviation and cosine similarity *)
(* ================================================================== *)

Section Statistics.

Open Scope R_scope.

Lemma fold_add_Fin (vs : list R) (a : R) :
  fold_left add (map Fin vs) (Fin a) = Fin (fold_left Rplus vs a).
Proof.
  revert a. induction vs as [|v vs IH]; intro a; cbn [map fold_left];
    [reflexivity|].
  cbn [add lift2]. apply IH.
Qed.

Lemma fold_plus_map {A} (g : A -> R) (l : list A) (a : R) :
  fold_left Rplus (map g l) a = fold_left (fun s v => s + g v) l a.
Proof.
  revert a. induction l as [|x l IH]; intro a; cbn [map fold_left];
    [reflexivity|]. apply IH.
Qed.

Lemma fold_plus_acc {A} (g : A -> R) (l : list A) (a : R) :
  fold_left (fun s v => s + g v) l a
  = a + fold_left (fun s v => s + g v) l 0.
Proof.
  revert a. induction l as [|x l IH]; intro a; cbn [fold_left]; [lra|].
  rewrite IH, (IH (0 + g x)). lra.
Qed.

Lemma fold_plus_nonneg {A} (g : A -> R) (l : list A) :
  (forall x, 0 <= g x) -> 0 <= fold_left (fun s v => s + g v) l 0.
Proof.
  intro H. induction l as [|x l IH]; cbn [fold_left]; [lra|].
  rewrite fold_plus_acc. specialize (H x). lra.
Qed.

Lemma INR_length_pos {A} (x : A) (l : list A) : 0 < INR (length (x :: l)).
Proof. apply lt_0_INR. cbn. lia. Qed.

Lemma sample_variance_nonneg (vs : list R) : 0 <= sample_variance vs.
Proof.
  unfold sample_variance. destruct vs as [|v vs].
  - cbn. unfold Rdiv. rewrite Rmult_0_l. lra.
  - apply Rmult_le_pos.
    + apply (fold_plus_nonneg (fun v0 => (v0 - sample_mean (v :: vs)) ^ 2)).
      intro x. apply pow2_ge_0.
    + apply Rlt_le, Rinv_0_lt_compat, INR_length_pos.
Qed.

Lemma avg_Fin (vs : list R) :
  vs <> [] -> avg (Some (map Fin vs)) = Num (Fin (sample_mean vs)).
Proof.
  destruct vs as [|v vs]; [congruence|]. intros _.
  unfold avg. cbn [map]. change (Fin v :: map Fin vs) with (map Fin (v :: vs)).
  rewrite fold_add_Fin, length_map.
  rewrite div_Fin by (pose proof (INR_length_pos v vs); lra).
  reflexivity.
Qed.

(** X6: on a non-empty array of finite numbers, the shared utilities [avg]
    and [stddev] return the mean and the deviation that [loadBaselineStats]
    computes inline for the baseline (the mean of the samples, and the
    square root of their variance with 0 replaced by 1): the two
    implementations agree. *)
Theorem stddev_stored_std (vs : list R) :
  vs <> [] ->
  avg (Some (map Fin vs)) = Num (Fin (sample_mean vs))
  /\ stddev (Some (map Fin vs)) = Fin (stored_std vs).
Proof.
  intro H. split; [apply avg_Fin; exact H|].
  destruct vs as [|v [|w vs]]; [congruence| |].
  - rewrite stored_std_one. reflexivity.
  - unfold stddev. rewrite length_map.
    change (length (v :: w :: vs) <? 2)%nat with false. cbv iota.
    rewrite avg_Fin by discriminate. cbn [ToNumber].
    set (l := v :: w :: vs). set (m := sample_mean l).
    replace (map (fun v0 => square (sub v0 (Fin m))) (map Fin l))
      with (map Fin (map (fun v0 => (v0 - m) ^ 2) l))
      by (rewrite !map_map; reflexivity).
    rewrite avg_Fin by discriminate. cbn [ToNumber].
    assert (E : sample_mean (map (fun v0 => (v0 - m) ^ 2) l)
                = sample_variance l).
    { unfold sample_mean, sample_variance. fold m.
      rewrite fold_plus_map, length_map. reflexivity. }
    rewrite E. unfold Math_sqrt.
    rewrite Rltb_false by apply sample_variance_nonneg.
    unfold stored_std, or_number, number_truthy.
    destruct (Reqb (sqrt (sample_variance l)) 0); reflexivity.
Qed.

Lemma stddev_stored_std_witness :
  [0; 1] <> []
  /\ avg (Some (map Fin [0; 1])) = Num (Fin (sample_mean [0; 1]))
  /\ stddev (Some (map Fin [0; 1])) = Fin (stored_std [0; 1]).
Proof.
  assert (H : [0; 1] <> []) by discriminate.
  exact (conj H (stddev_stored_std [0; 1] H)).
Defined.

(** X7: [stddev] returns a positive number on every input: never 0 and
    never [NaN], also when the array is missing, has fewer than two
    elements, has equal elements only, or contains [NaN]. *)
Theorem stddev_never_zero (arr : option (list (number R))) :
  exists s, stddev arr = Fin s /\ 0 < s.
Proof.
  destruct arr as [l|]; [|exists 1; split; [reflexivity | lra]].
  unfold stddev. destruct (length l <? 2)%nat;
    [exists 1; split; [reflexivity | lra]|].
  match goal with |- context [Math_sqrt ?x] => destruct x as [|y] end.
  - exists 1. split; [reflexivity | lra].
  - unfold Math_sqrt. destruct (Rltb y 0);
      [exists 1; split; [reflexivity | lra]|].
    unfold or_number, number_truthy, Reqb.
    destruct (Req_dec_T (sqrt y) 0) as [E|N]; cbn [negb].
    + exists 1. split; [reflexivity | lra].
    + exists (sqrt y). split; [reflexivity|].
      pose proof (sqrt_pos y). lra.
Qed.

End Statistics.

Section Cosine.

Open Scope R_scope.
















End Cosine.

(* ================================================================== *)
(** * Numerals: times, minutes and date keys *)
(* ================================================================== *)

Section Numerals.

Open Scope string_scope.
Open Scope Z_scope.

Lemma parse_digit_step (c : ascii) (k : Z) (r : string) (acc : option Z) :
  digit_value c = Some k -> k < 10 ->
  parse_digits 10 (String c r) acc
  = parse_digits 10 r (Some (match acc with
                             | Some a => a * 10 + k
                             | None => k
                             end)).
Proof.
  intros H L. cbn [parse_digits]. rewrite H.
  replace (k <? 10) with true by (symmetry; apply Z.ltb_lt; exact L).
  reflexivity.
Qed.

Ltac digit_step k :=
  match goal with
  | |- context [parse_digits 10 (String ?c ?r) ?acc] =>
      rewrite (parse_digit_step c k r acc) by (reflexivity || lia)
  end.

Lemma parse_digits_acc (d : Decimal.uint) (p : positive) :
  parse_digits 10 (NilEmpty.string_of_uint d) (Some (Z.pos p))
  = Some (Z.pos (Pos.of_uint_acc d p)).
Proof.
  revert p.
  induction d; intro p; cbn [NilEmpty.string_of_uint Pos.of_uint_acc];
    [reflexivity | ..].
  - digit_step 0. rewrite <- IHd. do 2 f_equal. lia.
  - digit_step 1. rewrite <- IHd. do 2 f_equal. lia.
  - digit_step 2. rewrite <- IHd. do 2 f_equal. lia.
  - digit_step 3. rewrite <- IHd. do 2 f_equal. lia.
  - digit_step 4. rewrite <- IHd. do 2 f_equal. lia.
  - digit_step 5. rewrite <- IHd. do 2 f_equal. lia.
  - digit_step 6. rewrite <- IHd. do 2 f_equal. lia.
  - digit_step 7. rewrite <- IHd. do 2 f_equal. lia.
  - digit_step 8. rewrite <- IHd. do 2 f_equal. lia.
  - digit_step 9. rewrite <- IHd. do 2 f_equal. lia.
Qed.

Lemma parse_digits_zero (d : Decimal.uint) :
  parse_digits 10 (NilEmpty.string_of_uint d) (Some 0)
  = Some (Z.of_N (Pos.of_uint d)).
Proof.
  induction d; cbn [NilEmpty.string_of_uint Pos.of_uint]; [reflexivity | ..].
  - digit_step 0. exact IHd.
  - digit_step 1. apply (parse_digits_acc d 1).
  - digit_step 2. apply (parse_digits_acc d 2).
  - digit_step 3. apply (parse_digits_acc d 3).
  - digit_step 4. apply (parse_digits_acc d 4).
  - digit_step 5. apply (parse_digits_acc d 5).
  - digit_step 6. apply (parse_digits_acc d 6).
  - digit_step 7. apply (parse_digits_acc d 7).
  - digit_step 8. apply (parse_digits_acc d 8).
  - digit_step 9. apply (parse_digits_acc d 9).
Qed.

Lemma digits_uint (d : Decimal.uint) :
  digits (NilEmpty.string_of_uint d) = true.
Proof. induction d; cbn; [reflexivity | assumption ..]. Qed.

Lemma String_of_Z_uint (n : Z) :
  0 <= n -> String_of_Z n = NilEmpty.string_of_uint (uint_of n).
Proof. destruct n; [reflexivity | reflexivity | lia]. Qed.

Lemma uint_of_value (n : Z) : 0 <= n -> Z.of_N (Pos.of_uint (uint_of n)) = n.
Proof.
  destruct n as [|p|p]; [reflexivity | | lia]. intros _.
  cbn [uint_of]. rewrite DecimalPos.Unsigned.of_to. reflexivity.
Qed.

Lemma uint_of_nonnil (n : Z) : NilEmpty.string_of_uint (uint_of n) <> "".
Proof.
  destruct n as [|p|p]; try discriminate. cbn [uint_of].
  pose proof (Unsigned.to_uint_nonnil p) as H.
  destruct (Pos.to_uint p); [congruence | discriminate ..].
Qed.

Lemma zeros_digits (n : nat) : digits (zeros n) = true.
Proof. induction n; [reflexivity | exact IHn]. Qed.

Lemma string_forall_app (p : ascii -> bool) (s t : string) :
  string_forall p (s ++ t) = string_forall p s && string_forall p t.
Proof.
  induction s as [|c s IH]; cbn; [reflexivity|].
  rewrite IH, andb_assoc. reflexivity.
Qed.

Lemma repeat_fill_zeros (n : nat) :
  repeat_fill "0" "0" n = zeros n /\ repeat_fill "0" "" n = zeros n.
Proof.
  induction n as [|n [IH1 IH2]]; [split; reflexivity|].
  split; cbn [repeat_fill zeros]; rewrite IH2; reflexivity.
Qed.

Lemma length_append (s t : string) :
  String.length (s ++ t) = (String.length s + String.length t)%nat.
Proof. induction s as [|c s IH]; cbn; [reflexivity | rewrite IH; reflexivity]. Qed.

Lemma padStart_zeros (k : nat) (s : string) :
  exists n, padStart k "0" s = zeros n ++ s
            /\ String.length (padStart k "0" s) = Nat.max k (String.length s).
Proof.
  unfold padStart. destruct (Nat.leb_spec k (String.length s)) as [H|H].
  - exists 0%nat. split; [reflexivity | lia].
  - exists (k - String.length s)%nat.
    rewrite (proj1 (repeat_fill_zeros _)). split; [reflexivity|].
    rewrite length_append.
    assert (L : forall n, String.length (zeros n) = n)
      by (induction n; cbn; congruence).
    rewrite L. lia.
Qed.

Lemma parse_zeros (n : nat) (s : string) :
  parse_digits 10 (zeros n ++ s) (Some 0) = parse_digits 10 s (Some 0).
Proof.
  induction n as [|n IH]; [reflexivity|].
  cbn [zeros append]. digit_step 0. exact IH.
Qed.

Lemma parse_None (s : string) :
  digits s = true -> s <> "" ->
  parse_digits 10 s None = parse_digits 10 s (Some 0).
Proof.
  destruct s as [|c r]; [congruence|]. intros H _.
  cbn in H. apply andb_true_iff in H. destruct H as [H _].
  apply is_digit_cases in H. cbn in H.
  repeat (destruct H as [<-|H]; [reflexivity|]). destruct H.
Qed.

Lemma parseInt_digits (s : string) :
  digits s = true -> s <> "" ->
  parseInt (Some s)
  = match parse_digits 10 s (Some 0) with
    | Some n => Fin n
    | None => NaN
    end.
Proof.
  intros D N. rewrite <- (parse_None s D N).
  transitivity (match parse_digits 10 s None with
                | Some n => Fin (1 * n)
                | None => NaN
                end).
  2:{ destruct (parse_digits 10 s None); [rewrite Z.mul_1_l|]; reflexivity. }
  destruct s as [|c r]; [congruence|].
  cbn in D. apply andb_true_iff in D. destruct D as [Hc Hr].
  apply is_digit_cases in Hc. cbn in Hc.
  destruct Hc as [<-|Hc].
  - destruct r as [|c' r']; [reflexivity|].
    cbn in Hr. apply andb_true_iff in Hr. destruct Hr as [Hc' _].
    apply is_digit_cases in Hc'. cbn in Hc'.
    repeat (destruct Hc' as [<-|Hc']; [reflexivity|]). destruct Hc'.
  - repeat (destruct Hc as [<-|Hc]; [reflexivity|]). destruct Hc.
Qed.

(** [parseInt] reads back a padded decimal numeral. *)
Lemma parseInt_padStart (k : nat) (n : Z) :
  0 <= n -> parseInt (Some (padStart k "0" (String_of_Z n))) = Fin n.
Proof.
  intro H. destruct (padStart_zeros k (String_of_Z n)) as (z & -> & _).
  rewrite (String_of_Z_uint n H).
  rewrite parseInt_digits.
  - rewrite parse_zeros, parse_digits_zero, (uint_of_value n H). reflexivity.
  - unfold digits. rewrite string_forall_app.
    fold (digits (zeros z)). rewrite zeros_digits. apply digits_uint.
  - intro E. apply (uint_of_nonnil n).
    destruct (zeros z); [exact E | discriminate].
Qed.

Lemma padStart_digits (k : nat) (n : Z) :
  0 <= n -> digits (padStart k "0" (String_of_Z n)) = true.
Proof.
  intro H. destruct (padStart_zeros k (String_of_Z n)) as (z & -> & _).
  rewrite (String_of_Z_uint n H).
  unfold digits. rewrite string_forall_app.
  fold (digits (zeros z)). rewrite zeros_digits. apply digits_uint.
Qed.

Lemma split_digits (sep : ascii) (s : string) :
  is_digit sep = false -> digits s = true -> split sep s = [s].
Proof.
  intros Hs. induction s as [|c r IH]; [reflexivity|].
  cbn. intro H. apply andb_true_iff in H. destruct H as [Hc Hr].
  replace (Ascii.eqb c sep) with false.
  - rewrite (IH Hr). reflexivity.
  - symmetry. apply Ascii.eqb_neq. intros ->. congruence.
Qed.

Lemma split_app (sep : ascii) (s t : string) :
  is_digit sep = false -> digits s = true ->
  split sep (s ++ String sep t) = s :: split sep t.
Proof.
  intros Hs. induction s as [|c r IH].
  - intros _. cbn. rewrite Ascii.eqb_refl. reflexivity.
  - cbn. intro H. apply andb_true_iff in H. destruct H as [Hc Hr].
    replace (Ascii.eqb c sep) with false.
    + rewrite (IH Hr). reflexivity.
    + symmetry. apply Ascii.eqb_neq. intros ->. congruence.
Qed.

(** X10: parsing a formatted time gives the minutes back for every
    non-negative whole number of minutes, also beyond a day:
    [timeToMinutes(formatMinutesToTime(m)) = m] for all [m >= 0] (6000
    minutes format as "100:00" and read back as 6000). *)
Theorem timeToMinutes_formatMinutesToTime_nonneg (m : Z) :
  0 <= m -> timeToMinutes (formatMinutesToTime (Num (Fin m))) = Fin m.
Proof.
  intro H. unfold formatMinutesToTime. cbn [lift1 String_of_number].
  assert (Hh : 0 <= m / 60) by (apply Z.div_pos; lia).
  assert (Hr : 0 <= Z.rem m 60) by (apply Z.rem_nonneg; lia).
  pose proof (padStart_digits 2 _ Hh) as Dh.
  pose proof (padStart_digits 2 _ Hr) as Dm.
  pose proof (parseInt_padStart 2 _ Hh) as Ph.
  pose proof (parseInt_padStart 2 _ Hr) as Pm.
  destruct (padStart_zeros 2 (String_of_Z (m / 60))) as (z & _ & L).
  remember (padStart 2 "0" (String_of_Z (m / 60))) as hs eqn:Ehs.
  remember (padStart 2 "0" (String_of_Z (Z.rem m 60))) as ms eqn:Ems.
  unfold timeToMinutes.
  assert (F : string_falsy (Some (hs ++ ":" ++ ms)) = false)
    by (destruct hs; [change (String.length "") with 0%nat in L; lia
                     | reflexivity]).
  rewrite F.
  change (hs ++ ":" ++ ms) with (hs ++ String ":" ms).
  rewrite (split_app ":" hs ms eq_refl Dh), (split_digits ":" ms eq_refl Dm).
  cbn [nth_error]. rewrite Ph, Pm.
  cbn [lift2]. f_equal.
  rewrite Z.rem_mod_nonneg by lia.
  pose proof (Z.div_mod m 60). lia.
Qed.

Lemma timeToMinutes_formatMinutesToTime_nonneg_witness :
  0 <= 6000
  /\ formatMinutesToTime (Num (Fin 6000)) = Some "100:00"
  /\ timeToMinutes (formatMinutesToTime (Num (Fin 6000))) = Fin 6000.
Proof.
  assert (H : 0 <= 6000) by lia.
  exact (conj H (conj eq_refl (timeToMinutes_formatMinutesToTime_nonneg 6000 H))).
Defined.


Lemma pad_two_digits (a b : ascii) :
  is_digit a = true -> is_digit b = true ->
  padStart 2 "0" (String_of_Z (two_digits a b)) = String a (String b "").
Proof.
  intros Ha Hb. apply is_digit_cases in Ha, Hb. simpl in Ha, Hb.
  repeat (destruct Ha as [<- | Ha]; [| try contradiction]);
    repeat (destruct Hb as [<- | Hb]; [reflexivity | try contradiction]).
Qed.

Lemma two_digits_range (a b : ascii) :
  is_digit a = true -> is_digit b = true -> 0 <= two_digits a b <= 99.
Proof.
  intros Ha Hb. apply is_digit_cases in Ha, Hb. simpl in Ha, Hb.
  repeat (destruct Ha as [<- | Ha]; [| try contradiction]);
    repeat (destruct Hb as [<- | Hb]; [cbv; split; discriminate | try contradiction]).
Qed.

Lemma format_hm (a b d e : ascii) :
  is_digit a = true -> is_digit b = true ->
  is_digit d = true -> is_digit e = true ->
  two_digits d e < 60 ->
  formatMinutesToTime (Num (Fin (60 * two_digits a b + two_digits d e)))
  = Some (String a (String b (String ":" (String d (String e ""))))).
Proof.
  intros Ha Hb Hd He Hm.
  pose proof (two_digits_range a b Ha Hb) as Rh.
  pose proof (two_digits_range d e Hd He) as Rm.
  unfold formatMinutesToTime. cbn [lift1 String_of_number].
  replace ((60 * two_digits a b + two_digits d e) / 60) with (two_digits a b)
    by (apply Z.div_unique with (two_digits d e); lia).
  replace (Z.rem (60 * two_digits a b + two_digits d e) 60)
    with (two_digits d e)
    by (rewrite Z.rem_mod_nonneg by lia;
        apply Z.mod_unique with (two_digits a b); lia).
  rewrite (pad_two_digits a b Ha Hb), (pad_two_digits d e Hd He).
  reflexivity.
Qed.

(** X11: formatting the minutes of a valid time string gives the string
    back, without its seconds: for a valid [t] of the form HH:MM or
    HH:MM:SS, [formatMinutesToTime(timeToMinutes(t))] is the first five
    characters of [t]. *)
Theorem formatMinutesToTime_timeToMinutes (t : string) :
  valid_time t = true ->
  formatMinutesToTime (Num (timeToMinutes (Some t))) = Some (substring 0 5 t).
Proof.
  intro V. rewrite (timeToMinutes_valid t V).
  unfold valid_time in V. apply orb_true_iff in V. destruct V as [V|V].
  - destruct t as [| a [| b [| c [| d [| e [| ? ?]]]]]]; try discriminate.
    unfold well_formed_hm in V. rewrite !andb_true_iff in V.
    destruct V as [[[[[[Ha Hb] Hc] Hd] He] _] Hm].
    apply Ascii.eqb_eq in Hc. subst c. apply Z.ltb_lt in Hm.
    exact (format_hm a b d e Ha Hb Hd He Hm).
  - destruct t as [| a [| b [| c [| d [| e [| f [| g [| h [| ? ?]]]]]]]]];
      try discriminate.
    unfold well_formed_hms, well_formed_hm in V. rewrite !andb_true_iff in V.
    destruct V as [[[[[[[[[[Ha Hb] Hc] Hd] He] _] Hm] _] _] _] _].
    apply Ascii.eqb_eq in Hc. subst c. apply Z.ltb_lt in Hm.
    exact (format_hm a b d e Ha Hb Hd He Hm).
Qed.

Lemma formatMinutesToTime_timeToMinutes_witness :
  valid_time "07:15:30" = true
  /\ formatMinutesToTime (Num (timeToMinutes (Some "07:15:30")))
     = Some (substring 0 5 "07:15:30").
Proof.
  assert (H : valid_time "07:15:30" = true) by reflexivity.
  exact (conj H (formatMinutesToTime_timeToMinutes "07:15:30" H)).
Defined.

(** ** Date keys *)

Lemma length_year :
  forallb (fun n => (String.length (String_of_Z (Z.of_nat n)) =? 4)%nat)
    (seq 1000 (Z.to_nat 9000)) = true.
Proof. vm_compute. reflexivity. Qed.

Lemma length_two :
  forallb (fun n => (String.length (padStart 2 "0" (String_of_Z (Z.of_nat n)))
                     =? 2)%nat)
    (seq 0 100) = true.
Proof. vm_compute. reflexivity. Qed.

Lemma String_of_Z_digits (n : Z) : 0 <= n -> digits (String_of_Z n) = true.
Proof. intro H. rewrite (String_of_Z_uint n H). apply digits_uint. Qed.

Lemma parseInt_String_of_Z (n : Z) :
  0 <= n -> parseInt (Some (String_of_Z n)) = Fin n.
Proof. intro H. exact (parseInt_padStart 0 n H). Qed.

(** X12: for a date with non-negative fields, the key of [toLocalDateKey]
    splits at "-" into three numerals that [parseInt] reads back as the
    year, the month counted from 1 and the day, so that distinct dates have
    distinct keys; for a year of four digits, a month up to 11 and a day
    up to 31 the key has exactly 10 characters. *)
Theorem toLocalDateKey_parts (d : LocalDate) :
  0 <= getFullYear d -> 0 <= getMonth d -> 0 <= getDate d ->
  map (fun p => parseInt (Some p)) (split "-" (toLocalDateKey d))
  = [Fin (getFullYear d); Fin (getMonth d + 1); Fin (getDate d)]
  /\ (1000 <= getFullYear d <= 9999 -> getMonth d <= 11 -> getDate d <= 31 ->
      String.length (toLocalDateKey d) = 10%nat).
Proof.
  intros Hy Hm Hd. unfold toLocalDateKey.
  assert (Hm1 : 0 <= getMonth d + 1) by lia.
  pose proof (String_of_Z_digits _ Hy) as Dy.
  pose proof (padStart_digits 2 _ Hm1) as Dm.
  pose proof (padStart_digits 2 _ Hd) as Dd.
  split.
  - change (String_of_Z (getFullYear d) ++ "-"
            ++ padStart 2 "0" (String_of_Z (getMonth d + 1)) ++ "-"
            ++ padStart 2 "0" (String_of_Z (getDate d)))
      with (String_of_Z (getFullYear d)
            ++ String "-" (padStart 2 "0" (String_of_Z (getMonth d + 1))
            ++ String "-" (padStart 2 "0" (String_of_Z (getDate d))))).
    rewrite (split_app "-" _ _ eq_refl Dy), (split_app "-" _ _ eq_refl Dm),
      (split_digits "-" _ eq_refl Dd).
    cbn [map].
    rewrite (parseInt_String_of_Z _ Hy), (parseInt_padStart 2 _ Hm1),
      (parseInt_padStart 2 _ Hd).
    reflexivity.
  - intros Ry Rm Rd. rewrite !length_append.
    pose proof length_year as Ly. pose proof length_two as L2.
    rewrite forallb_forall in Ly, L2.
    assert (Ey : String.length (String_of_Z (getFullYear d)) = 4%nat).
    { specialize (Ly (Z.to_nat (getFullYear d))).
      rewrite Z2Nat.id in Ly by lia. apply Nat.eqb_eq, Ly, in_seq. lia. }
    assert (Em : String.length (padStart 2 "0" (String_of_Z (getMonth d + 1)))
                 = 2%nat).
    { specialize (L2 (Z.to_nat (getMonth d + 1))).
      rewrite Z2Nat.id in L2 by lia. apply Nat.eqb_eq, L2, in_seq. lia. }
    assert (Ed : String.length (padStart 2 "0" (String_of_Z (getDate d)))
                 = 2%nat).
    { specialize (L2 (Z.to_nat (getDate d))).
      rewrite Z2Nat.id in L2 by lia. apply Nat.eqb_eq, L2, in_seq. lia. }
    rewrite Ey, Em, Ed. reflexivity.
Qed.


Lemma toLocalDateKey_parts_witness :
  0 <= getFullYear a_date /\ 0 <= getMonth a_date /\ 0 <= getDate a_date
  /\ toLocalDateKey a_date = "2024-03-05"
  /\ map (fun p => parseInt (Some p)) (split "-" (toLocalDateKey a_date))
     = [Fin (getFullYear a_date); Fin (getMonth a_date + 1);
        Fin (getDate a_date)].
Proof.
  assert (Hy : 0 <= getFullYear a_date) by (cbn; lia).
  assert (Hm : 0 <= getMonth a_date) by (cbn; lia).
  assert (Hd : 0 <= getDate a_date) by (cbn; lia).
  exact (conj Hy (conj Hm (conj Hd (conj eq_refl
           (proj1 (toLocalDateKey_parts a_date Hy Hm Hd)))))).
Defined.

End Numerals.

(* ================================================================== *)
(** * The analysis view: score, groups and feature values *)
(* ================================================================== *)

Section Groups.

Variable D : string -> Z.

Open Scope string_scope.
Open Scope R_scope.

(** X13: the aggregate anomaly score is always a number, never [NaN],
    between 0 and 1, whatever the day record and the baseline hold; the
    bar of the view, whose width is the score times 100, stays within its
    track. *)
Theorem anomalyScore_range (st : State) :
  exists a, anomalyScore D st = Fin a /\ 0 <= a <= 1.
Proof.
  destruct (scored D st) as [|r rows] eqn:E.
  - exists 0. split; [apply anomalyScore_unscored; exact E | lra].
  - exists (aggregate (scored D st)). split.
    + apply anomalyScore_aggregate. rewrite E. discriminate.
    + unfold aggregate, clamp. split.
      * apply Rmax_l.
      * apply Rmax_lub; [lra | apply Rmin_r].
Qed.

Lemma activeFeatures_cases (st : State) :
  exists b : bool,
    activeFeatures st
    = filter (fun f => if isRoomFeature f then b else true) allFeatures.
Proof. unfold activeFeatures. eexists. reflexivity. Qed.

(** The view always shows the six groups, which together hold the active
    features: 18, or 15 without the room features. *)
Lemma activeFeatureGroups_cover (st : State) :
  map id (activeFeatureGroups st) = group_ids
  /\ flat_map features (activeFeatureGroups st) = activeFeatures st
  /\ (length (activeFeatures st) = 18 \/ length (activeFeatures st) = 15)%nat.
Proof.
  unfold activeFeatureGroups.
  destruct (activeFeatures_cases st) as [b ->].
  destruct b; repeat split; try reflexivity; [left | right]; reflexivity.
Qed.

Lemma fold_left_map_rows {A B C} (f : C -> B -> C) (g : A -> B) (l : list A)
    (c : C) :
  fold_left f (map g l) c = fold_left (fun c x => f c (g x)) l c.
Proof.
  revert c. induction l as [|x l IH]; intro c; [reflexivity | apply IH].
Qed.

Lemma fold_left_ext_rows {A C} (f g : C -> A -> C) (l : list A) (c : C) :
  (forall c x, f c x = g c x) -> fold_left f l c = fold_left g l c.
Proof.
  intro H. revert c. induction l as [|x l IH]; intro c; [reflexivity|].
  cbn. rewrite H. apply IH.
Qed.

(** Rows made from the active features, one per feature and under its
    key, regroup to the same rows. *)
Lemma regroup (mk : Feature -> ScoreRow) (b : bool) :
  (forall f, row_key (mk f) = key f) ->
  let fs := filter (fun f => if isRoomFeature f then b else true) allFeatures in
  let byKey : object ScoreRow :=
    fold_left (fun byKey row => obj_set byKey (row_key row) row)
      (map mk fs) [] in
  let groups :=
    filter (fun group => (0 <? length (features group))%nat)
      (map (fun group =>
              {| id := id group; group_label := group_label group;
                 features := filter (includes fs) (features group) |})
         featureGroups) in
  let result :=
    fold_left
      (fun result group =>
         obj_set result (id group)
           (flat_map (fun f => match obj_get byKey (key f) with
                               | Some row => [row]
                               | None => []
                               end)
              (features group)))
      groups [] in
  map fst result = group_ids /\ flat_map snd result = map mk fs.
Proof.
  intros H fs byKey groups result.
  assert (E : byKey
              = fold_left (fun byKey f => obj_set byKey (key f) (mk f)) fs []).
  { unfold byKey. rewrite fold_left_map_rows. apply fold_left_ext_rows.
    intros c x. rewrite H. reflexivity. }
  unfold result. rewrite E. unfold groups, fs.
  destruct b; split; reflexivity.
Qed.

(** X14: the grouped score table has the six groups, in the order of the
    catalogue, whatever is loaded, and its rows, read group after group,
    are exactly the rows of [scoreBreakdown] in their order: grouping
    loses no row and shows none twice. *)
Theorem groupedBreakdown_rows (st : State) :
  map fst (groupedBreakdown D st) = group_ids
  /\ flat_map snd (groupedBreakdown D st) = scoreBreakdown D st.
Proof.
  unfold groupedBreakdown, activeFeatureGroups.
  destruct (activeFeatures_cases st) as [b Eb].
  destruct (dayStats st) as [ds|] eqn:Ed.
  2:{ rewrite (scoreBreakdown_no_day D st Ed), Eb.
      destruct b; split; reflexivity. }
  destruct (baselineStats st) as [stats|] eqn:Es.
  2:{ rewrite (scoreBreakdown_no_baseline D st Es), Eb.
      destruct b; split; reflexivity. }
  rewrite (scoreBreakdown_loaded D st ds stats Ed Es), Eb.
  apply (regroup (scoreRow D st stats) b). intro f. reflexivity.
Qed.

(** X15: for a loaded day, today's value of a feature is the value that the
    baseline takes for the same day record, room rows and hourly pattern,
    with one exception: when the day has no first (or last) activity time,
    the baseline skips the day (null) but today's value is 0 minutes, so
    the row is scored as if the activity were at midnight. *)
Theorem getTodayValue_getHistoricalValue
    (st : State) (ds : DailyStats) (rooms : list RoomRow) (f : Feature) :
  dayStats st = Some ds -> roomHourlyData st = Some rooms ->
  getTodayValue D st f
  = if is_time_key (key f) && string_falsy (time_field ds (key f))
    then Num (Fin 0)
    else getHistoricalValue D (baselineAvgHourlyPattern st) f ds rooms.
Proof.
  intros Ed Er. unfold getTodayValue, getHistoricalValue, is_time_key.
  rewrite Ed, Er.
  destruct ((key f =? "first_activity") || (key f =? "last_activity")) eqn:T.
  - cbn [andb]. destruct (string_falsy (time_field ds (key f))) eqn:F.
    + unfold timeToMinutes. rewrite F. reflexivity.
    + rewrite andb_false_r. reflexivity.
  - cbn [andb]. reflexivity.
Qed.

End Groups.

Lemma getTodayValue_getHistoricalValue_witness :
  dayStats (selected busy_today) = Some busy_today
  /\ roomHourlyData (selected busy_today) = Some []
  /\ getTodayValue no_dates (selected busy_today)
       (feature_named "first_activity") = Num (Fin 0%R)
  /\ getHistoricalValue no_dates None (feature_named "first_activity")
       busy_today [] = Null.
Proof.
  assert (H1 : dayStats (selected busy_today) = Some busy_today)
    by reflexivity.
  assert (H2 : roomHourlyData (selected busy_today) = Some []) by reflexivity.
  exact (conj H1 (conj H2
           (conj (getTodayValue_getHistoricalValue no_dates
                    (selected busy_today) busy_today []
                    (feature_named "first_activity") H1 H2)
                 eq_refl))).
Defined.

(* ================================================================== *)
(** * The baseline: entries and hourly pattern *)
(* ================================================================== *)

Section BaselineEntries.

Variable D : string -> Z.

Open Scope string_scope.
Open Scope R_scope.







End BaselineEntries.




Section Pattern.

Open Scope R_scope.

Lemma pattern_fold (es : list array) (g : nat -> R) :
  fold_left
    (fun avgPattern pattern =>
       map (fun h => add (nth h avgPattern (Fin 0))
                         (or_number (array_get pattern h) (Fin 0)))
         (seq 0 24))
    es (map (fun h => Fin (g h)) (seq 0 24))
  = map (fun h => Fin (g h + hour_total es h)) (seq 0 24).
Proof.
  revert g. induction es as [|e es IH]; intro g; cbn [fold_left hour_total].
  - apply map_ext. intro h. f_equal. lra.
  - replace (map (fun h => add (nth h (map (fun h0 => Fin (g h0)) (seq 0 24))
                                  (Fin 0))
                              (or_number (array_get e h) (Fin 0))) (seq 0 24))
      with (map (fun h => Fin (g h + events_at e h)) (seq 0 24)).
    + rewrite IH. apply map_ext. intro h. f_equal. lra.
    + apply map_ext_in. intros h Hh. apply in_seq in Hh.
      rewrite or_number_events.
      rewrite (nth_indep _ (Fin 0) ((fun h0 => Fin (g h0)) 0%nat))
        by (rewrite length_map, length_seq; lia).
      rewrite (map_nth (fun h0 => Fin (g h0))), seq_nth by lia. reflexivity.
Qed.

Lemma pattern_eval (dailyData : list DailyStats) :
  averageHourlyPattern dailyData
  = match full_patterns dailyData with
    | [] => None
    | es =>
        Some (map (fun h => Num (Fin (hour_total es h / INR (length es))))
                (seq 0 24))
    end.
Proof.
  unfold averageHourlyPattern. fold (full_patterns dailyData).
  destruct (full_patterns dailyData) as [|e es] eqn:E; [reflexivity|].
  f_equal.
  change (repeat (Fin 0) 24)
    with (map (fun h : nat => Fin ((fun _ => 0) h)) (seq 0 24)).
  rewrite pattern_fold, map_map. apply map_ext. intro h.
  rewrite div_Fin.
  - do 2 f_equal. lra.
  - assert (0 < INR (length (e :: es))) by (apply lt_0_INR; cbn; lia). lra.
Qed.

(** X17: the hourly pattern that [loadBaselineStats] stores is the
    element-wise mean of the arrays of exactly 24 entries among the days of
    the window (an entry that is not a number counting for 0): 24 numbers,
    none of them [NaN]; it is null exactly when no day has such an
    array. *)
Theorem averageHourlyPattern_mean (dailyData : list DailyStats) :
  (averageHourlyPattern dailyData = None
   <-> forall d a,
         In d dailyData -> events_per_hour d = Some a -> length a <> 24%nat)
  /\ forall p,
       averageHourlyPattern dailyData = Some p ->
       length p = 24%nat
       /\ forall h, (h < 24)%nat ->
            array_get p h
            = Num (Fin (hour_total (full_patterns dailyData) h
                        / INR (length (full_patterns dailyData)))).
Proof.
  rewrite pattern_eval. split.
  - destruct (full_patterns dailyData) as [|e es] eqn:E.
    + split; [|reflexivity]. intros _ d a Hd Ha L.
      assert (Hin : In a (full_patterns dailyData)).
      { unfold full_patterns. apply in_flat_map. exists d.
        split; [exact Hd|]. rewrite Ha.
        replace (length a =? 24)%nat with true
          by (symmetry; apply Nat.eqb_eq; exact L).
        left. reflexivity. }
      rewrite E in Hin. destruct Hin.
    + split; [discriminate|]. intro H. exfalso.
      assert (Hin : In e (full_patterns dailyData))
        by (rewrite E; left; reflexivity).
      unfold full_patterns in Hin. apply in_flat_map in Hin.
      destruct Hin as (d & Hd & He).
      destruct (events_per_hour d) as [a|] eqn:Ea; [|destruct He].
      destruct (length a =? 24)%nat eqn:La; [|destruct He].
      apply Nat.eqb_eq in La. exact (H d a Hd Ea La).
  - intros p Hp.
    destruct (full_patterns dailyData) as [|e es]; [discriminate|].
    assert (Ep : p = map (fun h => Num (Fin (hour_total (e :: es) h
                                             / INR (length (e :: es)))))
                      (seq 0 24)) by congruence.
    rewrite Ep. split; [rewrite length_map, length_seq; reflexivity|].
    intros h Hh. unfold array_get.
    rewrite nth_error_map, nth_error_seq.
    replace (h <? 24)%nat with true
      by (symmetry; apply Nat.ltb_lt; exact Hh).
    reflexivity.
Qed.






End Pattern.

(* ================================================================== *)
(** * Room features and the time display *)
(* ================================================================== *)

Section MainRoom.

Open Scope string_scope.
Open Scope R_scope.






Lemma Int_part_range (x : R) (n : Z) :
  0 <= x <= IZR n -> (0 <= Int_part (x + / 2) <= n)%Z.
Proof.
  intros [L U]. pose proof (base_Int_part (x + / 2)) as [B1 B2].
  split.
  - assert (H : -1 < IZR (Int_part (x + / 2))) by lra.
    apply lt_IZR in H. lia.
  - assert (H : IZR (Int_part (x + / 2)) < IZR n + 1) by lra.
    rewrite <- plus_IZR in H. apply lt_IZR in H. lia.
Qed.




End MainRoom.

Section Transitions.

Variable D : string -> Z.

Open Scope string_scope.
Open Scope R_scope.

Lemma insert_sorted_In {T} (leb : T -> T -> bool) (x y : T) (l : list T) :
  In y (insert_sorted leb x l) -> y = x \/ In y l.
Proof.
  induction l as [|a l IH]; cbn [insert_sorted].
  - intros [<-|[]]. left. reflexivity.
  - destruct (leb a x).
    + intros [<-|H]; [right; left; reflexivity|].
      destruct (IH H) as [->|Hl]; [left; reflexivity | right; right; exact Hl].
    + intros [<-|H]; [left; reflexivity | right; exact H].
Qed.

Lemma sort_In {T} (leb : T -> T -> bool) (l : list T) (y : T) :
  In y (sort leb l) -> In y l.
Proof.
  unfold sort.
  assert (G : forall acc, In y (fold_left (fun acc x => insert_sorted leb x acc) l acc)
                          -> In y l \/ In y acc).
  { induction l as [|a l IH]; intros acc H; cbn [fold_left] in H.
    - right. exact H.
    - destruct (IH _ H) as [Hl|Ha]; [left; right; exact Hl|].
      destruct (insert_sorted_In _ _ _ _ Ha) as [->|Hacc];
        [left; left; reflexivity | right; exact Hacc]. }
  intro H. destruct (G [] H) as [Hl|[]]. exact Hl.
Qed.

Lemma groups_In (rows : list RoomRow) (hg : object (list RoomRow))
    (P : RoomRow -> Prop) :
  (forall r, In r rows -> P r) ->
  (forall k g, obj_get hg k = Some g -> forall r, In r g -> P r) ->
  forall k g,
    obj_get
      (fold_left
         (fun hourGroups row =>
            match obj_get hourGroups (hour row) with
            | Some g => obj_set hourGroups (hour row) (g ++ [row])%list
            | None => obj_set hourGroups (hour row) [row]
            end)
         rows hg) k = Some g ->
    forall r, In r g -> P r.
Proof.
  revert hg. induction rows as [|a rows IH]; intros hg Hr Hg; cbn [fold_left];
    [exact Hg|].
  apply IH; [intros r Hin; apply Hr; right; exact Hin|].
  intros k g. destruct (obj_get hg (hour a)) as [g0|] eqn:E;
    rewrite obj_get_set; destruct (String.eqb (hour a) k).
  - intros [= <-] r Hin. apply in_app_or in Hin.
    destruct Hin as [Hin|[<-|[]]]; [exact (Hg _ _ E r Hin) | apply Hr; left; reflexivity].
  - apply Hg.
  - intros [= <-] r [<-|[]]. apply Hr. left. reflexivity.
  - apply Hg.
Qed.

Lemma dominantRoom_In (rows : list RoomRow) (n : string) :
  dominantRoom rows = Some n -> exists r, In r rows /\ room_name r = n.
Proof.
  unfold dominantRoom.
  assert (G : forall acc,
            fst (fold_left
                   (fun '(maxRoom, maxEvents) r =>
                      if gt (or_number (room_total_events r) (Fin 0)) maxEvents
                      then (Some (room_name r),
                            or_number (room_total_events r) (Fin 0))
                      else (maxRoom, maxEvents))
                   rows acc) = Some n ->
            fst acc = Some n \/ exists r, In r rows /\ room_name r = n).
  { induction rows as [|a rows IH]; intros [m e] H; cbn [fold_left] in H.
    - left. exact H.
    - destruct (IH _ H) as [Ha|(r & Hr & Hn)].
      + destruct (gt (or_number (room_total_events a) (Fin 0)) e).
        * right. exists a. split; [left; reflexivity|].
          cbn in Ha. congruence.
        * left. exact Ha.
      + right. exists r. split; [right; exact Hr | exact Hn]. }
  intro H. destruct (G _ H) as [C|E]; [discriminate | exact E].
Qed.

Lemma count_changes_const (n : string) (l : list string) :
  (forall x, In x l -> x = n) -> count_changes l = 0%nat.
Proof.
  induction l as [|a l IH]; intro H; [reflexivity|].
  destruct l as [|b l]; [reflexivity|].
  assert (Ea : a = n) by (apply H; left; reflexivity).
  assert (Eb : b = n) by (apply H; right; left; reflexivity).
  subst a b.
  change (count_changes (n :: n :: l))
    with ((if String.eqb n n then 0 else 1) + count_changes (n :: l))%nat.
  rewrite String.eqb_refl.
  rewrite IH; [reflexivity|]. intros x Hx. apply H. right. exact Hx.
Qed.

(** X20: when every room row names the same room, [computeTransitionCount]
    is 0, whatever the hours and the event totals of the rows are: a
    household that stays in one room has no transitions. *)
Theorem computeTransitionCount_one_room (rows : list RoomRow) (n : string) :
  rows <> [] ->
  (forall r, In r rows -> room_name r = n) ->
  computeTransitionCount D (Some rows) = Num (Fin 0).
Proof.
  intros Hne Hn. destruct rows as [|r0 rows0]; [congruence|].
  set (rows := r0 :: rows0) in *.
  unfold computeTransitionCount. fold rows.
  change (match rows with [] => Null | _ :: _ => ?x end) with x.
  cbv zeta.
  match goal with
  | |- Num (Fin (INR (count_changes ?l))) = _ =>
      rewrite (count_changes_const n l); [reflexivity|]
  end.
  intros x Hx. apply in_flat_map in Hx. destruct Hx as (hk & _ & Hx).
  match type of Hx with
  | In x match obj_get ?hg hk with _ => _ end =>
      destruct (obj_get hg hk) as [g|] eqn:E; [|destruct Hx];
      assert (G : forall r, In r g -> room_name r = n)
        by (apply (groups_In _ [] (fun r => room_name r = n)
                     (fun r Hr => Hn r (sort_In _ _ _ Hr))
                     (fun k g0 H0 => ltac:(discriminate H0)) hk g E))
  end.
  destruct (dominantRoom g) as [d|] eqn:Ed; [|destruct Hx].
  destruct (dominantRoom_In g d Ed) as (r & Hr & Hd).
  destruct (String.eqb d ""); [destruct Hx|].
  destruct Hx as [<-|[]]. rewrite <- Hd. exact (G r Hr).
Qed.

End Transitions.

Lemma computeTransitionCount_one_room_witness :
  living_rows <> []
  /\ (forall r, In r living_rows -> room_name r = "living"%string)
  /\ computeTransitionCount hour_of_day (Some living_rows) = Num (Fin 0%R).
Proof.
  assert (H1 : living_rows <> []) by discriminate.
  assert (H2 : forall r, In r living_rows -> room_name r = "living"%string)
    by (intros r [<-|[<-|[]]]; reflexivity).
  exact (conj H1 (conj H2
           (computeTransitionCount_one_room hour_of_day living_rows
              "living"%string H1 H2))).
Defined.

Section Minutes.

Open Scope string_scope.
Open Scope R_scope.

Lemma Int_part_unique (y : R) (z : Z) :
  IZR z <= y < IZR z + 1 -> Int_part y = z.
Proof. intro H. symmetry. apply Int_part_spec. lra. Qed.

Lemma trunc_nonneg (y : R) : 0 <= y -> trunc y = Int_part y.
Proof. intro H. unfold trunc. rewrite Rltb_false by exact H. reflexivity. Qed.

Lemma floor_div60 (x : R) (h : Z) :
  IZR (60 * h) <= x < IZR (60 * h) + 60 -> Int_part (x / 60) = h.
Proof.
  intro H. apply Int_part_unique. rewrite mult_IZR in H. lra.
Qed.

(** X21: [minutesToTime] prints a minute field of 60 when the number of
    minutes lies within half a minute below a full hour: for a whole
    [h >= 0] and [60 h + 59.5 <= x < 60 h + 60] the result is the hour [h]
    followed by ":60" (479.5, the mean of 07:59 and 08:00, prints as
    "07:60"). *)
Theorem minutesToTime_sixty (h : Z) (x : R) :
  (0 <= h)%Z ->
  IZR (60 * h) + 59.5 <= x < IZR (60 * h) + 60 ->
  minutesToTime (Num (Fin x))
  = padStart 2 "0" (String_of_Z h) ++ ":60".
Proof.
  intros Hh Hx. unfold minutesToTime, Math_floor, rem60.
  assert (P : 0 <= IZR (60 * h)) by (apply IZR_le; lia).
  rewrite trunc_nonneg by (apply Rmult_le_pos; lra).
  rewrite (floor_div60 x h) by lra.
  rewrite mult_IZR in Hx.
  rewrite (Int_part_unique _ 60) by lra.
  reflexivity.
Qed.

Lemma minutesToTime_sixty_witness :
  (0 <= 7)%Z
  /\ IZR (60 * 7) + 59.5 <= 479.5 < IZR (60 * 7) + 60
  /\ minutesToTime (Num (Fin 479.5)) = "07:60".
Proof.
  assert (H : (0 <= 7)%Z) by lia.
  assert (B : IZR (60 * 7) + 59.5 <= 479.5 < IZR (60 * 7) + 60)
    by (change (IZR (60 * 7)) with 420; lra).
  exact (conj H (conj B (minutesToTime_sixty 7 479.5 H B))).
Defined.

(** On whole minutes, [minutesToTime] prints what [formatMinutesToTime]
    prints. *)
Lemma minutesToTime_whole (m : Z) :
  (0 <= m)%Z ->
  formatMinutesToTime (Num (Fin m)) = Some (minutesToTime (Num (Fin (IZR m)))).
Proof.
  intro H. unfold minutesToTime, formatMinutesToTime, Math_floor, rem60.
  cbn [lift1 String_of_number].
  pose proof (Z.div_mod m 60 ltac:(lia)) as E.
  pose proof (Z.mod_pos_bound m 60 ltac:(lia)) as B.
  assert (Em : IZR m = 60 * IZR (m / 60) + IZR (m mod 60)).
  { rewrite E at 1. rewrite plus_IZR, mult_IZR. reflexivity. }
  assert (B0 : 0 <= IZR (m mod 60)) by (apply IZR_le; lia).
  assert (B1 : IZR (m mod 60) <= 59) by (apply IZR_le; lia).
  assert (F : Int_part (IZR m / 60) = (m / 60)%Z)
    by (apply Int_part_unique; lra).
  rewrite trunc_nonneg.
  2:{ assert (0 <= IZR (m / 60)) by (apply IZR_le, Z.div_pos; lia). lra. }
  rewrite F.
  replace (Int_part (IZR m - 60 * IZR (m / 60) + / 2)) with (m mod 60)%Z
    by (symmetry; apply Int_part_unique; lra).
  rewrite Z.rem_mod_nonneg by lia. reflexivity.
Qed.

End Minutes.

(* ================================================================== *)
(** * The project store *)
(* ================================================================== *)

Section Dependencies.

Import ProjectStore.

Open Scope Z_scope.

Lemma find_update (i a : Z) (f : Ticket -> Ticket) (ts : list Ticket) :
  (forall t, id (f t) = id t) ->
  find (fun t => id t =? a) (update_ticket i f ts)
  = if a =? i then option_map f (find (fun t => id t =? i) ts)
    else find (fun t => id t =? a) ts.
Proof.
  intro Hf. induction ts as [|t ts IH]; cbn [update_ticket find].
  - destruct (a =? i); reflexivity.
  - destruct (id t =? i) eqn:E; cbn [find].
    + rewrite Hf. apply Z.eqb_eq in E. rewrite E.
      rewrite (Z.eqb_sym i a).
      destruct (a =? i) eqn:A; [reflexivity|].
      reflexivity.
    + rewrite IH. destruct (id t =? a) eqn:A; [|reflexivity].
      apply Z.eqb_eq in A. rewrite <- A, E. reflexivity.
Qed.

Lemma map_id_update (i : Z) (f : Ticket -> Ticket) (ts : list Ticket) :
  (forall t, id (f t) = id t) ->
  map id (update_ticket i f ts) = map id ts.
Proof.
  intro Hf. induction ts as [|t ts IH]; [reflexivity|].
  cbn [update_ticket]. destruct (id t =? i); cbn [map].
  - rewrite Hf. reflexivity.
  - rewrite IH. reflexivity.
Qed.

Lemma Z_includes_In (l : list Z) (x : Z) :
  Z_includes l x = true <-> In x l.
Proof.
  unfold Z_includes. rewrite existsb_exists. split.
  - intros (y & Hy & E). apply Z.eqb_eq in E. subst y. exact Hy.
  - intro H. exists x. split; [exact H | apply Z.eqb_refl].
Qed.

Lemma push_new_In (l : option (list Z)) (x y : Z) :
  In y (match push_new l x with Some d => d | None => [] end)
  <-> y = x \/ In y (match l with Some d => d | None => [] end).
Proof.
  unfold push_new.
  set (d := match l with Some d => d | None => [] end).
  destruct (Z_includes d x) eqn:E.
  - apply Z_includes_In in E. split; [intro H; right; exact H|].
    intros [->|H]; assumption.
  - rewrite in_app_iff. cbn [In]. split.
    + intros [H|[H|[]]]; [right; exact H | left; symmetry; exact H].
    + intros [->|H]; [right; left; reflexivity | left; exact H].
Qed.

Lemma without_In (l : option (list Z)) (x y : Z) :
  In y (match without l x with Some d => d | None => [] end)
  <-> y <> x /\ In y (match l with Some d => d | None => [] end).
Proof.
  destruct l as [d|]; cbn [without]; [|tauto].
  rewrite filter_In, negb_true_iff, Z.eqb_neq. tauto.
Qed.

Lemma getTicketById_add (s : Store) (x y a : Z) (tx ty : Ticket) :
  getTicketById s x = Some tx -> getTicketById s y = Some ty ->
  getTicketById (addDependency s x y) a
  = option_map
      (fun t =>
         let t := if a =? x
                  then set_dependsOn t (push_new (dependsOn t) y) else t in
         if a =? y then set_blockedBy t (push_new (blockedBy t) x) else t)
      (getTicketById s a).
Proof.
  intros Hx Hy. unfold addDependency. rewrite Hx, Hy.
  unfold getTicketById in *. cbn [tickets with_tickets].
  rewrite !find_update by reflexivity.
  destruct (a =? y) eqn:Ay; destruct (a =? x) eqn:Ax;
    try apply Z.eqb_eq in Ay; try apply Z.eqb_eq in Ax; subst.
  - rewrite Z.eqb_refl, Hx. reflexivity.
  - rewrite Ax. reflexivity.
  - reflexivity.
  - destruct (find (fun t => id t =? a) (tickets s)); reflexivity.
Qed.

Lemma getTicketById_remove (s : Store) (x y a : Z) :
  getTicketById (removeDependency s x y) a
  = option_map
      (fun t =>
         let t := if a =? x
                  then set_dependsOn t (without (dependsOn t) y) else t in
         if a =? y then set_blockedBy t (without (blockedBy t) x) else t)
      (getTicketById s a).
Proof.
  unfold removeDependency, getTicketById. cbn [tickets with_tickets].
  rewrite !find_update by reflexivity.
  destruct (Z.eqb_spec a y) as [Ey|Ny]; destruct (Z.eqb_spec a x) as [Ex|Nx].
  - subst x y. rewrite Z.eqb_refl.
    destruct (find (fun t => id t =? a) (tickets s)); reflexivity.
  - subst y.
    replace (a =? x) with false by (symmetry; apply Z.eqb_neq; exact Nx).
    reflexivity.
  - subst x. reflexivity.
  - destruct (find (fun t => id t =? a) (tickets s)); reflexivity.
Qed.





(** X22: [addDependency] and [removeDependency] keep the two sides of the
    dependencies consistent.  In a store where [b] is among the
    dependencies of [a] exactly when [a] is among the tickets that [b]
    blocks, this still holds after either call; neither call adds, removes
    or reorders tickets; after [addDependency(x, y)] on two existing
    tickets, [y] is a dependency of [x] and [x] is blocked by [y]; after
    [removeDependency(x, y)] neither is the case. *)
Theorem dependencies_linked (s : Store) (x y : Z) :
  linked s ->
  (let s' := removeDependency s x y in
   linked s'
   /\ map id (tickets s') = map id (tickets s)
   /\ (forall tx, getTicketById s' x = Some tx -> ~ In y (deps tx))
   /\ (forall ty, getTicketById s' y = Some ty -> ~ In x (blocks ty)))
  /\ (forall tx ty,
        getTicketById s x = Some tx -> getTicketById s y = Some ty ->
        let s' := addDependency s x y in
        linked s'
        /\ map id (tickets s') = map id (tickets s)
        /\ exists tx' ty',
             getTicketById s' x = Some tx' /\ getTicketById s' y = Some ty'
             /\ In y (deps tx') /\ In x (blocks ty')).
Proof.
  intro L. split.
  {
    intro s'. split; [|split; [|split]].
    - intros a b ta tb Ha Hb. unfold s' in Ha, Hb.
      rewrite getTicketById_remove in Ha, Hb.
      destruct (getTicketById s a) as [ta0|] eqn:Ea; [|discriminate].
      destruct (getTicketById s b) as [tb0|] eqn:Eb; [|discriminate].
      cbn [option_map] in Ha, Hb. injection Ha as <-. injection Hb as <-.
      specialize (L a b ta0 tb0 Ea Eb). cbv zeta.
      assert (Da : forall t0 : Ticket,
                 In b (deps (if a =? y
                             then set_blockedBy
                                    (if a =? x
                                     then set_dependsOn t0 (without (dependsOn t0) y)
                                     else t0)
                                    (without (blockedBy (if a =? x
                                     then set_dependsOn t0 (without (dependsOn t0) y)
                                     else t0)) x)
                             else if a =? x
                                  then set_dependsOn t0 (without (dependsOn t0) y)
                                  else t0))
                 <-> ~ (a = x /\ b = y) /\ In b (deps t0)).
      { intro t0. unfold deps. destruct (a =? y), (Z.eqb_spec a x);
          cbn [dependsOn set_blockedBy set_dependsOn];
          try rewrite without_In; tauto. }
      assert (Db : forall t0 : Ticket,
                 In a (blocks (if b =? y
                               then set_blockedBy
                                      (if b =? x
                                       then set_dependsOn t0 (without (dependsOn t0) y)
                                       else t0)
                                      (without (blockedBy (if b =? x
                                       then set_dependsOn t0 (without (dependsOn t0) y)
                                       else t0)) x)
                               else if b =? x
                                    then set_dependsOn t0 (without (dependsOn t0) y)
                                    else t0))
                 <-> ~ (a = x /\ b = y) /\ In a (blocks t0)).
      { intro t0. unfold blocks. destruct (Z.eqb_spec b y), (b =? x);
          cbn [blockedBy set_blockedBy set_dependsOn];
          try rewrite without_In; tauto. }
      rewrite Da, Db. tauto.
    - unfold s', removeDependency. cbn [tickets with_tickets].
      rewrite !map_id_update by reflexivity. reflexivity.
    - intros tx H. unfold s' in H. rewrite getTicketById_remove in H.
      destruct (getTicketById s x) as [t0|]; [|discriminate].
      cbn [option_map] in H. injection H as <-. rewrite Z.eqb_refl.
      unfold deps. destruct (x =? y);
        cbn [dependsOn set_blockedBy set_dependsOn];
        rewrite without_In; tauto.
    - intros ty H. unfold s' in H. rewrite getTicketById_remove in H.
      destruct (getTicketById s y) as [t0|]; [|discriminate].
      cbn [option_map] in H. injection H as <-. rewrite Z.eqb_refl.
      unfold blocks. cbn [blockedBy set_blockedBy].
      rewrite without_In. tauto.
  }
  {
    intros tx ty Hx Hy s'.
    assert (G := getTicketById_add s x y).
    split; [|split].
    - intros a b ta tb Ha Hb. unfold s' in Ha, Hb.
      rewrite (G a tx ty Hx Hy) in Ha. rewrite (G b tx ty Hx Hy) in Hb.
      destruct (getTicketById s a) as [ta0|] eqn:Ea; [|discriminate].
      destruct (getTicketById s b) as [tb0|] eqn:Eb; [|discriminate].
      cbn [option_map] in Ha, Hb. injection Ha as <-. injection Hb as <-.
      specialize (L a b ta0 tb0 Ea Eb).
      assert (Da : In b (deps (if a =? y
                               then set_blockedBy
                                      (if a =? x
                                       then set_dependsOn ta0 (push_new (dependsOn ta0) y)
                                       else ta0)
                                      (push_new (blockedBy (if a =? x
                                       then set_dependsOn ta0 (push_new (dependsOn ta0) y)
                                       else ta0)) x)
                               else if a =? x
                                    then set_dependsOn ta0 (push_new (dependsOn ta0) y)
                                    else ta0))
                   <-> (a = x /\ b = y) \/ In b (deps ta0)).
      { unfold deps. destruct (a =? y), (Z.eqb_spec a x);
          cbn [dependsOn set_blockedBy set_dependsOn];
          try rewrite push_new_In; tauto. }
      assert (Db : In a (blocks (if b =? y
                               then set_blockedBy
                                      (if b =? x
                                       then set_dependsOn tb0 (push_new (dependsOn tb0) y)
                                       else tb0)
                                      (push_new (blockedBy (if b =? x
                                       then set_dependsOn tb0 (push_new (dependsOn tb0) y)
                                       else tb0)) x)
                               else if b =? x
                                    then set_dependsOn tb0 (push_new (dependsOn tb0) y)
                                    else tb0))
                   <-> (a = x /\ b = y) \/ In a (blocks tb0)).
      { unfold blocks. destruct (Z.eqb_spec b y), (b =? x);
          cbn [blockedBy set_blockedBy set_dependsOn];
          try rewrite push_new_In; tauto. }
      cbv zeta. rewrite Da, Db. tauto.
    - unfold s', addDependency. rewrite Hx, Hy. cbn [tickets with_tickets].
      rewrite !map_id_update by reflexivity. reflexivity.
    - unfold s'. rewrite (G x tx ty Hx Hy), (G y tx ty Hx Hy), Hx, Hy.
      cbn [option_map]. do 2 eexists. split; [reflexivity|].
      split; [reflexivity|]. rewrite !Z.eqb_refl. split.
      + unfold deps. destruct (x =? y); cbn [dependsOn set_blockedBy set_dependsOn];
          rewrite push_new_In; left; reflexivity.
      + unfold blocks. cbn [blockedBy set_blockedBy]. rewrite push_new_In.
        left. reflexivity.
  }
Qed.


End Dependencies.

Lemma two_tickets_linked : linked two_tickets.
Proof.
  intros a b ta tb Ha Hb.
  apply find_some in Ha, Hb. destruct Ha as [Ha _], Hb as [Hb _].
  cbn in Ha, Hb.
  destruct Ha as [<-|[<-|[]]]; destruct Hb as [<-|[<-|[]]];
    cbn; tauto.
Qed.

Lemma dependencies_linked_witness :
  linked two_tickets
  /\ linked (ProjectStore.removeDependency two_tickets 2 1)
  /\ linked (ProjectStore.addDependency two_tickets 2 1)
  /\ ProjectStore.getTicketById (ProjectStore.addDependency two_tickets 2 1) 2
     = Some (ProjectStore.set_dependsOn (ticket 2 "GT-002") (Some [1%Z])).
Proof.
  pose proof (dependencies_linked two_tickets 2 1 two_tickets_linked) as T.
  exact (conj two_tickets_linked
           (conj (proj1 (proj1 T))
              (conj (proj1 (proj2 T (ticket 2 "GT-002") (ticket 1 "GT-001")
                              eq_refl eq_refl))
                    eq_refl))).
Defined.


Section Chain.

Import ProjectStore.

Open Scope Z_scope.

Lemma ticketChain_S (fuel : nat) (s : Store) (i : Z) (visited : list Z) :
  ticketChain (S fuel) s i visited
  = if Z_includes visited i then Some ([], visited)
    else match getTicketById s i with
         | None => Some ([], i :: visited)
         | Some t => chain_deps fuel s (deps t) [t] (i :: visited)
         end.
Proof.
  cbn [ticketChain]. destruct (Z_includes visited i); [reflexivity|].
  destruct (getTicketById s i) as [t|]; [|reflexivity].
  unfold deps. generalize (match dependsOn t with Some d => d | None => [] end).
  intro l. generalize [t]. generalize (i :: visited).
  induction l as [|d l IH]; intros v c; [reflexivity|].
  cbn [chain_deps]. destruct (ticketChain fuel s d v) as [[sub v']|]; [|reflexivity].
  apply IH.
Qed.

Lemma unvisited_mono (s : Store) (v v' : list Z) :
  incl v v' -> (unvisited s v' <= unvisited s v)%nat.
Proof.
  intro H. unfold unvisited.
  induction (tickets s) as [|t ts IH]; [reflexivity|].
  cbn [filter].
  destruct (Z_includes v (id t)) eqn:E; cbn [negb].
  - apply Z_includes_In in E. apply H in E. apply Z_includes_In in E.
    rewrite E. exact IH.
  - destruct (Z_includes v' (id t)); cbn [negb length]; lia.
Qed.

Lemma unvisited_visit (s : Store) (v : list Z) (i : Z) (t : Ticket) :
  getTicketById s i = Some t -> ~ In i v ->
  (unvisited s (i :: v) < unvisited s v)%nat.
Proof.
  unfold getTicketById, unvisited. intros H N.
  induction (tickets s) as [|a ts IH]; [discriminate|].
  cbn [find] in H. cbn [filter].
  assert (M : forall ts, (length (filter (fun t => negb (Z_includes (i :: v) (id t))) ts)
                          <= length (filter (fun t => negb (Z_includes v (id t))) ts))%nat).
  { intro l. apply (unvisited_mono {| phases := []; tickets := l;
                                      nextTicketNumber := 0;
                                      ticketLocalToUuid := [];
                                      ticketUuidToLocal := [];
                                      localIdCounter := 0 |} v (i :: v)).
    intros z Hz. right. exact Hz. }
  destruct (Z.eqb_spec (id a) i) as [E|NE].
  - assert (A1 : Z_includes (i :: v) (id a) = true)
      by (apply Z_includes_In; left; symmetry; exact E).
    assert (A2 : Z_includes v (id a) = false).
    { apply not_true_iff_false. rewrite Z_includes_In, E. exact N. }
    rewrite A1, A2. cbn [negb length]. specialize (M ts). lia.
  - specialize (IH H).
    assert (A : Z_includes (i :: v) (id a) = Z_includes v (id a)).
    { unfold Z_includes. cbn [existsb].
      replace (id a =? i) with false by (symmetry; apply Z.eqb_neq; exact NE).
      reflexivity. }
    rewrite A. destruct (Z_includes v (id a)); cbn [negb length]; lia.
Qed.

Lemma chain_ok_app (s : Store) (v v1 v2 : list Z) (c1 c2 : list Ticket) :
  chain_ok s v c1 v1 -> chain_ok s v1 c2 v2 -> chain_ok s v (c2 ++ c1) v2.
Proof.
  intros (I1 & N1 & P1) (I2 & N2 & P2). split; [|split].
  - intros z Hz. apply I2, I1, Hz.
  - rewrite map_app. apply NoDup_app.
    + exact N2.
    + exact N1.
    + intros z Hz2 Hz1. apply in_map_iff in Hz2, Hz1.
      destruct Hz2 as (t2 & <- & H2). destruct Hz1 as (t1 & E & H1).
      destruct (P2 t2 H2) as (_ & Q & _). apply Q.
      rewrite <- E. apply (P1 t1 H1).
  - intros t Ht. apply in_app_or in Ht. destruct Ht as [Ht|Ht].
    + destruct (P2 t Ht) as (A & B & C). repeat split; [exact A | | exact C].
      intro Hv. apply B, I1, Hv.
    + destruct (P1 t Ht) as (A & B & C). repeat split; [exact A | exact B |].
      apply I2, C.
Qed.

Lemma find_In (s : Store) (i : Z) (t : Ticket) :
  getTicketById s i = Some t -> In t (tickets s) /\ id t = i.
Proof.
  unfold getTicketById. intro H. apply find_some in H.
  destruct H as [H E]. apply Z.eqb_eq in E. split; assumption.
Qed.

Lemma ticketChain_total (fuel : nat) (s : Store) :
  forall (i : Z) (visited : list Z),
    (unvisited s visited < fuel)%nat ->
    exists chain visited',
      ticketChain fuel s i visited = Some (chain, visited')
      /\ chain_ok s visited chain visited'
      /\ (~ In i visited ->
          forall t, getTicketById s i = Some t ->
                    exists sub, chain = (sub ++ [t])%list).
Proof.
  induction fuel as [|fuel IH]; intros i visited Hf; [lia|].
  rewrite ticketChain_S.
  destruct (Z_includes visited i) eqn:E.
  - exists [], visited. split; [reflexivity|]. split.
    + split; [apply incl_refl|]. split; [constructor | intros t []].
    + intro N. apply Z_includes_In in E. contradiction.
  - assert (N : ~ In i visited).
    { intro H. apply Z_includes_In in H. congruence. }
    destruct (getTicketById s i) as [t|] eqn:G.
    + destruct (find_In s i t G) as [Tin Tid].
      pose proof (unvisited_visit s visited i t G N) as U.
      assert (L : forall ds chain v,
                (unvisited s v < fuel)%nat ->
                exists chain' v' sub,
                  chain_deps fuel s ds chain v = Some (chain', v')
                  /\ chain' = (sub ++ chain)%list
                  /\ chain_ok s v sub v').
      { induction ds as [|d ds IHd]; intros chain v Hv; cbn [chain_deps].
        - exists chain, v, []. split; [reflexivity|]. split; [reflexivity|].
          split; [apply incl_refl|]. split; [constructor | intros x []].
        - destruct (IH d v Hv) as (sub & v1 & -> & Ok1 & _).
          assert (Hv1 : (unvisited s v1 < fuel)%nat).
          { pose proof (unvisited_mono s v v1 (proj1 Ok1)). lia. }
          destruct (IHd (sub ++ chain)%list v1 Hv1) as (c' & v' & sub' & -> & -> & Ok2).
          exists (sub' ++ sub ++ chain)%list, v', (sub' ++ sub)%list.
          split; [reflexivity|]. split; [rewrite app_assoc; reflexivity|].
          exact (chain_ok_app s v v1 v' sub sub' Ok1 Ok2). }
      destruct (L (deps t) [t] (i :: visited) ltac:(lia))
        as (c' & v' & sub & -> & -> & (I & ND & P)).
      exists (sub ++ [t])%list, v'. split; [reflexivity|]. split.
      * split; [intros z Hz; apply I; right; exact Hz|]. split.
        -- rewrite map_app. apply NoDup_app; [exact ND | |].
           ++ cbn. constructor; [intros [] | constructor].
           ++ intros z Hz [<-|[]]. apply in_map_iff in Hz.
              destruct Hz as (t' & E' & H'). destruct (P t' H') as (_ & Q & _).
              apply Q. left. congruence.
        -- intros x Hx. apply in_app_or in Hx. destruct Hx as [Hx|[<-|[]]].
           ++ destruct (P x Hx) as (A & B & C). repeat split; [exact A | | exact C].
              intro H. apply B. right. exact H.
           ++ repeat split; [exact Tin | rewrite Tid; exact N |].
              apply I. left. symmetry. exact Tid.
      * intros _ t0 [= <-]. exists sub. reflexivity.
    + exists [], (i :: visited). split; [reflexivity|]. split.
      * split; [intros z Hz; right; exact Hz|].
        split; [constructor | intros t []].
      * intros _ t0 H0. discriminate.
Qed.

(** X24: [getTicketChain] returns on every store, also when the
    dependencies form a cycle or name tickets that do not exist: a depth of
    recursion of one more than the number of tickets is never exceeded.
    The chain holds tickets of the store only, no id twice, and ends with
    the requested ticket; it is empty when the ticket does not exist. *)
Theorem getTicketChain_returns (s : Store) (i : Z) :
  exists chain,
    getTicketChain s i = Some chain
    /\ NoDup (map id chain)
    /\ (forall t, In t chain -> In t (tickets s))
    /\ match getTicketById s i with
       | Some t => exists sub, chain = (sub ++ [t])%list
       | None => chain = []
       end.
Proof.
  unfold getTicketChain.
  assert (U : (unvisited s [] < S (length (tickets s)))%nat).
  { unfold unvisited.
    pose proof (filter_length_le (fun t => negb (Z_includes [] (id t)))
                  (tickets s)). lia. }
  destruct (ticketChain_total _ s i [] U) as (chain & v' & E & (I & ND & P) & Last).
  rewrite E. exists chain. split; [reflexivity|]. split; [exact ND|].
  split; [intros t Ht; apply (P t Ht)|].
  destruct (getTicketById s i) as [t|] eqn:G.
  - apply (Last (fun H => H) t eq_refl).
  - rewrite ticketChain_S in E. cbn [Z_includes existsb] in E.
    rewrite G in E. congruence.
Qed.

End Chain.

Section Hydration.

Import ProjectStore.

Open Scope Z_scope.

Lemma Map_get_set_Z {V} (m : list (Z * V)) (k k' : Z) (v : V) :
  Map_get Z.eqb (Map_set Z.eqb m k v) k'
  = if k =? k' then Some v else Map_get Z.eqb m k'.
Proof.
  induction m as [|[k0 v0] m IH]; cbn [Map_set Map_get]; [reflexivity|].
  destruct (Z.eqb_spec k0 k) as [->|N]; cbn [Map_get].
  - destruct (k =? k'); reflexivity.
  - rewrite IH. destruct (Z.eqb_spec k0 k') as [->|N']; [|reflexivity].
    replace (k =? k') with false by (symmetry; apply Z.eqb_neq; congruence).
    reflexivity.
Qed.

Lemma Map_get_set_string {V} (m : list (string * V)) (k k' : string) (v : V) :
  Map_get String.eqb (Map_set String.eqb m k v) k'
  = if String.eqb k k' then Some v else Map_get String.eqb m k'.
Proof.
  induction m as [|[k0 v0] m IH]; cbn [Map_set Map_get]; [reflexivity|].
  destruct (String.eqb_spec k0 k) as [->|N]; cbn [Map_get].
  - destruct (String.eqb k k'); reflexivity.
  - rewrite IH. destruct (String.eqb_spec k0 k') as [->|N']; [|reflexivity].
    replace (String.eqb k k') with false
      by (symmetry; apply String.eqb_neq; congruence).
    reflexivity.
Qed.

Lemma assign_frame (fetched : list DbTicket) (s : Store) :
  let '(s', objs) := assignLocalIds s fetched in
  map fst objs = fetched
  /\ map snd objs
     = map (fun k => localIdCounter s + Z.of_nat k) (seq 0 (length fetched))
  /\ localIdCounter s' = localIdCounter s + Z.of_nat (length fetched)
  /\ tickets s' = tickets s /\ phases s' = phases s
  /\ nextTicketNumber s' = nextTicketNumber s
  /\ (forall u, ~ In u (map db_id fetched) ->
        Map_get String.eqb (ticketUuidToLocal s') u
        = Map_get String.eqb (ticketUuidToLocal s) u)
  /\ (forall i, i < localIdCounter s ->
        Map_get Z.eqb (ticketLocalToUuid s') i
        = Map_get Z.eqb (ticketLocalToUuid s) i)
  /\ (forall u i, Map_get String.eqb (ticketUuidToLocal s') u = Some i ->
        Map_get String.eqb (ticketUuidToLocal s) u = Some i
        \/ localIdCounter s <= i < localIdCounter s + Z.of_nat (length fetched)).
Proof.
  revert s. induction fetched as [|t rest IH]; intro s.
  - cbn [assignLocalIds]. repeat split; try reflexivity.
    + cbn. lia.
    + intros u i H. left. exact H.
  - cbn [assignLocalIds].
    match goal with
    | |- context [assignLocalIds ?s1 rest] => specialize (IH s1);
        destruct (assignLocalIds s1 rest) as [s' objs]
    end.
    cbn [localIdCounter registerTicketMapping tickets phases nextTicketNumber
           ticketUuidToLocal ticketLocalToUuid] in IH.
    destruct IH as (F & S & C & T & P & N & U & L & V).
    split; [cbn [map fst]; rewrite F; reflexivity|].
    split.
    { cbn [map snd length seq]. rewrite S. f_equal; [lia|].
      rewrite <- seq_shift, map_map. apply map_ext. intro k. lia. }
    split; [rewrite C; cbn [length]; lia|].
    split; [exact T|]. split; [exact P|]. split; [exact N|].
    split; [|split].
    + intros u Hu. rewrite U by (intro H; apply Hu; right; exact H).
      rewrite Map_get_set_string.
      destruct (String.eqb_spec (db_id t) u) as [E|_]; [|reflexivity].
      exfalso. apply Hu. left. exact E.
    + intros i Hi. rewrite L by lia. rewrite Map_get_set_Z.
      replace (localIdCounter s =? i) with false
        by (symmetry; apply Z.eqb_neq; lia).
      reflexivity.
    + intros u i H. destruct (V u i H) as [H0|R].
      * rewrite Map_get_set_string in H0.
        destruct (String.eqb (db_id t) u).
        -- injection H0 as <-. right. cbn [length]. lia.
        -- left. exact H0.
      * right. cbn [length]. lia.
Qed.

Lemma assign_maps (fetched : list DbTicket) (s : Store) :
  NoDup (map db_id fetched) ->
  let '(s', objs) := assignLocalIds s fetched in
  forall t i, In (t, i) objs ->
    Map_get String.eqb (ticketUuidToLocal s') (db_id t) = Some i
    /\ Map_get Z.eqb (ticketLocalToUuid s') i = Some (db_id t).
Proof.
  revert s. induction fetched as [|t rest IH]; intros s ND.
  - cbn [assignLocalIds]. intros t i [].
  - cbn [assignLocalIds]. cbn [map] in ND. inversion ND as [|? ? Hn ND']; subst.
    match goal with
    | |- context [assignLocalIds ?s1 rest] =>
        specialize (IH s1 ND'); pose proof (assign_frame rest s1) as Fr;
        destruct (assignLocalIds s1 rest) as [s' objs]
    end.
    cbn [localIdCounter registerTicketMapping ticketUuidToLocal
           ticketLocalToUuid] in Fr.
    destruct Fr as (_ & _ & _ & _ & _ & _ & U & L & _).
    intros t0 i [E|H]; [|exact (IH t0 i H)].
    injection E as <- <-. split.
    + rewrite (U (db_id t) Hn), Map_get_set_string, String.eqb_refl.
      reflexivity.
    + rewrite L by lia. rewrite Map_get_set_Z, Z.eqb_refl. reflexivity.
Qed.


Lemma find_id (ts : list Ticket) (d : Z) :
  In d (map id ts) -> exists t, find (fun t => id t =? d) ts = Some t.
Proof.
  induction ts as [|a ts IH]; [intros []|].
  cbn [map find]. intros [E|H].
  - rewrite E, Z.eqb_refl. exists a. reflexivity.
  - destruct (id a =? d); [exists a; reflexivity | exact (IH H)].
Qed.

Lemma hydrated_ids (s : Store) (dbPhases : list DbPhase)
    (fetched : list DbTicket) :
  map id (tickets (hydrateTickets s dbPhases fetched))
  = map (fun k => 1000 + Z.of_nat k) (seq 0 (length fetched)).
Proof.
  unfold hydrateTickets.
  match goal with
  | |- context [assignLocalIds ?c fetched] =>
      pose proof (assign_frame fetched c) as Fr;
      destruct (assignLocalIds c fetched) as [s1 objs]
  end.
  cbn [localIdCounter] in Fr. destruct Fr as (_ & S & _).
  cbn [tickets with_tickets]. rewrite map_map, <- S.
  apply map_ext. intros [t i]. reflexivity.
Qed.

(** X25: hydration numbers the fetched tickets 1000, 1001, ... in the
    order of the rows and leaves the counter after the last id; every id
    in the [dependsOn] and [blockedBy] lists of a hydrated ticket is the id
    of a hydrated ticket (a UUID that is not among the fetched rows is
    dropped, never translated to a dangling id). *)
Theorem hydrateTickets_ids (s : Store) (dbPhases : list DbPhase)
    (fetched : list DbTicket) :
  let s' := hydrateTickets s dbPhases fetched in
  map id (tickets s')
  = map (fun k => 1000 + Z.of_nat k) (seq 0 (length fetched))
  /\ localIdCounter s' = 1000 + Z.of_nat (length fetched)
  /\ forall t d, In t (tickets s') -> In d (deps t) \/ In d (blocks t) ->
       exists t', getTicketById s' d = Some t'.
Proof.
  intro s'. split; [apply hydrated_ids|].
  pose proof (hydrated_ids s dbPhases fetched) as Ids. fold s' in Ids.
  unfold s', hydrateTickets in *.
  match goal with
  | |- context [assignLocalIds ?c fetched] =>
      pose proof (assign_frame fetched c) as Fr;
      destruct (assignLocalIds c fetched) as [s1 objs]
  end.
  cbn [localIdCounter ticketUuidToLocal] in Fr.
  destruct Fr as (_ & _ & C & _ & _ & _ & _ & _ & V).
  split; [exact C|].
  intros t d Ht Hd. unfold getTicketById. apply find_id. rewrite Ids.
  assert (R : 1000 <= d < 1000 + Z.of_nat (length fetched)).
  { cbn [tickets with_tickets] in Ht. apply in_map_iff in Ht.
    destruct Ht as ([t0 i] & <- & _).
    unfold deps, blocks in Hd. cbn [dependsOn blockedBy] in Hd.
    unfold mapUuidsToLocalIds in Hd.
    destruct Hd as [Hd|Hd]; apply in_flat_map in Hd;
      destruct Hd as (u & _ & Hu);
      destruct (Map_get String.eqb (ticketUuidToLocal s1) u) as [j|] eqn:E;
      try destruct Hu as [<-|[]]; try destruct Hu;
      destruct (V u j E) as [H0|H0]; try discriminate H0; exact H0. }
  apply in_map_iff. exists (Z.to_nat (d - 1000)). split; [lia|].
  apply in_seq. lia.
Qed.

(** X26: after hydration from rows with distinct, non-empty UUIDs, the
    two id maps are inverse to each other on the hydrated tickets:
    translating a list of their local ids to UUIDs and back gives the list
    again, and no id is dropped on the way. *)
Theorem hydrateTickets_round_trip (s : Store) (dbPhases : list DbPhase)
    (fetched : list DbTicket) (ids : list Z) :
  NoDup (map db_id fetched) ->
  (forall t, In t fetched -> db_id t <> ""%string) ->
  let s' := hydrateTickets s dbPhases fetched in
  (forall i, In i ids -> In i (map id (tickets s'))) ->
  mapUuidsToLocalIds s' (Some (mapLocalIdsToUuids s' (Some ids))) = ids
  /\ length (mapLocalIdsToUuids s' (Some ids)) = length ids.
Proof.
  intros ND NE s' Hin.
  unfold s', hydrateTickets in *.
  match goal with
  | |- context [assignLocalIds ?c fetched] =>
      pose proof (assign_frame fetched c) as Fr;
      pose proof (assign_maps fetched c ND) as Mp;
      destruct (assignLocalIds c fetched) as [s1 objs]
  end.
  destruct Fr as (F & _).
  cbn [tickets with_tickets] in Hin. rewrite map_map in Hin.
  assert (P : forall i, In i ids ->
            exists u, u <> ""%string
                      /\ Map_get Z.eqb (ticketLocalToUuid s1) i = Some u
                      /\ Map_get String.eqb (ticketUuidToLocal s1) u = Some i).
  { intros i Hi. specialize (Hin i Hi). apply in_map_iff in Hin.
    destruct Hin as ([t j] & E & Ho). cbn [id] in E. subst j.
    destruct (Mp t i Ho) as [M1 M2]. exists (db_id t).
    split; [|split; assumption].
    apply NE. rewrite <- F. apply in_map_iff. exists (t, i).
    split; [reflexivity | exact Ho]. }
  clear Hin Mp F.
  unfold mapUuidsToLocalIds, mapLocalIdsToUuids.
  cbn [ticketLocalToUuid ticketUuidToLocal with_tickets].
  induction ids as [|i ids IH]; [split; reflexivity|].
  destruct (P i (or_introl eq_refl)) as (u & Nu & M1 & M2).
  destruct (IH (fun j Hj => P j (or_intror Hj))) as [IH1 IH2].
  cbn [flat_map]. rewrite M1.
  replace (string_falsy (Some u)) with false
    by (destruct u; [congruence | reflexivity]).
  cbn [app flat_map]. rewrite M2. cbn [app length].
  rewrite IH1, IH2. split; reflexivity.
Qed.

End Hydration.

Lemma two_rows_distinct : NoDup (map ProjectStore.db_id two_rows).
Proof.
  cbn. constructor; [intros [H|[]]; discriminate H|].
  constructor; [intros [] | constructor].
Qed.

Lemma two_rows_named (t : ProjectStore.DbTicket) :
  In t two_rows -> ProjectStore.db_id t <> ""%string.
Proof. intros [<-|[<-|[]]]; discriminate. Qed.

Lemma hydrateTickets_round_trip_witness :
  NoDup (map ProjectStore.db_id two_rows)
  /\ ProjectStore.mapLocalIdsToUuids
       (ProjectStore.hydrateTickets ProjectStore.initial [] two_rows)
       (Some [1001; 1000]%Z)
     = ["uuid-b"; "uuid-a"]%string
  /\ ProjectStore.mapUuidsToLocalIds
       (ProjectStore.hydrateTickets ProjectStore.initial [] two_rows)
       (Some
          (ProjectStore.mapLocalIdsToUuids
             (ProjectStore.hydrateTickets ProjectStore.initial [] two_rows)
             (Some [1001; 1000]%Z)))
     = [1001; 1000]%Z.
Proof.
  assert (H : forall i, In i [1001; 1000]%Z ->
              In i (map ProjectStore.id
                      (ProjectStore.tickets
                         (ProjectStore.hydrateTickets ProjectStore.initial
                            [] two_rows))))
    by (intros i [<-|[<-|[]]]; cbn; tauto).
  exact (conj two_rows_distinct
           (conj eq_refl
              (proj1 (hydrateTickets_round_trip ProjectStore.initial []
                        two_rows [1001; 1000]%Z two_rows_distinct
                        two_rows_named H)))).
Defined.

Section Progress.

Import ProjectStore.

Open Scope R_scope.

Lemma percentage_range (done total : nat) :
  (done <= total)%nat -> (0 < total)%nat ->
  exists n : Z,
    Math_round (mul (div (Fin (INR done)) (Fin (INR total))) (Fin 100))
    = Fin (IZR n)
    /\ (0 <= n <= 100)%Z
                /\ (done = total -> n = 100%Z)
                /\ (done = 0%nat -> n = 0%Z).
Proof.
  intros L P.
  assert (Pt : 0 < INR total) by (apply lt_0_INR; exact P).
  assert (Ld : 0 <= INR done <= INR total)
    by (split; [apply pos_INR | apply le_INR; exact L]).
  rewrite div_Fin by lra. cbn [mul lift2 Math_round lift1].
  exists (Int_part (INR done / INR total * 100 + / 2)).
  split; [reflexivity|].
  assert (B : 0 <= INR done / INR total <= 1).
  { split.
    - apply Rmult_le_pos; [lra | apply Rlt_le, Rinv_0_lt_compat, Pt].
    - apply Rmult_le_reg_r with (INR total); [exact Pt|].
      unfold Rdiv. rewrite Rmult_assoc, Rinv_l by lra. lra. }
  split; [apply Int_part_range; lra|]. split.
  - intros ->. symmetry. apply Int_part_spec.
    replace (INR total / INR total) with 1 by (field; lra). lra.
  - intros ->. symmetry. apply Int_part_spec.
    cbn [INR]. unfold Rdiv. rewrite Rmult_0_l. lra.
Qed.

Lemma filter_none {A} (f : A -> bool) (l : list A) :
  (forall x, In x l -> f x = false) -> filter f l = [].
Proof.
  induction l as [|a l IH]; intro H; [reflexivity|].
  cbn [filter]. rewrite (H a (or_introl eq_refl)).
  apply IH. intros x Hx. apply H. right. exact Hx.
Qed.

(** X27: the progress of a phase and the progress of its go/no-go criteria
    are whole percentages between 0 and 100; the progress of a phase is 0
    when it has no ticket or none is done, and 100 when it has tickets and
    all are done. *)
Theorem progress_range (s : Store) (p : value Z) (phase : Phase) :
  (exists n : Z,
      getPhaseProgress s p = Fin (IZR n) /\ (0 <= n <= 100)%Z
      /\ (getTicketsByPhase s p <> [] ->
          Forall (fun t => status t = "done"%string) (getTicketsByPhase s p) ->
          n = 100%Z)
      /\ (Forall (fun t => status t <> "done"%string) (getTicketsByPhase s p) ->
          n = 0%Z))
  /\ exists n : Z,
       getCriteriaProgress phase = Fin (IZR n) /\ (0 <= n <= 100)%Z.
Proof.
  split.
  {
    unfold getPhaseProgress.
    destruct (getTicketsByPhase s p) as [|t ts] eqn:E.
    - exists 0%Z. split; [reflexivity|]. split; [lia|].
      split; [congruence | reflexivity].
    - set (l := t :: ts).
      set (done := length (filter (fun t0 => String.eqb (status t0) "done") l)).
      destruct (percentage_range done (length l)) as (n & En & Rn & Full & Zero).
      + apply filter_length_le.
      + cbn. lia.
      + exists n. split; [exact En|]. split; [exact Rn|]. split.
        * intros _ F. apply Full. unfold done.
          rewrite forallb_filter_id; [reflexivity|].
          apply forallb_forall. intros x Hx. rewrite Forall_forall in F.
          apply String.eqb_eq, F, Hx.
        * intro F. apply Zero. unfold done.
          rewrite filter_none; [reflexivity|].
          intros x Hx. rewrite Forall_forall in F.
          apply String.eqb_neq, F, Hx.
  }
  {
    unfold getCriteriaProgress.
    destruct (goNoGoCriteria phase) as [[|c cs]|].
    - exists 0%Z. split; [reflexivity | lia].
    - destruct (percentage_range
                  (length (filter completed (c :: cs))) (length (c :: cs)))
        as (n & En & Rn & _).
      + apply filter_length_le.
      + cbn. lia.
      + exists n. split; [exact En | exact Rn].
    - exists 0%Z. split; [reflexivity | lia].
  }
Qed.

(** ** Budget *)

Lemma sum_amounts_acc (ps : list Purchase) (a : R) :
  exists x,
    fold_left (fun sum p => add sum (or_number (amount p) (Fin 0))) ps (Fin a)
    = Fin (a + x)
    /\ fold_left (fun sum p => add sum (or_number (amount p) (Fin 0))) ps (Fin 0)
       = Fin x.
Proof.
  revert a. induction ps as [|p ps IH]; intro a; cbn [fold_left].
  - exists 0. split; [f_equal; lra | reflexivity].
  - assert (E : exists y, or_number (amount p) (Fin 0) = Fin y).
    { destruct (amount p) as [| |[|y]]; cbn; try (exists 0; reflexivity).
      destruct (Reqb y 0); eexists; reflexivity. }
    destruct E as (y & ->). cbn [add lift2].
    destruct (IH (a + y)) as (x & E1 & E2).
    destruct (IH (0 + y)) as (x' & E1' & E2').
    assert (x' = x) by congruence. subst x'.
    exists (y + x). split; [rewrite E1; f_equal; lra|].
    rewrite E1'. f_equal. lra.
Qed.

Lemma find_phase (ps : list Phase) (p : Phase) :
  NoDup (map phase_no ps) -> In p ps ->
  find (fun q => (phase_no q =? phase_no p)%Z) ps = Some p.
Proof.
  induction ps as [|a ps IH]; [intros _ []|].
  cbn [map find]. intro ND. inversion ND as [|? ? Hn ND']; subst.
  intros [->|H]; [rewrite Z.eqb_refl; reflexivity|].
  destruct (Z.eqb_spec (phase_no a) (phase_no p)) as [E|_]; [|exact (IH ND' H)].
  exfalso. apply Hn. rewrite E. apply in_map. exact H.
Qed.

Lemma fold_budget (ps : list Phase) (a : R) :
  exists x,
    fold_left (fun sum p => add sum (or_number (budget p) (Fin 0))) ps (Fin a)
    = Fin x.
Proof.
  revert a. induction ps as [|p ps IH]; intro a; cbn [fold_left].
  - exists a. reflexivity.
  - assert (E : exists y, or_number (budget p) (Fin 0) = Fin y).
    { destruct (budget p) as [| |[|y]]; cbn; try (exists 0; reflexivity).
      destruct (Reqb y 0); eexists; reflexivity. }
    destruct E as (y & ->). cbn [add lift2]. apply IH.
Qed.

(** X28: when the phases have distinct numbers, the total spent is the sum
    of what [getPhaseSpent] returns for each phase; the total spent and the
    total budget are numbers, never [NaN], also when an amount or a budget
    is missing, null or [NaN] (it counts for 0). *)
Theorem getTotalSpent_phases (s : Store) :
  NoDup (map phase_no (phases s)) ->
  getTotalSpent s
  = fold_left add (map (fun p => getPhaseSpent s (phase_no p)) (phases s))
      (Fin 0)
  /\ (exists x, getTotalSpent s = Fin x)
  /\ exists y, getTotalBudget s = Fin y.
Proof.
  intro ND. split; [|split; [|apply fold_budget]].
  - unfold getTotalSpent.
    assert (E : forall l a,
              (forall p, In p l -> In p (phases s)) ->
              fold_left
                (fun sum p =>
                   add sum (sum_amounts (match purchases p with
                                         | Some ps => ps
                                         | None => []
                                         end))) l a
              = fold_left add (map (fun p => getPhaseSpent s (phase_no p)) l) a).
    { induction l as [|p l IH]; intros a H; [reflexivity|].
      cbn [fold_left map]. rewrite IH by (intros q Hq; apply H; right; exact Hq).
      do 2 f_equal. unfold getPhaseSpent.
      rewrite (find_phase (phases s) p ND (H p (or_introl eq_refl))).
      destruct (purchases p); reflexivity. }
    apply E. intros p Hp. exact Hp.
  - unfold getTotalSpent.
    assert (F : forall l a, exists x,
              fold_left
                (fun sum p =>
                   add sum (sum_amounts (match purchases p with
                                         | Some ps => ps
                                         | None => []
                                         end))) l (Fin a) = Fin x).
    { induction l as [|p l IH]; intro a; cbn [fold_left].
      - exists a. reflexivity.
      - unfold sum_amounts at 2.
        destruct (sum_amounts_acc (match purchases p with
                                   | Some ps => ps
                                   | None => []
                                   end) 0) as (y & _ & ->).
        cbn [add lift2]. apply IH. }
    apply F.
Qed.

End Progress.

Lemma budget_store_distinct :
  NoDup (map ProjectStore.phase_no (ProjectStore.phases budget_store)).
Proof.
  cbn. constructor; [intros [H|[]]; discriminate H|].
  constructor; [intros [] | constructor].
Qed.

Lemma getTotalSpent_phases_witness :
  NoDup (map ProjectStore.phase_no (ProjectStore.phases budget_store))
  /\ ProjectStore.getTotalSpent budget_store
     = fold_left add
         (map (fun p => ProjectStore.getPhaseSpent budget_store
                          (ProjectStore.phase_no p))
            (ProjectStore.phases budget_store))
         (Fin 0%R).
Proof.
  exact (conj budget_store_distinct
           (proj1 (getTotalSpent_phases budget_store budget_store_distinct))).
Defined.

Section Tickets.

Import ProjectStore.

Open Scope string_scope.
Open Scope Z_scope.

Lemma find_remove_first (i j : Z) (ts : list Ticket) :
  j <> i ->
  find (fun t => id t =? j) (remove_first i ts)
  = find (fun t => id t =? j) ts.
Proof.
  intro N. induction ts as [|a ts IH]; [reflexivity|].
  cbn [remove_first find].
  destruct (Z.eqb_spec (id a) i) as [E|NE].
  - replace (id a =? j) with false
      by (symmetry; apply Z.eqb_neq; congruence).
    reflexivity.
  - cbn [find]. rewrite IH. reflexivity.
Qed.

Lemma find_remove_first_same (i : Z) (ts : list Ticket) :
  NoDup (map id ts) ->
  find (fun t => id t =? i) (remove_first i ts) = None.
Proof.
  induction ts as [|a ts IH]; [reflexivity|].
  cbn [map remove_first]. intro ND. inversion ND as [|? ? Hn ND']; subst.
  destruct (Z.eqb_spec (id a) i) as [E|NE].
  - destruct (find (fun t => id t =? i) ts) as [t|] eqn:F; [|reflexivity].
    apply find_some in F. destruct F as [Hin Hid]. apply Z.eqb_eq in Hid.
    exfalso. apply Hn. rewrite E, <- Hid. apply in_map. exact Hin.
  - cbn [find].
    replace (id a =? i) with false by (symmetry; apply Z.eqb_neq; exact NE).
    exact (IH ND').
Qed.

Lemma tickets_deleteTicket (s : Store) (i : Z) (t : Ticket) :
  getTicketById s i = Some t ->
  tickets (deleteTicket s i) = remove_first i (tickets s).
Proof.
  intro H. unfold deleteTicket. rewrite H.
  destruct (Map_get Z.eqb (ticketLocalToUuid s) i) as [u|]; [|reflexivity].
  destruct (string_falsy (Some u)); reflexivity.
Qed.

Lemma lookup_all_ids (s : Store) (ids : list Z) (t : Ticket) :
  In t (lookup_all s ids) -> getTicketById s (id t) = Some t.
Proof.
  unfold lookup_all. intro H. apply in_flat_map in H.
  destruct H as (j & _ & H).
  destruct (getTicketById s j) as [t'|] eqn:E; [|destruct H].
  destruct H as [<-|[]].
  destruct (find_In s j t' E) as [_ <-]. exact E.
Qed.

(** X29: in a store whose tickets have distinct ids, [deleteTicket(i)]
    removes the ticket [i] and changes no other ticket (their lists may
    still name [i]); [getDependencyTickets] and [getBlockedTickets] skip
    such an id and never return the deleted ticket. *)
Theorem deleteTicket_gone (s : Store) (i : Z) :
  NoDup (map id (tickets s)) ->
  let s' := deleteTicket s i in
  getTicketById s' i = None
  /\ (forall j, j <> i -> getTicketById s' j = getTicketById s j)
  /\ (forall j t, In t (getDependencyTickets s' j) \/ In t (getBlockedTickets s' j) ->
        id t <> i).
Proof.
  intros ND s'.
  assert (A : getTicketById s' i = None).
  { unfold s'. destruct (getTicketById s i) as [t|] eqn:E.
    - unfold getTicketById. rewrite (tickets_deleteTicket s i t E).
      apply find_remove_first_same, ND.
    - unfold deleteTicket. rewrite E. exact E. }
  split; [exact A|]. split.
  - intros j N. unfold s'. destruct (getTicketById s i) as [t|] eqn:E.
    + unfold getTicketById. rewrite (tickets_deleteTicket s i t E).
      apply find_remove_first, N.
    + unfold deleteTicket. rewrite E. reflexivity.
  - intros j t H Et.
    assert (G : getTicketById s' (id t) = Some t).
    { unfold getDependencyTickets, getBlockedTickets in H.
      destruct (getTicketById s' j) as [tj|]; [|destruct H as [[]|[]]].
      destruct H as [H|H].
      - destruct (dependsOn tj); [exact (lookup_all_ids _ _ _ H) | destruct H].
      - destruct (blockedBy tj); [exact (lookup_all_ids _ _ _ H) | destruct H]. }
    rewrite Et, A in G. discriminate.
Qed.

(** ** Ticket numbers *)

Lemma ticket_number_reads_back (n : Z) :
  0 <= n ->
  parseInt (Some (padStart 3 "0" (String_of_Z n))) = Fin n.
Proof. apply parseInt_padStart. Qed.

(** X30: two tickets added one after the other get the ticket numbers
    that [getNextTicketNumber] announced before each call, and the two
    numbers differ; both tickets are appended to the store in that order;
    the digits after "GT-" read back as the number [n >= 1] of the first
    ticket, and the counter then stands at [n + 2]. *)
Theorem addTicket_numbers (s : Store) (now1 now2 : Z)
    (in1 in2 : TicketInput) :
  0 <= nextTicketNumber s ->
  let '(s1, t1) := addTicket s now1 in1 in
  let '(s2, t2) := addTicket s1 now2 in2 in
  ticketNumber t1 = getNextTicketNumber s
  /\ ticketNumber t2 = getNextTicketNumber s1
  /\ ticketNumber t1 <> ticketNumber t2
  /\ tickets s2 = (tickets s ++ [t1; t2])%list
  /\ exists n, parseInt (Some (substring 3 (String.length (ticketNumber t1) - 3)
                                 (ticketNumber t1))) = Fin n
               /\ 1 <= n /\ nextTicketNumber s2 = n + 2.
Proof.
  intro H. unfold addTicket. cbn [ticketNumber tickets nextTicketNumber].
  set (n := if nextTicketNumber s =? 0 then 1 else nextTicketNumber s).
  assert (Hn : 1 <= n) by (unfold n; destruct (Z.eqb_spec (nextTicketNumber s) 0); lia).
  split; [reflexivity|]. split; [reflexivity|].
  unfold getNextTicketNumber. cbn [nextTicketNumber]. fold n.
  replace (n + 1 =? 0) with false by (symmetry; apply Z.eqb_neq; lia).
  split; [|split].
  - intro E. injection E as E.
    apply (f_equal (fun x => parseInt (Some x))) in E.
    rewrite !ticket_number_reads_back in E by lia.
    injection E as E. lia.
  - rewrite <- app_assoc. reflexivity.
  - exists n. split; [|split; [exact Hn | lia]].
    change ("GT-" ++ padStart 3 "0" (String_of_Z n))
      with (String "G" (String "T" (String "-" (padStart 3 "0" (String_of_Z n))))).
    cbn [String.length Nat.sub substring]. rewrite Nat.sub_0_r.
    replace (substring 0 (String.length (padStart 3 "0" (String_of_Z n)))
               (padStart 3 "0" (String_of_Z n)))
      with (padStart 3 "0" (String_of_Z n)).
    + apply ticket_number_reads_back. lia.
    + generalize (padStart 3 "0" (String_of_Z n)). intro x.
      induction x as [|c x IH]; [reflexivity|].
      cbn [String.length substring]. rewrite <- IH. reflexivity.
Qed.

End Tickets.

Lemma two_tickets_distinct :
  NoDup (map ProjectStore.id (ProjectStore.tickets two_tickets)).
Proof.
  cbn. constructor; [intros [H|[]]; discriminate H|].
  constructor; [intros [] | constructor].
Qed.

Lemma deleteTicket_gone_witness :
  NoDup (map ProjectStore.id (ProjectStore.tickets two_tickets))
  /\ ProjectStore.getTicketById (ProjectStore.deleteTicket two_tickets 1) 1
     = None
  /\ ProjectStore.getTicketById (ProjectStore.deleteTicket two_tickets 1) 2
     = Some (ticket 2 "GT-002").
Proof.
  pose proof (deleteTicket_gone two_tickets 1 two_tickets_distinct) as T.
  exact (conj two_tickets_distinct (conj (proj1 T) eq_refl)).
Defined.

Lemma addTicket_numbers_witness :
  (0 <= ProjectStore.nextTicketNumber two_tickets)%Z
  /\ let '(s1, t1) := ProjectStore.addTicket two_tickets 10 no_input in
     let '(s2, t2) := ProjectStore.addTicket s1 11 no_input in
     ProjectStore.ticketNumber t1 = "GT-003"%string
     /\ ProjectStore.ticketNumber t2 = "GT-004"%string
     /\ ProjectStore.ticketNumber t1 <> ProjectStore.ticketNumber t2.
Proof.
  assert (H : (0 <= ProjectStore.nextTicketNumber two_tickets)%Z)
    by (cbn; lia).
  pose proof (addTicket_numbers two_tickets 10 11 no_input no_input H) as T.
  exact (conj H (conj eq_refl (conj eq_refl (proj1 (proj2 (proj2 T)))))).
Defined.
